(** * Confluence PDF export service: a shallow embedding of [app.py]

    The development follows the source file top to bottom.  Python values
    that cross the JSON boundary are kept dynamically typed ([pyval]), the
    wiki service and the clock are an explicit world threaded through a
    small state-and-exception monad, and every network request and every
    sleep is appended to an event log, so that statements about "how many
    calls" and "which waits" are statements about that log.

    Modelling boundary:
    - a Python [str] is a list of Unicode code points; [str.isspace] is the
      concrete table of CPython, [str.isalnum] (behind the regex class \w),
      [str.lower] and [repr] of compound values are taken from a
      [PyRuntime];
    - JSON numbers are integers;
    - what the caller configures is typed: [domain], [email], [api_token]
      and [space_key] are strings, [output_path] and [gcs_bucket_name] are
      a string or [None], [wait_time] is an integer or [None]; page ids
      and titles, which may come from the service, are [pyval];
    - [requests.get] either returns a response or raises a
      [RequestException]; which of the two is decided by the [Service];
      request headers other than the credentials are left out;
    - the local file system belongs to the world: the [Service] decides
      whether a directory can be ensured and a file written, and a
      refusal is an [OSError]; the test [os.path.exists] followed by
      [os.makedirs] is the one event [EvMakedirs]; [print] and the
      timestamps are not modelled;
    - the unbounded [while url:] of the listing runs on fuel, and running
      out of it is a result of its own ([OutOfFuel]), never a value. *)

From Stdlib Require Import ZArith NArith List Bool Lia String Ascii DecimalString.
From stdpp Require Import base option list gmap.
Import ListNotations.

Set Warnings "-register-all".
Local Open Scope Z_scope.

(** ** Python strings *)

Abbreviation codepoint := N (only parsing).
Abbreviation str := (list N) (only parsing).

(** A source-code literal, one code point per character. *)
Definition lit (s : string) : str := map N_of_ascii (list_ascii_of_string s).
Arguments lit : simpl never.

Definition dq : codepoint := 34%N.      (* the double quote *)
Definition space : codepoint := 32%N.
Definition underscore : codepoint := 95%N.
Definition slash : codepoint := 47%N.
Definition comma : codepoint := 44%N.
Definition semicolon : codepoint := 59%N.
Definition langle : codepoint := 60%N.
Definition rangle : codepoint := 62%N.

Definition str_eqb (a b : str) : bool := bool_decide (a = b).

(** [str.isspace] for one code point (CPython's [_PyUnicode_IsWhitespace]);
    the regex class \s of a [str] pattern is the same set. *)
Definition isspace (c : codepoint) : bool :=
  (((9 <=? c) && (c <=? 13)) || ((28 <=? c) && (c <=? 32))
   || (c =? 133) || (c =? 160) || (c =? 5760)
   || ((8192 <=? c) && (c <=? 8202))
   || (c =? 8232) || (c =? 8233) || (c =? 8239) || (c =? 8287)
   || (c =? 12288))%N.

(** ** Python values and exceptions *)

(** A decoded JSON document, which is also every other Python value the
    code handles: [None], booleans, integers, strings, lists, and
    dictionaries with string keys in insertion order. *)
Inductive pyval : Type :=
| PNone
| PBool (b : bool)
| PInt (z : Z)
| PStr (s : str)
| PList (items : list pyval)
| PDict (entries : list (str * pyval)).

Inductive exn : Type :=
| AttributeError | KeyError | TypeError | IndexError | ValueError
| NameError | OSError | OverflowError | RequestException.

(** The result of running a piece of code: a value, an exception, or the
    model running out of fuel in an unbounded loop. *)
Inductive res (A : Type) : Type :=
| Ret (a : A)
| Raise (e : exn)
| OutOfFuel.
Arguments Ret {A} a.
Arguments Raise {A} e.
Arguments OutOfFuel {A}.

(** What the interpreter supplies and the model does not tabulate. *)
Class PyRuntime := {
  isalnum : codepoint -> bool;        (* str.isalnum on one code point *)
  py_lower : str -> str;              (* str.lower *)
  py_repr : pyval -> str              (* repr of a list or a dict *)
}.

(** [s.lstrip] / [s.rstrip] with the stripped set given as a predicate. *)
Fixpoint lstrip_by (p : codepoint -> bool) (s : str) : str :=
  match s with
  | [] => []
  | c :: s' => if p c then lstrip_by p s' else s
  end.

Fixpoint rstrip_by (p : codepoint -> bool) (s : str) : str :=
  match s with
  | [] => []
  | c :: s' =>
      match rstrip_by p s' with
      | [] => if p c then [] else [c]
      | r => c :: r
      end
  end.

Definition strip_by (p : codepoint -> bool) (s : str) : str :=
  rstrip_by p (lstrip_by p s).

Definition in_chars (chars : str) (c : codepoint) : bool :=
  existsb (N.eqb c) chars.

(** [s.strip()], [s.strip(chars)], [s.rstrip(chars)] *)
Definition py_strip (s : str) : str := strip_by isspace s.
Definition py_strip_chars (chars s : str) : str := strip_by (in_chars chars) s.
Definition py_rstrip_chars (chars s : str) : str := rstrip_by (in_chars chars) s.

(** [s.replace(a, b)] for one-character [a] and [b]. *)
Definition py_replace (a b : codepoint) (s : str) : str :=
  map (fun c => if (c =? a)%N then b else c) s.

(** [s[:n]] *)
Definition py_slice_to (n : Z) (s : str) : str :=
  if n <? 0 then take (Z.to_nat (Z.of_nat (length s) + n)) s
  else take (Z.to_nat n) s.

(** [s.split(sep)] for a one-character separator. *)
Fixpoint py_split (sep : codepoint) (s : str) : list str :=
  match s with
  | [] => [[]]
  | c :: s' =>
      if (c =? sep)%N then [] :: py_split sep s'
      else match py_split sep s' with
           | [] => [[c]]
           | piece :: rest => (c :: piece) :: rest
           end
  end.

Fixpoint is_prefix (p s : str) : bool :=
  match p, s with
  | [], _ => true
  | _ :: _, [] => false
  | a :: p', b :: s' => (a =? b)%N && is_prefix p' s'
  end.

(** [s.endswith(suffix)] *)
Definition py_endswith (suffix s : str) : bool :=
  is_prefix (rev suffix) (rev s).

(** [needle in hay] between two strings *)
Fixpoint py_substring (needle hay : str) : bool :=
  is_prefix needle hay ||
  match hay with
  | [] => false
  | _ :: hay' => py_substring needle hay'
  end.

(** ** Filename sanitiser (app.py, [convert_title_to_filename]) *)

(** The regex class \w: alphanumerics and the underscore. *)
Definition is_word `{PyRuntime} (c : codepoint) : bool :=
  isalnum c || (c =? underscore)%N.

(** [re.sub(r'\W+', '', s)]: every maximal run of non-word characters is
    replaced by the empty string, that is, exactly the word characters
    are kept. *)
Definition re_sub_nonword `{PyRuntime} (s : str) : str := filter (fun c => is_word c = true) s.

Definition default_max_length : Z := 100.

Definition convert_title_to_filename `{PyRuntime} (title : str) (max_length : Z) : str :=
  let result := re_sub_nonword (py_replace space underscore (py_strip title)) in
  py_rstrip_chars [underscore] (py_slice_to max_length result).

(** ** Dynamic typing: the operations the code applies to decoded JSON *)

Definition res_bind {A B} (r : res A) (k : A -> res B) : res B :=
  match r with
  | Ret a => k a
  | Raise e => Raise e
  | OutOfFuel => OutOfFuel
  end.

Definition res_map {A B} (f : A -> B) (r : res A) : res B :=
  match r with
  | Ret a => Ret (f a)
  | Raise e => Raise e
  | OutOfFuel => OutOfFuel
  end.

(** [bool(v)], as used by [if v], [not v] and [a and b]. *)
Definition truthy (v : pyval) : bool :=
  match v with
  | PNone => false
  | PBool b => b
  | PInt z => negb (z =? 0)
  | PStr s => match s with [] => false | _ => true end
  | PList l => match l with [] => false | _ => true end
  | PDict d => match d with [] => false | _ => true end
  end.

Definition is_none (v : pyval) : bool :=
  match v with PNone => true | _ => false end.

Fixpoint dict_find (k : str) (entries : list (str * pyval)) : option pyval :=
  match entries with
  | [] => None
  | (k', v) :: rest => if str_eqb k' k then Some v else dict_find k rest
  end.

(** [k in v] for a string literal [k]: key membership in a dict, element
    membership in a list, substring test in a string, [TypeError] on the
    rest. *)
Definition py_in (k : str) (v : pyval) : res bool :=
  match v with
  | PDict d => Ret (match dict_find k d with Some _ => true | None => false end)
  | PList l =>
      Ret (existsb (fun x => match x with PStr s => str_eqb s k | _ => false end) l)
  | PStr hay => Ret (py_substring k hay)
  | PNone | PBool _ | PInt _ => Raise TypeError
  end.

(** [v.get(k)]: only a dict has the method. *)
Definition py_get (v : pyval) (k : str) : res pyval :=
  match v with
  | PDict d => Ret (match dict_find k d with Some x => x | None => PNone end)
  | _ => Raise AttributeError
  end.

(** [v[k]] for a string literal [k]. *)
Definition py_getitem (v : pyval) (k : str) : res pyval :=
  match v with
  | PDict d => match dict_find k d with Some x => Ret x | None => Raise KeyError end
  | _ => Raise TypeError
  end.

(** [for x in v] / [list.extend(v)] *)
Definition py_iter (v : pyval) : res (list pyval) :=
  match v with
  | PList l => Ret l
  | PDict d => Ret (map (fun kv => PStr (fst kv)) d)
  | PStr s => Ret (map (fun c => PStr [c]) s)
  | PNone | PBool _ | PInt _ => Raise TypeError
  end.

(** The receiver of a [str] method such as [.strip()]: every other JSON
    type lacks the attribute. *)
Definition py_str_receiver (v : pyval) : res str :=
  match v with
  | PStr s => Ret s
  | _ => Raise AttributeError
  end.

Definition py_format_int (z : Z) : str := lit (NilZero.string_of_int (Z.to_int z)).

(** Formatting inside an f-string. *)
Definition py_format `{PyRuntime} (v : pyval) : str :=
  match v with
  | PNone => lit "None"
  | PBool true => lit "True"
  | PBool false => lit "False"
  | PInt z => py_format_int z
  | PStr s => s
  | PList _ | PDict _ => py_repr v
  end.

(** ** The world: the wiki service, the clock, the file system *)

Inductive endpoint : Type :=
| SpaceLookup        (* GET /wiki/rest/api/space/{key} *)
| HomepageListing    (* GET /wiki/api/v2/spaces/{id}/pages, first page only *)
| SpacePages         (* GET /wiki/api/v2/spaces/{id}/pages and its next links *)
| PageMeta           (* GET /wiki/api/v2/pages/{id} *)
| PageContent        (* GET /wiki/rest/api/content/{id}?expand=body.export_view *)
| ExportTrigger      (* GET .../pdfpageexport.action?pageId={id} *)
| DownloadLink       (* GET /wiki/services/api/v1/download/pdf?taskId=..&cloudId=.. *)
| Artifact.          (* GET of the presigned URL *)

Record request : Type := {
  req_endpoint : endpoint;
  req_url : str;
  req_auth : str * str;
  req_params : list (str * str)
}.

Record response : Type := {
  status_code : Z;
  json_body : option pyval;       (* [None]: [response.json()] raises ValueError *)
  text : str;
  link_header : option str        (* the Link header, if any *)
}.

(** The service answers a request with a response, or the transport
    fails ([None]: [requests] raises); it may change state doing so.
    The machine the program runs on is part of it: [makedirs w d] is the
    world in which the directory [d] exists (it did, or [os.makedirs]
    made it), [write_file w path] the world in which the file has been
    opened for writing and filled; [None] is an [OSError]. *)
Class Service := {
  world : Type;
  http_get : world -> request -> option response * world;
  makedirs : world -> str -> option world;
  write_file : world -> str -> option world
}.

Inductive event : Type :=
| EvRequest (r : request)
| EvSleep (seconds : Z)
| EvMakedirs (directory : str)
| EvWriteFile (path : str).

Record state `{Service} : Type := {
  st_world : world;
  st_log : list event
}.

(** State and exceptions: the state survives a raise, as effects do. *)
Definition M `{Service} (A : Type) : Type := state -> res A * state.

Definition ret `{Service} {A} (a : A) : M A := fun st => (Ret a, st).
Definition raise `{Service} {A} (e : exn) : M A := fun st => (Raise e, st).
Definition out_of_fuel `{Service} {A} : M A := fun st => (OutOfFuel, st).
Definition bind `{Service} {A B} (m : M A) (k : A -> M B) : M B :=
  fun st =>
    match m st with
    | (Ret a, st') => k a st'
    | (Raise e, st') => (Raise e, st')
    | (OutOfFuel, st') => (OutOfFuel, st')
    end.
Definition lift `{Service} {A} (r : res A) : M A := fun st => (r, st).

Declare Scope py_scope.
Delimit Scope py_scope with py.
Notation "'do' x <- m ; k" := (bind m (fun x => k))
  (at level 10, x name, m at level 100, k at level 200) : py_scope.
Notation "'exec' m ; k" := (bind m (fun _ => k))
  (at level 10, m at level 100, k at level 200) : py_scope.
Notation "'pure' x <- r ; k" := (res_bind r (fun x => k))
  (at level 10, x name, r at level 100, k at level 200) : py_scope.
Local Open Scope py_scope.

Definition emit `{Service} (e : event) : M unit :=
  fun st => (Ret tt, {| st_world := st_world st; st_log := st_log st ++ [e] |}).

(** [requests.get(url, ...)] for a string URL. *)
Definition requests_get `{Service} (r : request) : M response :=
  fun st =>
    let (answer, w') := http_get (st_world st) r in
    let st' := {| st_world := w'; st_log := st_log st ++ [EvRequest r] |} in
    match answer with
    | Some resp => (Ret resp, st')
    | None => (Raise RequestException, st')
    end.

(** The longest sleep, in seconds: [time.sleep] turns its argument into
    a signed 64-bit count of nanoseconds. *)
Definition max_sleep : Z := 9223372036.

(** [time.sleep(seconds)]: a length that does not fit is an
    [OverflowError], a negative one that does a [ValueError]. *)
Definition time_sleep `{Service} (seconds : Z) : M unit :=
  if (seconds <? - max_sleep) || (max_sleep <? seconds) then raise OverflowError
  else if seconds <? 0 then raise ValueError
  else emit (EvSleep seconds).

(** A step of the file system: the world moves on and the event is
    logged, or the step is refused. *)
Definition fs_step `{Service} (move : world -> option world) (e : event) : M unit :=
  fun st =>
    match move (st_world st) with
    | Some w' => (Ret tt, {| st_world := w'; st_log := st_log st ++ [e] |})
    | None => (Raise OSError, st)
    end.

(** A request without credentials or parameters. *)
Definition plain_request (ep : endpoint) (url : str) : request :=
  {| req_endpoint := ep; req_url := url; req_auth := ([], []); req_params := [] |}.

(** [requests.get(url, ...)] when [url] is whatever the caller holds:
    anything but a string is turned into text that is no URL, and
    [requests] raises before any traffic. *)
Definition requests_get_value `{Service} (ep : endpoint) (url : pyval) : M response :=
  match url with
  | PStr u => requests_get (plain_request ep u)
  | _ => raise RequestException
  end.

(** ** HELPER FUNCTIONS (app.py) *)

Definition error_record (message details : str) : pyval :=
  PDict [(lit "error", PStr message); (lit "details", PStr details)].

Definition request_failed (resp : response) : pyval :=
  error_record (lit "Request failed with status " ++ py_format_int (status_code resp))
               (text resp).

Definition handle_json_errors (resp : response) : pyval :=
  if status_code resp =? 200 then
    match json_body resp with
    | Some data => data
    | None => error_record (lit "Response is not JSON formatted") (text resp)
    end
  else request_failed resp.

(** The longest prefix whose characters satisfy [p], and the rest. *)
Fixpoint span (p : codepoint -> bool) (s : str) : str * str :=
  match s with
  | [] => ([], [])
  | c :: s' => if p c then let (a, b) := span p s' in (c :: a, b) else ([], s)
  end.

Fixpoint drop_prefix (p s : str) : option str :=
  match p, s with
  | [], _ => Some s
  | _ :: _, [] => None
  | a :: p', b :: s' => if (a =? b)%N then drop_prefix p' s' else None
  end.

(** The attribute [name=] followed by NAME in double quotes. *)
Definition name_attribute (name : str) : str := lit "name=" ++ [dq] ++ name ++ [dq].

(** One attempt, at the head of [s], of the pattern: the text <meta, one
    or more \s, the attribute name= with NAME in double quotes, one or
    more \s, the text content= and a double quote, group 1 of one or more
    characters other than the double quote, and a closing double quote.
    The result is group 1.  The greedy runs never need backtracking: what
    follows each run starts with a character outside the run's class. *)
Definition match_meta_here (name s : str) : option str :=
  s1 ← drop_prefix (lit "<meta") s;
  let (ws1, s2) := span isspace s1 in
  if bool_decide (ws1 = []) then None else
  s3 ← drop_prefix (name_attribute name) s2;
  let (ws2, s4) := span isspace s3 in
  if bool_decide (ws2 = []) then None else
  s5 ← drop_prefix (lit "content=" ++ [dq]) s4;
  let (group1, s6) := span (fun c => negb (c =? dq)%N) s5 in
  if bool_decide (group1 = []) then None else
  match s6 with
  | c :: _ => if (c =? dq)%N then Some group1 else None
  | [] => None
  end.

(** [re.search]: the leftmost position where the pattern matches. *)
Fixpoint re_search_meta (name s : str) : option str :=
  match match_meta_here name s with
  | Some g => Some g
  | None =>
      match s with
      | [] => None
      | _ :: s' => re_search_meta name s'
      end
  end.

Definition extract_task_and_cloud_id_from_html (html_string : str) : pyval :=
  let task_id_match := re_search_meta (lit "ajs-taskId") html_string in
  let cloud_id_match := re_search_meta (lit "ajs-cloud-id") html_string in
  let task_id := match task_id_match with Some g => PStr g | None => PNone end in
  let cloud_id := match cloud_id_match with Some g => PStr g | None => PNone end in
  if truthy task_id && truthy cloud_id then
    PDict [(lit "taskId", task_id); (lit "cloudId", cloud_id)]
  else PNone.

(** [os.path.dirname] and [os.path.basename] (posixpath). *)
Fixpoint split_last_slash (p : str) : str * str :=
  match p with
  | [] => ([], [])
  | c :: p' =>
      let (head, tail) := split_last_slash p' in
      match head with
      | _ :: _ => (c :: head, tail)
      | [] => if (c =? slash)%N then ([c], tail) else ([], c :: tail)
      end
  end.

Definition posix_dirname (p : str) : str :=
  let head := fst (split_last_slash p) in
  if forallb (fun c => (c =? slash)%N) head then head
  else py_rstrip_chars [slash] head.

Definition posix_basename (p : str) : str := snd (split_last_slash p).

Definition ensure_pdf_suffix `{PyRuntime} (filename : str) : str :=
  if py_endswith (lit ".pdf") (py_lower filename) then filename
  else filename ++ lit ".pdf".

(** The one-entry dictionary (key statusCode, value [n]) that both
    download functions return is represented by [n]. *)
Definition download_pdf_from_presigned_url `{PyRuntime} `{Service}
    (url : pyval) (output_path : str) : M Z :=
  let directory := posix_dirname output_path in
  exec (match directory with
        | [] => raise OSError            (* os.makedirs('') *)
        | _ => fs_step (fun w => makedirs w directory) (EvMakedirs directory)
        end);
  let filename := ensure_pdf_suffix (posix_basename output_path) in
  let output_path := directory ++ [slash] ++ filename in
  do resp <- requests_get_value Artifact url;
  exec (if status_code resp =? 200
        then fs_step (fun w => write_file w output_path) (EvWriteFile output_path)
        else ret tt);
  ret (status_code resp).

(** The module never imports [storage]: the first statement of the
    success branch raises [NameError]. *)
Definition download_pdf_from_presigned_url_to_gcs_bucket `{PyRuntime} `{Service}
    (url : pyval) (filename gcs_bucket_name : str) : M Z :=
  let filename := ensure_pdf_suffix (convert_title_to_filename filename default_max_length) in
  do resp <- requests_get_value Artifact url;
  if status_code resp =? 200 then raise NameError
  else ret (status_code resp).

(** [add_value_to_dict]: the result map, outcome label to page ids. *)
Definition add_value_to_dict (dictionary : gmap str (list pyval)) (key : str) (value : pyval)
    : gmap str (list pyval) :=
  match dictionary !! key with
  | None => <[key := [value]]> dictionary
  | Some l => <[key := l ++ [value]]> dictionary
  end.

(** ** CONFLUENCE API (app.py) *)

Section ConfluenceApi.
Context `{PyRuntime} `{Service}.
Variables domain email api_token : str.

Definition api_request (ep : endpoint) (url : str) (params : list (str * str)) : request :=
  {| req_endpoint := ep; req_url := url;
     req_auth := (email, api_token); req_params := params |}.

Definition space_request (space_key : str) : request :=
  api_request SpaceLookup
    (lit "https://" ++ domain ++ lit "/wiki/rest/api/space/" ++ space_key) [].

Definition get_confluence_space_id_by_key (space_key : str) : M pyval :=
  do resp <- requests_get (space_request space_key);
  let data := handle_json_errors resp in
  do err <- lift (py_in (lit "error") data);
  if err then ret PNone else
  do space_id <- lift (py_get data (lit "id"));
  if is_none space_id then ret PNone else ret space_id.

(** [for page in pages: if page['parentType'] is None: return page['id']] *)
Fixpoint first_parentless (pages : list pyval) : res pyval :=
  match pages with
  | [] => Ret PNone
  | page :: rest =>
      pure parent_type <- py_getitem page (lit "parentType");
      if is_none parent_type then py_getitem page (lit "id")
      else first_parentless rest
  end.

Definition homepage_request (space_id : pyval) : request :=
  api_request HomepageListing
    (lit "https://" ++ domain ++ lit "/wiki/api/v2/spaces/"
     ++ py_format space_id ++ lit "/pages") [].

Definition get_confluence_homepage_id_by_space_id (space_id : pyval) : M pyval :=
  do resp <- requests_get (homepage_request space_id);
  let data := handle_json_errors resp in
  do err <- lift (py_in (lit "error") data);
  if err then ret PNone else
  do pages <- lift (py_get data (lit "results"));
  if is_none pages then ret PNone else
  do items <- lift (py_iter pages);
  lift (first_parentless items).

(** The dict comprehension over the comma-separated entries [rel] of the
    Link header: with [parts] the split of [rel] at semicolons, the key is
    [parts[1].strip()] and the value is [parts[0]] stripped of angle
    brackets; a later entry overwrites an earlier one with the same key. *)
Fixpoint links_of (rels : list str) (links : gmap str str) : res (gmap str str) :=
  match rels with
  | [] => Ret links
  | rel :: rest =>
      match py_split semicolon rel with
      | target :: param :: _ =>
          links_of rest (<[py_strip param := py_strip_chars [langle; rangle] target]> links)
      | _ => Raise IndexError
      end
  end.

Definition rel_next : str := lit "rel=" ++ [dq] ++ lit "next" ++ [dq].

(** The tail of the loop body: the URL of the next cursor page, [None]
    when there is none. *)
Definition next_page_url (link_header : option str) : res (option str) :=
  match link_header with
  | Some (c :: h) =>
      pure links <- links_of (py_split comma (c :: h)) ∅;
      match links !! rel_next with
      | Some (d :: next_url) => Ret (Some (lit "https://" ++ domain ++ d :: next_url))
      | _ => Ret None
      end
  | _ => Ret None
  end.

Definition limit_250 : list (str * str) := [(lit "limit", lit "250")].

Definition listing_request (url : str) : request :=
  api_request SpacePages url limit_250.

(** [while url:] with [fuel] bounding the number of cursor pages read. *)
Fixpoint pages_loop (fuel : nat) (url : option str) (all_pages : list pyval)
    : M (list pyval) :=
  match url with
  | None | Some [] => ret all_pages
  | Some (c :: u) =>
      match fuel with
      | O => out_of_fuel
      | S fuel' =>
          do resp <- requests_get (listing_request (c :: u));
          let data := handle_json_errors resp in
          do err <- lift (py_in (lit "error") data);
          if err then ret [] else
          do has_results <- lift (py_in (lit "results") data);
          if negb has_results then ret [] else
          do results <- lift (py_getitem data (lit "results"));
          do items <- lift (py_iter results);
          let all_pages := all_pages ++ items in
          do url <- lift (next_page_url (link_header resp));
          pages_loop fuel' url all_pages
      end
  end.

Definition space_pages_url (space_id : pyval) : str :=
  lit "https://" ++ domain ++ lit "/wiki/api/v2/spaces/" ++ py_format space_id ++ lit "/pages".

Definition get_confluence_pages_by_space_id (fuel : nat) (space_id : pyval) : M (list pyval) :=
  pages_loop fuel (Some (space_pages_url space_id)) [].

Definition export_trigger_url (page_id : pyval) : str :=
  lit "https://" ++ domain ++ lit "/wiki/spaces/flyingpdf/pdfpageexport.action?pageId="
  ++ py_format page_id ++ lit "&unmatched-route=true".

Definition trigger_request (page_id : pyval) : request :=
  api_request ExportTrigger (export_trigger_url page_id) [].

Definition get_pdf_export_confluence_url (page_id : pyval) : M pyval :=
  do resp <- requests_get (trigger_request page_id);
  if negb (status_code resp =? 200) then ret (request_failed resp) else
  let task_cloud_ids := extract_task_and_cloud_id_from_html (text resp) in
  if truthy task_cloud_ids then
    do task_id <- lift (py_getitem task_cloud_ids (lit "taskId"));
    do cloud_id <- lift (py_getitem task_cloud_ids (lit "cloudId"));
    let download_url := lit "https://" ++ domain
                        ++ lit "/wiki/services/api/v1/download/pdf?taskId="
                        ++ py_format task_id ++ lit "&cloudId=" ++ py_format cloud_id in
    do download_response <- requests_get (api_request DownloadLink download_url []);
    ret (PStr (text download_response))
  else ret PNone.

Definition get_confluence_page_title_by_id (page_id : pyval) : M pyval :=
  let url := lit "https://" ++ domain ++ lit "/wiki/api/v2/pages/" ++ py_format page_id in
  do resp <- requests_get (api_request PageMeta url []);
  let data := handle_json_errors resp in
  do err <- lift (py_in (lit "error") data);
  if err then ret PNone else
  do has_title <- lift (py_in (lit "title") data);
  if negb has_title then ret PNone else
  lift (py_getitem data (lit "title")).

(** [try: data['body']['export_view']['value'] except KeyError: return None] *)
Definition export_view_value (data : pyval) : res pyval :=
  match (pure body <- py_getitem data (lit "body");
         pure export_view <- py_getitem body (lit "export_view");
         py_getitem export_view (lit "value")) with
  | Raise KeyError => Ret PNone
  | r => r
  end.

Definition content_request (page_id : pyval) : request :=
  api_request PageContent
    (lit "https://" ++ domain ++ lit "/wiki/rest/api/content/"
     ++ py_format page_id ++ lit "?expand=body.export_view") [].

Definition get_confluence_page_content_by_id (page_id : pyval) : M pyval :=
  do resp <- requests_get (content_request page_id);
  let data := handle_json_errors resp in
  do err <- lift (py_in (lit "error") data);
  if err then ret PNone else
  lift (export_view_value data).

Definition empty_paragraph : str := lit "<p />".

(** [page_content.strip()] is the empty paragraph or the empty string. *)
Definition is_empty_content (page_content : str) : bool :=
  let stripped := py_strip page_content in
  str_eqb stripped empty_paragraph || str_eqb stripped [].

Definition is_empty_confluence_page (page_id : pyval) : M bool :=
  do page_content <- get_confluence_page_content_by_id page_id;
  do s <- lift (py_str_receiver page_content);
  ret (is_empty_content s).

End ConfluenceApi.

(** ** FINAL OUTPUT FUNCTIONS (app.py) *)

Definition EMPTY_PAGE : str := lit "EMPTY_PAGE".
Definition DOWNLOAD_SUCCESFUL : str := lit "DOWNLOAD_SUCCESFUL".
Definition DOWNLOAD_FAILED : str := lit "DOWNLOAD_FAILED".

(** [==] between two hashable values: [True == 1] and [False == 0]. *)
Definition key_eqb (a b : pyval) : bool :=
  match a, b with
  | PNone, PNone => true
  | PBool x, PBool y => Bool.eqb x y
  | PInt x, PInt y => x =? y
  | PBool x, PInt y | PInt y, PBool x => (if x then 1 else 0) =? y
  | PStr x, PStr y => str_eqb x y
  | _, _ => false
  end.

Definition hashable (v : pyval) : bool :=
  match v with
  | PList _ | PDict _ => false
  | _ => true
  end.

(** [d[k] = v] on an insertion-ordered dict: an equal key keeps its
    place and its first spelling, and takes the new value. *)
Fixpoint dict_set (d : list (pyval * pyval)) (k v : pyval) : list (pyval * pyval) :=
  match d with
  | [] => [(k, v)]
  | (k', v') :: rest =>
      if key_eqb k' k then (k', v) :: rest else (k', v') :: dict_set rest k v
  end.

(** [for page in all_pages: pages_ids_dict[page['id']] = page['title']];
    the right-hand side is evaluated first. *)
Fixpoint build_pages_ids_dict (all_pages : list pyval) (pages_ids_dict : list (pyval * pyval))
    : res (list (pyval * pyval)) :=
  match all_pages with
  | [] => Ret pages_ids_dict
  | page :: rest =>
      pure title <- py_getitem page (lit "title");
      pure id <- py_getitem page (lit "id");
      if hashable id then build_pages_ids_dict rest (dict_set pages_ids_dict id title)
      else Raise TypeError
  end.

Section FinalOutput.
Context `{PyRuntime} `{Service}.
Variables domain email api_token : str.

Definition default_wait_time : Z := 15.

(** [if not wait_time or wait_time == 0: wait_time = 15] *)
Definition initial_wait (wait_time : option Z) : Z :=
  match wait_time with
  | None => default_wait_time
  | Some w => if w =? 0 then default_wait_time else w
  end.

Definition file_page_title_of (title : str) (page_id : pyval) : str :=
  convert_title_to_filename title default_max_length
  ++ lit "_confluencePageId=" ++ py_format page_id.

(** The body of [for attempt in range(3)] down to the status code; the
    second component is [output_path] as the body leaves it. *)
Definition download_attempt (page_id : pyval) (file_page_title : str)
    (output_path gcs_bucket_name : option str) (wait_time : Z) : M (Z * option str) :=
  do url <- get_pdf_export_confluence_url domain email api_token page_id;
  exec time_sleep wait_time;
  match gcs_bucket_name with
  | Some (b :: bucket) =>
      do status_code <- download_pdf_from_presigned_url_to_gcs_bucket
                          url file_page_title (b :: bucket);
      ret (status_code, output_path)
  | _ =>
      let output_path :=
        match output_path with
        | Some (c :: p) => c :: p
        | _ => lit "confluence_downloads/"
        end in
      let output_path :=
        if negb (py_endswith [slash] output_path) then output_path ++ [slash]
        else output_path in
      do status_code <- download_pdf_from_presigned_url url (output_path ++ file_page_title);
      ret (status_code, Some output_path)
  end.

Fixpoint retry_loop (attempts : nat) (page_id : pyval) (file_page_title : str)
    (output_path gcs_bucket_name : option str) (wait_time : Z) : M str :=
  match attempts with
  | O => ret DOWNLOAD_FAILED
  | S attempts' =>
      do r <- download_attempt page_id file_page_title output_path gcs_bucket_name wait_time;
      let (status_code, output_path) := r in
      if status_code =? 200 then ret DOWNLOAD_SUCCESFUL
      else
        let wait_time := wait_time + 10 in
        exec time_sleep 10;
        retry_loop attempts' page_id file_page_title output_path gcs_bucket_name wait_time
  end.

(** Lines 466-471: the title is fetched when the caller gave none, and
    [convert_title_to_filename] starts by calling [title.strip()]. *)
Definition resolve_file_page_title (page_id page_title : pyval) : M str :=
  do page_title <- (if negb (truthy page_title)
                    then get_confluence_page_title_by_id domain email api_token page_id
                    else ret page_title);
  do title <- lift (py_str_receiver page_title);
  ret (file_page_title_of title page_id).

Definition export_pdf_confluence_page_by_id (page_id page_title : pyval)
    (output_path gcs_bucket_name : option str) (wait_time : option Z) : M str :=
  do file_page_title <- resolve_file_page_title page_id page_title;
  do empty <- is_empty_confluence_page domain email api_token page_id;
  if empty then ret EMPTY_PAGE else
  let wait_time := initial_wait wait_time in
  retry_loop 3 page_id file_page_title output_path gcs_bucket_name wait_time.

(** [for page_id, page_title in pages_ids_dict.items(): ...] *)
Fixpoint export_pages (items : list (pyval * pyval)) (pages_status : gmap str (list pyval))
    (output_path gcs_bucket_name : option str) (wait_time : option Z)
    : M (gmap str (list pyval)) :=
  match items with
  | [] => ret pages_status
  | (page_id, page_title) :: rest =>
      do page_status <- export_pdf_confluence_page_by_id
                          page_id page_title output_path gcs_bucket_name wait_time;
      export_pages rest (add_value_to_dict pages_status page_status page_id)
                   output_path gcs_bucket_name wait_time
  end.

(** Lines 537-556: both identifiers are resolved, the space is listed and
    the id-to-title dictionary is built; [None] is the bare [return]. *)
Definition enumerate_space (fuel : nat) (space_key : str)
    : M (option (list (pyval * pyval))) :=
  do space_id <- get_confluence_space_id_by_key domain email api_token space_key;
  if negb (truthy space_id) then ret None else
  do homepage_id <- get_confluence_homepage_id_by_space_id domain email api_token space_id;
  if negb (truthy homepage_id) then ret None else
  do all_pages <- get_confluence_pages_by_space_id domain email api_token fuel space_id;
  do pages_ids_dict <- lift (build_pages_ids_dict all_pages []);
  ret (Some pages_ids_dict).

Definition export_pdf_confluence_space_by_key (fuel : nat) (space_key : str)
    (output_path gcs_bucket_name : option str) (wait_time : option Z)
    : M (option (gmap str (list pyval))) :=
  do enumerated <- enumerate_space fuel space_key;
  match enumerated with
  | None => ret None
  | Some pages_ids_dict =>
      do pages_status <- export_pages pages_ids_dict ∅ output_path gcs_bucket_name wait_time;
      ret (Some pages_status)
  end.

End FinalOutput.

(** ** app_old.py: the earlier emptiness test, without [strip]. *)
Module AppOld.
Definition is_empty_content (page_content : str) : bool :=
  str_eqb page_content empty_paragraph || str_eqb page_content [].
End AppOld.

(** ** An ASCII interpreter and table-driven services used to run the model *)

Definition ascii_isalnum (c : codepoint) : bool :=
  (((48 <=? c) && (c <=? 57)) || ((65 <=? c) && (c <=? 90))
   || ((97 <=? c) && (c <=? 122)))%N.

Definition ascii_lower (s : str) : str :=
  map (fun c => if ((65 <=? c) && (c <=? 90))%N then (c + 32)%N else c) s.

(** ASCII titles and identifiers only; compound values are never
    formatted by the runs below. *)
Definition ascii_runtime : PyRuntime :=
  {| isalnum := ascii_isalnum; py_lower := ascii_lower; py_repr := fun _ => lit "[...]" |}.

(** Services without state: each request is answered from a table, and
    the file system accepts every directory and every file. *)
Definition table_service (answer : request -> option response) : Service :=
  {| world := unit; http_get := fun w r => (answer r, w);
     makedirs := fun w _ => Some w; write_file := fun w _ => Some w |}.

Definition json_response (data : pyval) (link : option str) : response :=
  {| status_code := 200; json_body := Some data; text := []; link_header := link |}.
Definition text_response (code : Z) (body : str) : response :=
  {| status_code := code; json_body := None; text := body; link_header := None |}.

Definition meta_tag (name content : str) : str :=
  lit "<meta name=" ++ [dq] ++ name ++ [dq] ++ lit " content=" ++ [dq] ++ content
  ++ [dq] ++ lit ">".

Definition trigger_html : str :=
  lit "<html><head>" ++ meta_tag (lit "ajs-taskId") (lit "7001")
  ++ meta_tag (lit "ajs-cloud-id") (lit "c0ffee") ++ lit "</head></html>".

Definition page_entry (id title : string) : pyval :=
  PDict [(lit "id", PStr (lit id)); (lit "title", PStr (lit title))].

Definition content_body (value : str) : pyval :=
  PDict [(lit "body", PDict [(lit "export_view", PDict [(lit "value", PStr value)])])].

Definition link_entry (target : str) (rel : string) : str :=
  lit "<" ++ target ++ lit ">; rel=" ++ [dq] ++ lit rel ++ [dq].

(** The space OR of the end-to-end scenario: space id 123, homepage 456,
    child pages childA (empty) and childB (with content).  The
    parameters are the answers of the listing, of the page metadata
    endpoint, of the content endpoint for childB, of the export trigger,
    and of the artifact fetch. *)
Definition wiki_answer (listing meta content_b trigger artifact : response) (r : request)
    : option response :=
  match req_endpoint r with
  | SpaceLookup => Some (json_response (PDict [(lit "id", PStr (lit "123"))]) None)
  | HomepageListing =>
      Some (json_response
              (PDict [(lit "results",
                       PList [PDict [(lit "id", PStr (lit "456"));
                                     (lit "parentType", PNone)]])]) None)
  | SpacePages => Some listing
  | PageMeta => Some meta
  | PageContent =>
      if py_substring (lit "childA") (req_url r)
      then Some (json_response (content_body empty_paragraph) None)
      else Some content_b
  | ExportTrigger => Some trigger
  | DownloadLink => Some (text_response 200 (lit "https://signed.example/doc.pdf"))
  | Artifact => Some artifact
  end.

Definition some_content : response :=
  json_response (content_body (lit "<p>Quarterly report</p>")) None.
Definition trigger_ok : response := text_response 200 trigger_html.

Definition listing_ok : response :=
  json_response
    (PDict [(lit "results",
             PList [page_entry "childA" "Child A"; page_entry "childB" "Child B"])])
    None.
Definition meta_ok : response :=
  json_response (PDict [(lit "title", PStr (lit "Untitled"))]) None.
Definition not_found : response := text_response 404 (lit "not found").
Definition pdf_ok : response := text_response 200 (lit "%PDF").

(** Every download succeeds at once. *)
Definition healthy_wiki : Service :=
  table_service (wiki_answer listing_ok meta_ok some_content trigger_ok pdf_ok).
(** The artifact is never ready. *)
Definition unrendered_wiki : Service :=
  table_service (wiki_answer listing_ok meta_ok some_content trigger_ok not_found).
(** The content endpoint answers 404 for childB. *)
Definition content_down_wiki : Service :=
  table_service (wiki_answer listing_ok meta_ok not_found trigger_ok pdf_ok).
(** The page metadata endpoint answers 404. *)
Definition meta_down_wiki : Service :=
  table_service (wiki_answer listing_ok not_found some_content trigger_ok pdf_ok).
(** The export trigger answers 500. *)
Definition trigger_down_wiki : Service :=
  table_service (wiki_answer listing_ok meta_ok some_content (text_response 500 (lit "oops")) pdf_ok).
(** The export trigger answers 200 with a page that carries no cloud id. *)
Definition tokenless_wiki : Service :=
  table_service (wiki_answer listing_ok meta_ok some_content
                   (text_response 200 (meta_tag (lit "ajs-taskId") (lit "7001"))) pdf_ok).

(** The listing answers 404. *)
Definition listing_down_wiki : Service :=
  table_service (wiki_answer not_found meta_ok some_content trigger_ok pdf_ok).

(** The file system grants nothing. *)
Definition read_only_wiki : Service :=
  {| world := unit;
     http_get := fun w r =>
       (wiki_answer listing_ok meta_ok some_content trigger_ok pdf_ok r, w);
     makedirs := fun _ _ => None; write_file := fun _ _ => None |}.

Definition demo_domain : str := lit "wiki.example".
Definition demo_email : str := lit "ann@example.org".
Definition demo_token : str := lit "s3cret".
Definition child_a : pyval := PStr (lit "childA").
Definition child_b : pyval := PStr (lit "childB").

(** A listing of three cursor pages with two results each. *)
Definition two_results (a b : string) : pyval :=
  PDict [(lit "results", PList [page_entry a a; page_entry b b])].

Definition next_and_base (cursor : string) : option str :=
  Some (link_entry (lit "/wiki/api/v2/spaces/123/pages?cursor=" ++ lit cursor) "next"
        ++ lit ", " ++ link_entry (lit "https://wiki.example/wiki") "base").

Definition paged_answer (r : request) : option response :=
  let base := lit "https://wiki.example/wiki/api/v2/spaces/123/pages" in
  if str_eqb (req_url r) base
  then Some (json_response (two_results "p1" "p2") (next_and_base "c2"))
  else if str_eqb (req_url r) (base ++ lit "?cursor=c2")
  then Some (json_response (two_results "p3" "p4") (next_and_base "c3"))
  else if str_eqb (req_url r) (base ++ lit "?cursor=c3")
  then Some (json_response (two_results "p5" "p6")
                           (Some (link_entry (lit "https://wiki.example/wiki") "base")))
  else Some (text_response 404 (lit "not found")).
Definition paged_wiki : Service := table_service paged_answer.

(** A listing of two cursor pages whose first Link header names the base
    first and the next page second, after a comma and a space.  A URL
    with a space in it is refused by [requests] before any traffic. *)
Definition base_first_link : str :=
  link_entry (lit "https://wiki.example/wiki") "base" ++ lit ", "
  ++ link_entry (lit "/wiki/api/v2/spaces/123/pages?cursor=c2") "next".

Definition base_first_answer (r : request) : option response :=
  let base := lit "https://wiki.example/wiki/api/v2/spaces/123/pages" in
  if str_eqb (req_url r) base
  then Some (json_response (two_results "p1" "p2") (Some base_first_link))
  else if str_eqb (req_url r) (base ++ lit "?cursor=c2")
  then Some (json_response (two_results "p3" "p4") None)
  else if existsb (N.eqb space) (req_url r) then None
  else Some (text_response 404 (lit "not found")).
Definition base_first_wiki : Service := table_service base_first_answer.

Definition fresh `{Service} (w : world) : state := {| st_world := w; st_log := [] |}.

(** * Specification vocabulary *)

(** The part of the retry protocol visible in the log: calls to the
    export trigger, sleeps, and fetches of the artifact. *)
Inductive step : Type :=
| Trigger
| Wait (seconds : Z)
| Download.

Definition step_of (e : event) : option step :=
  match e with
  | EvRequest r =>
      match req_endpoint r with
      | ExportTrigger => Some Trigger
      | Artifact => Some Download
      | _ => None
      end
  | EvSleep z => Some (Wait z)
  | EvMakedirs _ | EvWriteFile _ => None
  end.

Definition steps (log : list event) : list step := omap step_of log.

(** What was logged between two states of one run. *)
Definition log_since `{Service} (st st' : state) : list event :=
  drop (length (st_log st)) (st_log st').

(** [rets m P]: whenever [m] returns a value, the log has grown by some
    events [d], and [P] holds of the value and [d]. *)
Definition rets `{Service} {A} (m : M A) (P : A -> list event -> Prop) : Prop :=
  forall st a st', m st = (Ret a, st') ->
    exists d, st_log st' = st_log st ++ d /\ P a d.

(** [emits m s]: a returning run of [m] logs exactly the steps [s] of the
    retry protocol; [silent m]: it logs none. *)
Definition emits `{Service} {A} (m : M A) (s : list step) : Prop :=
  rets m (fun _ d => steps d = s).
Abbreviation silent m := (emits m []).

Definition is_trigger (s : step) : bool := match s with Trigger => true | _ => false end.
Definition is_download (s : step) : bool := match s with Download => true | _ => false end.

#[global] Instance endpoint_eq_dec : EqDecision endpoint.
Proof. solve_decision. Defined.

Definition is_call_to (ep : endpoint) (e : event) : bool :=
  match e with
  | EvRequest r => bool_decide (req_endpoint r = ep)
  | _ => false
  end.

(** The number of requests to one endpoint in a stretch of log. *)
Definition calls_to (ep : endpoint) (log : list event) : nat :=
  length (List.filter (is_call_to ep) log).

(** One round trip: trigger the export, wait, fetch the artifact. *)
Definition attempt_steps (wait : Z) : list step := [Trigger; Wait wait; Download].

(** [failed] round trips in a row, each followed by the fixed 10 second
    sleep, the wait growing by 10 from one to the next. *)
Fixpoint retry_steps (failed : nat) (wait : Z) : list step :=
  match failed with
  | O => []
  | S n => attempt_steps wait ++ [Wait 10] ++ retry_steps n (wait + 10)
  end.

(** The three ways a page export can return, with what it logged. *)
Inductive page_run (wait : Z) : str -> list step -> Prop :=
| run_empty : page_run wait EMPTY_PAGE []
| run_success (failed : nat) :
    (failed < 3)%nat ->
    page_run wait DOWNLOAD_SUCCESFUL
             (retry_steps failed wait ++ attempt_steps (wait + 10 * Z.of_nat failed))
| run_failed : page_run wait DOWNLOAD_FAILED (retry_steps 3 wait).

(** The label the specification document uses for a successful download. *)
Definition DOWNLOAD_SUCCESSFUL_as_specified : str := lit "DOWNLOAD_SUCCESSFUL".


(** *** The file a page export writes *)

(** The directory a page export is given, a slash ensured (app.py, lines
    497-501), the directory it asks the file system for and the path of
    the file it writes for a file title (lines 340-348). *)
Definition output_directory (output_path : option str) : str :=
  let o := match output_path with
           | Some (c :: p) => c :: p
           | _ => lit "confluence_downloads/"
           end in
  if negb (py_endswith [slash] o) then o ++ [slash] else o.

Definition written_directory (output_path : option str) (file_page_title : str) : str :=
  posix_dirname (output_directory output_path ++ file_page_title).

Definition written_path `{PyRuntime} (output_path : option str) (file_page_title : str)
    : str :=
  written_directory output_path file_page_title ++ [slash]
  ++ ensure_pdf_suffix (posix_basename (output_directory output_path ++ file_page_title)).

(** The state after the fixed sleep that follows a failed attempt. *)
Definition after_sleep `{Service} (seconds : Z) (st : state) : state :=
  {| st_world := st_world st; st_log := st_log st ++ [EvSleep seconds] |}.

(** *** Cursor chains *)

(** A link target the parser returns unchanged: not empty, free of
    commas and semicolons, and not beginning or ending with an angle
    bracket. *)
Definition plain_target (target : str) : Prop :=
  (comma ∉ target) /\ (semicolon ∉ target)
  /\ (exists c, head target = Some c /\ in_chars [langle; rangle] c = false)
  /\ (exists c, last target = Some c /\ in_chars [langle; rangle] c = false).


(** A well-formed cursor page: status 200 and a JSON object, without an
    error key, whose results are the list [items]. *)
Definition listing_page (resp : response) (items : list pyval) : Prop :=
  status_code resp = 200 /\
  exists data, json_body resp = Some (PDict data)
    /\ dict_find (lit "error") data = None
    /\ dict_find (lit "results") data = Some (PList items).

(** A failed cursor page: a status other than 200, a body that is not
    JSON, or a JSON object that carries an error key or no results. *)
Definition listing_failure (resp : response) : Prop :=
  status_code resp <> 200
  \/ json_body resp = None
  \/ exists data, json_body resp = Some (PDict data)
       /\ (dict_find (lit "error") data <> None \/ dict_find (lit "results") data = None).

Section Chains.
Context `{Service}.
Variables domain email api_token : str.

(** [cursor_chain w url pages w']: from world [w], the request for [url]
    is answered by a well-formed page whose Link header leads to the next
    one, and so on through [pages], until a page that carries no
    rel=next link; the service is then in [w']. *)
Inductive cursor_chain : world -> str -> list (list pyval) -> world -> Prop :=
| chain_last w url resp items w' :
    http_get w (listing_request email api_token url) = (Some resp, w') ->
    listing_page resp items ->
    next_page_url domain (link_header resp) = Ret None ->
    cursor_chain w url [items] w'
| chain_next w url resp items w' next_url rest w'' :
    http_get w (listing_request email api_token url) = (Some resp, w') ->
    listing_page resp items ->
    next_page_url domain (link_header resp) = Ret (Some next_url) ->
    cursor_chain w' next_url rest w'' ->
    cursor_chain w url (items :: rest) w''.

(** [broken_chain w url n w']: the [n]-th request of the chain that
    starts at [url] is answered by a failed page, those before it by
    well-formed ones. *)
Inductive broken_chain : world -> str -> nat -> world -> Prop :=
| broken_here w url resp w' :
    http_get w (listing_request email api_token url) = (Some resp, w') ->
    listing_failure resp ->
    broken_chain w url 1 w'
| broken_later w url resp items w' next_url n w'' :
    http_get w (listing_request email api_token url) = (Some resp, w') ->
    listing_page resp items ->
    next_page_url domain (link_header resp) = Ret (Some next_url) ->
    broken_chain w' next_url n w'' ->
    broken_chain w url (S n) w''.

End Chains.

(** *** The result map *)

(** The result map after recording, in order, one outcome per page. *)
Definition record_outcomes (pages_status : gmap str (list pyval))
    (outcomes : list (pyval * str)) : gmap str (list pyval) :=
  foldl (fun m p => add_value_to_dict m (snd p) (fst p)) pages_status outcomes.

(** The page ids filed under one label, none when the label is absent. *)
Definition bucket (pages_status : gmap str (list pyval)) (label : str) : list pyval :=
  default [] (pages_status !! label).

(** Keys as a Python dict holds them: hashable and pairwise unequal. *)
Inductive distinct_keys : list pyval -> Prop :=
| distinct_nil : distinct_keys []
| distinct_cons k ks :
    hashable k = true ->
    Forall (fun k' => key_eqb k k' = false) ks ->
    distinct_keys ks ->
    distinct_keys (k :: ks).

Definition six_entries : list pyval :=
  [page_entry "p1" "p1"; page_entry "p2" "p2"; page_entry "p3" "p3";
   page_entry "p4" "p4"; page_entry "p5" "p5"; page_entry "p6" "p6"].

(** The result of the end-to-end scenario. *)
Definition scenario_result : gmap str (list pyval) :=
  record_outcomes ∅ [(child_a, EMPTY_PAGE); (child_b, DOWNLOAD_SUCCESFUL)].
Definition unrendered_result : gmap str (list pyval) :=
  record_outcomes ∅ [(child_a, EMPTY_PAGE); (child_b, DOWNLOAD_FAILED)].

(** * The rest of app.py *)

(** ** [get_confluence_pages_by_space_id_limit]: one listing request *)

Section SingleListing.
Context `{PyRuntime} `{Service}.
Variables domain email api_token : str.

(** [limit = abs(limit) if limit <= 250 else 250] *)
Definition clamp_limit (limit : Z) : Z :=
  if limit <=? 250 then Z.abs limit else 250.

Definition limit_request (space_id : pyval) (limit : Z) : request :=
  api_request email api_token SpacePages (space_pages_url domain space_id)
    [(lit "limit", py_format_int (clamp_limit limit))].

(** The value returned is [data["results"]] as it is, or the empty list. *)
Definition get_confluence_pages_by_space_id_limit (space_id : pyval) (limit : Z)
    : M pyval :=
  do resp <- requests_get (limit_request space_id limit);
  let data := handle_json_errors resp in
  do err <- lift (py_in (lit "error") data);
  if err then ret (PList []) else
  do has_results <- lift (py_in (lit "results") data);
  if negb has_results then ret (PList []) else
  lift (py_getitem data (lit "results")).

End SingleListing.

(** ** [get_confluence_children_by_parent_page_id_recursive] *)

(** [dict.update(other)]: the entries of [other], in order. *)
Definition dict_update (d other : list (pyval * pyval)) : list (pyval * pyval) :=
  foldl (fun acc kv => dict_set acc (fst kv) (snd kv)) d other.

Section Children.
Context `{PyRuntime} `{Service}.
Variables domain email api_token : str.

Definition children_url (page_id : pyval) : str :=
  lit "https://" ++ domain ++ lit "/wiki/api/v2/pages/" ++ py_format page_id
  ++ lit "/children".

(** The children listing is a page listing with a cursor, requested like
    the space listing. *)
Definition children_request (url : str) : request :=
  api_request email api_token SpacePages url limit_250.

(** The [while url:] loop of the function; [None] stands for its two
    early [return {}]. *)
Fixpoint children_loop (fuel : nat) (url : option str)
    (pages_ids_dict : list (pyval * pyval)) : M (option (list (pyval * pyval))) :=
  match url with
  | None | Some [] => ret (Some pages_ids_dict)
  | Some (c :: u) =>
      match fuel with
      | O => out_of_fuel
      | S fuel' =>
          do resp <- requests_get (children_request (c :: u));
          let data := handle_json_errors resp in
          do err <- lift (py_in (lit "error") data);
          if err then ret None else
          do has_results <- lift (py_in (lit "results") data);
          if negb has_results then ret None else
          do results <- lift (py_getitem data (lit "results"));
          do children <- lift (py_iter results);
          do pages_ids_dict <- lift (build_pages_ids_dict children pages_ids_dict);
          do url <- lift (next_page_url domain (link_header resp));
          children_loop fuel' url pages_ids_dict
      end
  end.

(** [for child_id in list(pages_ids_dict.keys()):
       pages_ids_dict.update(recursive(child_id))] *)
Fixpoint merge_descendants (descend : pyval -> M (list (pyval * pyval)))
    (child_ids : list pyval) (pages_ids_dict : list (pyval * pyval))
    : M (list (pyval * pyval)) :=
  match child_ids with
  | [] => ret pages_ids_dict
  | child_id :: rest =>
      do descendants <- descend child_id;
      merge_descendants descend rest (dict_update pages_ids_dict descendants)
  end.

(** [fuel] bounds the depth of the recursion and the length of each
    cursor chain. *)
Fixpoint get_confluence_children_by_parent_page_id_recursive (fuel : nat)
    (page_id : pyval) : M (list (pyval * pyval)) :=
  match fuel with
  | O => out_of_fuel
  | S fuel' =>
      do listed <- children_loop fuel' (Some (children_url page_id)) [];
      match listed with
      | None => ret []
      | Some pages_ids_dict =>
          merge_descendants
            (get_confluence_children_by_parent_page_id_recursive fuel')
            pages_ids_dict.*1 pages_ids_dict
      end
  end.

End Children.

(** ** The request handlers [export_pdf_space] and [export_pdf_page] *)

(** The JSON job description, with each field of its documented type or
    absent. *)
Record job_description : Type := {
  jd_domain : option str;
  jd_email : option str;
  jd_api_token : option str;
  jd_space_key : option str;
  jd_page_id : option str;
  jd_page_title : option str;
  jd_output_path : option str;
  jd_gcs_bucket_name : option str;
  jd_wait_time : option Z
}.

(** What the handler hands back to Flask. *)
Inductive reply : Type :=
| MissingParameters                                       (* the 400 answer *)
| SpaceResults (results : option (gmap str (list pyval)))
| PageResults (results : str).

(** A value [data.get(...)] gave, seen by [all([...])]. *)
Definition provided (field : option str) : option str :=
  match field with
  | Some (c :: s) => Some (c :: s)
  | _ => None
  end.

Definition optional_value (field : option str) : pyval :=
  match field with
  | Some s => PStr s
  | None => PNone
  end.

Section Handlers.
Context `{PyRuntime} `{Service}.

Definition export_pdf_space (fuel : nat) (data : job_description) : M reply :=
  match provided (jd_domain data), provided (jd_email data),
        provided (jd_api_token data), provided (jd_space_key data) with
  | Some domain, Some email, Some api_token, Some space_key =>
      do pages_status <- export_pdf_confluence_space_by_key domain email api_token
                           fuel space_key (jd_output_path data)
                           (jd_gcs_bucket_name data) (jd_wait_time data);
      ret (SpaceResults pages_status)
  | _, _, _, _ => ret MissingParameters
  end.

(** [wait_time = int(data.get('wait_time'))] comes before the check of
    the required parameters; [int(None)] is a [TypeError]. *)
Definition export_pdf_page (data : job_description) : M reply :=
  do wait_time <- lift (match jd_wait_time data with
                        | Some z => Ret z
                        | None => Raise TypeError
                        end);
  match provided (jd_domain data), provided (jd_email data),
        provided (jd_api_token data), provided (jd_page_id data) with
  | Some domain, Some email, Some api_token, Some page_id =>
      do pages_status <- export_pdf_confluence_page_by_id domain email api_token
                           (PStr page_id) (optional_value (jd_page_title data))
                           (jd_output_path data) (jd_gcs_bucket_name data)
                           (Some wait_time);
      ret (PageResults pages_status)
  | _, _, _, _ => ret MissingParameters
  end.

End Handlers.

(** ** Vocabulary for the properties below *)

(** The seconds slept in a stretch of steps. *)
Fixpoint total_wait (s : list step) : Z :=
  match s with
  | [] => 0
  | Wait z :: s' => z + total_wait s'
  | _ :: s' => total_wait s'
  end.

(** [d.get(k)] on an insertion-ordered dict, by Python's key equality. *)
Fixpoint dict_get (d : list (pyval * pyval)) (k : pyval) : option pyval :=
  match d with
  | [] => None
  | (k', v) :: rest => if key_eqb k' k then Some v else dict_get rest k
  end.

(** A listing entry with the given id and title among its fields. *)
Definition is_entry (page : pyval) (id_title : pyval * pyval) : Prop :=
  exists fields,
    page = PDict fields
    /\ dict_find (lit "id") fields = Some (fst id_title)
    /\ dict_find (lit "title") fields = Some (snd id_title).

(** The title the last entry with an equal id carries. *)
Definition last_title (entries : list (pyval * pyval)) (k : pyval) : option pyval :=
  dict_get (rev entries) k.

(** A listing whose second cursor page is missing. *)
Definition half_paged_answer (r : request) : option response :=
  let base := lit "https://wiki.example/wiki/api/v2/spaces/123/pages" in
  if str_eqb (req_url r) base
  then Some (json_response (two_results "p1" "p2") (next_and_base "c2"))
  else Some not_found.
Definition half_paged_wiki : Service := table_service half_paged_answer.

(** A listing whose Link header has an entry without a semicolon. *)
Definition bad_link_answer (r : request) : option response :=
  Some (json_response (two_results "p1" "p2")
          (Some (lit "</wiki/api/v2/spaces/123/pages?ids=1,2>; rel=" ++ [dq]
                 ++ lit "next" ++ [dq]))).
Definition bad_link_wiki : Service := table_service bad_link_answer.

(** [html] holds, somewhere, the text the pattern of
    [extract_task_and_cloud_id_from_html] describes for the attribute
    [name], with [content] between the quotes of the content attribute. *)
Definition meta_occurrence (name content html : str) : Prop :=
  exists pre ws1 ws2 post,
    html = pre ++ lit "<meta" ++ ws1 ++ name_attribute name ++ ws2
           ++ (lit "content=" ++ [dq]) ++ content ++ dq :: post
    /\ ws1 <> [] /\ Forall (fun c => isspace c = true) ws1
    /\ ws2 <> [] /\ Forall (fun c => isspace c = true) ws2
    /\ content <> [] /\ dq ∉ content.

(** A homepage listing whose first entry has a parent, whose second is
    the homepage, and whose third is no page object at all. *)
Definition nested_listing : pyval :=
  PDict [(lit "results",
          PList [PDict [(lit "id", PStr (lit "789")); (lit "parentType", PStr (lit "page"))];
                 PDict [(lit "id", PStr (lit "456")); (lit "parentType", PNone)];
                 PStr (lit "stray")])].
Definition nested_wiki : Service :=
  table_service (fun _ => Some (json_response nested_listing None)).



(** A page tree: root has the children a and b, a has the child c. *)
Definition tree_answer (r : request) : option response :=
  let pages := lit "https://wiki.example/wiki/api/v2/pages/" in
  if str_eqb (req_url r) (pages ++ lit "root/children")
  then Some (json_response
               (PDict [(lit "results", PList [page_entry "a" "A"; page_entry "b" "B"])]) None)
  else if str_eqb (req_url r) (pages ++ lit "a/children")
  then Some (json_response (PDict [(lit "results", PList [page_entry "c" "C"])]) None)
  else Some (json_response (PDict [(lit "results", PList [])]) None).
Definition tree_wiki : Service := table_service tree_answer.
(** * Properties *)

(** ** Strings *)

Lemma rstrip_by_Forall (P : codepoint -> Prop) p s :
  Forall P s -> Forall P (rstrip_by p s).
Proof.
  induction 1 as [|c s Hc Hs IH]; simpl; [constructor|].
  destruct (rstrip_by p s) as [|x r].
  - destruct (p c); repeat constructor; assumption.
  - constructor; assumption.
Qed.

Lemma rstrip_by_length p s : (length (rstrip_by p s) <= length s)%nat.
Proof.
  induction s as [|c s IH]; simpl; [lia|].
  destruct (rstrip_by p s) as [|x r]; [destruct (p c)|]; simpl in *; lia.
Qed.

Lemma rstrip_by_last p s c : last (rstrip_by p s) = Some c -> p c = false.
Proof.
  induction s as [|a s IH]; simpl; [discriminate|].
  destruct (rstrip_by p s) as [|x r] eqn:E.
  - destruct (p a) eqn:Ha; simpl; [discriminate|]. intros [= <-]. exact Ha.
  - intros Hl. apply IH. exact Hl.
Qed.

Lemma rstrip_by_fixed p s :
  (forall c, last s = Some c -> p c = false) -> rstrip_by p s = s.
Proof.
  induction s as [|a s IH]; simpl; [reflexivity|].
  intros Hl. destruct s as [|b s].
  - simpl. rewrite (Hl a eq_refl). reflexivity.
  - rewrite IH by exact Hl. reflexivity.
Qed.

Lemma rstrip_by_idem p s : rstrip_by p (rstrip_by p s) = rstrip_by p s.
Proof. apply rstrip_by_fixed. intros c. apply rstrip_by_last. Qed.

Lemma lstrip_by_fixed p s :
  Forall (fun c => p c = false) s -> lstrip_by p s = s.
Proof. destruct 1 as [|c s Hc _]; simpl; [reflexivity|]. rewrite Hc. reflexivity. Qed.

Lemma last_Forall {A} (P : A -> Prop) (l : list A) x :
  Forall P l -> last l = Some x -> P x.
Proof.
  intros Hl Hx. rewrite Forall_forall in Hl. apply Hl.
  apply last_Some in Hx as [l' ->]. apply elem_of_app. right. apply list_elem_of_singleton.
  reflexivity.
Qed.

Lemma strip_by_fixed p s :
  Forall (fun c => p c = false) s -> strip_by p s = s.
Proof.
  intros Hs. unfold strip_by. rewrite lstrip_by_fixed by exact Hs.
  apply rstrip_by_fixed. intros c Hc. exact (last_Forall _ _ _ Hs Hc).
Qed.

Lemma py_replace_fixed a b s :
  Forall (fun c => c <> a) s -> py_replace a b s = s.
Proof.
  induction 1 as [|c s Hc _ IH]; simpl; [reflexivity|].
  rewrite IH. destruct (N.eqb_spec c a); [contradiction|reflexivity].
Qed.

Lemma py_slice_to_Forall (P : codepoint -> Prop) n s :
  Forall P s -> Forall P (py_slice_to n s).
Proof. intros Hs. unfold py_slice_to. destruct (n <? 0); apply Forall_take, Hs. Qed.

Lemma py_slice_to_length n s :
  0 <= n -> (length (py_slice_to n s) <= Z.to_nat n)%nat.
Proof.
  intros Hn. unfold py_slice_to. destruct (Z.ltb_spec n 0); [lia|].
  rewrite length_take. lia.
Qed.

Lemma py_slice_to_fixed n s :
  (length s <= Z.to_nat n)%nat -> 0 <= n -> py_slice_to n s = s.
Proof.
  intros Hlen Hn. unfold py_slice_to. destruct (Z.ltb_spec n 0); [lia|].
  apply take_ge. exact Hlen.
Qed.

Section Sanitiser.
Context `{PyRuntime}.

Lemma re_sub_nonword_Forall s : Forall (fun c => is_word c = true) (re_sub_nonword s).
Proof.
  unfold re_sub_nonword. apply Forall_forall. intros c Hc.
  apply list_elem_of_filter in Hc as [Hc _]. exact Hc.
Qed.

Lemma re_sub_nonword_fixed s :
  Forall (fun c => is_word c = true) s -> re_sub_nonword s = s.
Proof.
  unfold re_sub_nonword. induction 1 as [|c s Hc _ IH]; [reflexivity|].
  rewrite filter_cons_True by exact Hc. rewrite IH. reflexivity.
Qed.

Lemma convert_title_to_filename_word title max_length :
  Forall (fun c => is_word c = true) (convert_title_to_filename title max_length).
Proof.
  unfold convert_title_to_filename, py_rstrip_chars.
  apply rstrip_by_Forall, py_slice_to_Forall, re_sub_nonword_Forall.
Qed.

Lemma convert_title_to_filename_last title max_length :
  last (convert_title_to_filename title max_length) <> Some underscore.
Proof.
  intros Hl. unfold convert_title_to_filename, py_rstrip_chars in Hl.
  apply rstrip_by_last in Hl. discriminate Hl.
Qed.

Lemma convert_title_to_filename_length title max_length :
  0 <= max_length ->
  (length (convert_title_to_filename title max_length) <= Z.to_nat max_length)%nat.
Proof.
  intros Hm. unfold convert_title_to_filename, py_rstrip_chars.
  etransitivity; [apply rstrip_by_length|]. apply py_slice_to_length, Hm.
Qed.

Hypothesis alnum_not_space : forall c, isalnum c = true -> isspace c = false.

Lemma word_not_space c : is_word c = true -> isspace c = false.
Proof.
  unfold is_word. intros Hc. apply orb_true_iff in Hc as [Hc|Hc].
  - apply alnum_not_space, Hc.
  - apply N.eqb_eq in Hc. subst c. reflexivity.
Qed.

Lemma word_not_the_space c : is_word c = true -> c <> space.
Proof. intros Hc ->. apply word_not_space in Hc. discriminate Hc. Qed.

(** C5. The filename sanitiser [convert_title_to_filename], at its
    configured maximum length of 100, is idempotent; its output consists
    of word characters only (alphanumerics and the underscore), does not
    end in an underscore, and is at most 100 characters long.  The one
    fact about Unicode used is that no alphanumeric character is
    whitespace. *)
Theorem convert_title_to_filename_idempotent_word_bounded (x : str) :
  let y := convert_title_to_filename x default_max_length in
  convert_title_to_filename y default_max_length = y
  /\ Forall (fun c => is_word c = true) y
  /\ last y <> Some underscore
  /\ (length y <= 100)%nat.
Proof.
  intros y.
  assert (Hw : Forall (fun c => is_word c = true) y)
    by apply convert_title_to_filename_word.
  assert (Hl : last y <> Some underscore) by apply convert_title_to_filename_last.
  assert (Hn : (length y <= 100)%nat).
  { change 100%nat with (Z.to_nat default_max_length).
    apply convert_title_to_filename_length. unfold default_max_length. lia. }
  repeat split; try assumption.
  unfold convert_title_to_filename at 1.
  unfold py_strip. rewrite strip_by_fixed.
  2:{ eapply Forall_impl; [exact Hw|]. intros c. apply word_not_space. }
  rewrite py_replace_fixed.
  2:{ eapply Forall_impl; [exact Hw|]. intros c. apply word_not_the_space. }
  rewrite re_sub_nonword_fixed by exact Hw.
  rewrite py_slice_to_fixed; [| exact Hn | unfold default_max_length; lia].
  unfold py_rstrip_chars. apply rstrip_by_fixed.
  intros c Hc. destruct (in_chars [underscore] c) eqn:E; [|reflexivity].
  exfalso. apply Hl. rewrite Hc. f_equal.
  unfold in_chars in E. simpl in E. rewrite orb_false_r in E.
  apply N.eqb_eq in E. exact E.
Qed.

End Sanitiser.

Lemma ascii_alnum_not_space c : ascii_isalnum c = true -> isspace c = false.
Proof.
  unfold ascii_isalnum, isspace. intros Hc.
  repeat match type of Hc with
         | (_ || _)%bool = true => apply orb_true_iff in Hc as [Hc|Hc]
         | (_ && _)%bool = true => apply andb_true_iff in Hc as [? ?]
         end;
  repeat match goal with
         | Hb : (_ <=? _)%N = true |- _ => apply N.leb_le in Hb
         end;
  repeat match goal with
         | |- (_ || _)%bool = false => apply orb_false_iff; split
         | |- (_ && _)%bool = false => apply andb_false_iff
         end;
  try (apply N.eqb_neq; lia);
  try (left; apply N.leb_gt; lia); try (right; apply N.leb_gt; lia).
Qed.

Lemma convert_title_to_filename_idempotent_word_bounded_witness :
  let y := @convert_title_to_filename ascii_runtime (lit "  Q3 plan: draft (v2) __ ")
                                      default_max_length in
  @convert_title_to_filename ascii_runtime y default_max_length = y
  /\ Forall (fun c => @is_word ascii_runtime c = true) y
  /\ last y <> Some underscore
  /\ (length y <= 100)%nat.
Proof.
  exact (@convert_title_to_filename_idempotent_word_bounded
           ascii_runtime ascii_alnum_not_space (lit "  Q3 plan: draft (v2) __ ")).
Defined.

(** ** What a run appends to the log *)

Lemma steps_app l1 l2 : steps (l1 ++ l2) = steps l1 ++ steps l2.
Proof. apply omap_app. Qed.

Section Traces.
Context `{Service}.

Lemma log_since_app st st' d : st_log st' = st_log st ++ d -> log_since st st' = d.
Proof. intros E. unfold log_since. rewrite E. apply drop_app_length. Qed.

Lemma rets_ret {A} (a : A) (P : A -> list event -> Prop) : P a [] -> rets (ret a) P.
Proof.
  intros HP st a' st' [= <- <-]. exists []. rewrite app_nil_r. auto.
Qed.

Lemma rets_raise {A} e (P : A -> list event -> Prop) : rets (raise e) P.
Proof. intros st a st' E. discriminate E. Qed.

Lemma rets_out_of_fuel {A} (P : A -> list event -> Prop) : rets out_of_fuel P.
Proof. intros st a st' E. discriminate E. Qed.

Lemma rets_lift {A} (r : res A) (P : A -> list event -> Prop) :
  (forall a, r = Ret a -> P a []) -> rets (lift r) P.
Proof.
  intros HP st a st' [= -> <-]. exists []. rewrite app_nil_r. auto.
Qed.

Lemma rets_bind {A B} (m : M A) (k : A -> M B) P Q :
  rets m P -> (forall a, rets (k a) (Q a)) ->
  rets (bind m k) (fun b d => exists a d1 d2, P a d1 /\ Q a b d2 /\ d = d1 ++ d2).
Proof.
  intros Hm Hk st b st' E. unfold bind in E.
  destruct (m st) as [[a|e|] st1] eqn:Em; try discriminate E.
  destruct (Hm _ _ _ Em) as (d1 & E1 & HP).
  destruct (Hk a _ _ _ E) as (d2 & E2 & HQ).
  exists (d1 ++ d2). split.
  - rewrite E2, E1, app_assoc. reflexivity.
  - exists a, d1, d2. auto.
Qed.

Lemma rets_weaken {A} (m : M A) (P Q : A -> list event -> Prop) :
  rets m P -> (forall a d, P a d -> Q a d) -> rets m Q.
Proof.
  intros Hm HPQ st a st' E. destruct (Hm _ _ _ E) as (d & E1 & HP). eauto.
Qed.

Lemma rets_emit e : rets (emit e) (fun _ d => d = [e]).
Proof. intros st [] st' [= <-]. simpl. eauto. Qed.

Lemma rets_requests_get r : rets (requests_get r) (fun _ d => d = [EvRequest r]).
Proof.
  intros st a st' E. unfold requests_get in E.
  destruct (http_get (st_world st) r) as [[resp|] w']; [|discriminate E].
  injection E as <- <-. simpl. eauto.
Qed.

Lemma rets_time_sleep z : rets (time_sleep z) (fun _ d => d = [EvSleep z]).
Proof.
  unfold time_sleep. destruct ((z <? - max_sleep) || (max_sleep <? z)); [apply rets_raise|].
  destruct (z <? 0); [apply rets_raise | apply rets_emit].
Qed.

Lemma emits_ret {A} (a : A) : silent (ret a).
Proof. apply rets_ret. reflexivity. Qed.

Lemma emits_lift {A} (r : res A) : silent (lift r).
Proof. apply rets_lift. reflexivity. Qed.

Lemma emits_bind {A B} (m : M A) (k : A -> M B) s1 s2 :
  emits m s1 -> (forall a, emits (k a) s2) -> emits (bind m k) (s1 ++ s2).
Proof.
  intros Hm Hk. eapply rets_weaken; [apply (rets_bind _ _ _ _ Hm Hk)|].
  intros b d (a & d1 & d2 & H1 & H2 & ->). rewrite steps_app, H1, H2. reflexivity.
Qed.

Lemma silent_bind {A B} (m : M A) (k : A -> M B) :
  silent m -> (forall a, silent (k a)) -> silent (bind m k).
Proof. intros Hm Hk. exact (emits_bind m k [] [] Hm Hk). Qed.

Lemma emits_requests_get r :
  emits (requests_get r)
        (match req_endpoint r with
         | ExportTrigger => [Trigger]
         | Artifact => [Download]
         | _ => []
         end).
Proof.
  eapply rets_weaken; [apply rets_requests_get|].
  intros _ d ->. unfold steps. simpl. destruct (req_endpoint r); reflexivity.
Qed.

Lemma silent_requests_get r :
  req_endpoint r <> ExportTrigger -> req_endpoint r <> Artifact ->
  silent (requests_get r).
Proof.
  generalize (emits_requests_get r).
  destruct (req_endpoint r); intros E Ht Ha; first [exact E | congruence].
Qed.

Lemma emits_time_sleep z : emits (time_sleep z) [Wait z].
Proof. eapply rets_weaken; [apply rets_time_sleep|]. intros _ d ->. reflexivity. Qed.

End Traces.

Ltac silent_step :=
  first
    [ apply emits_ret
    | apply emits_lift
    | apply rets_raise
    | apply rets_out_of_fuel
    | apply silent_requests_get; cbn; discriminate
    | apply silent_bind; [| intros ? ]
    | match goal with
      | |- emits (if ?b then _ else _) _ => destruct b
      | |- emits (match ?x with _ => _ end) _ => destruct x
      end ].
Ltac silent_auto := repeat silent_step.

Lemma calls_to_app ep l1 l2 : calls_to ep (l1 ++ l2) = (calls_to ep l1 + calls_to ep l2)%nat.
Proof. unfold calls_to. rewrite List.filter_app, length_app. reflexivity. Qed.

Lemma calls_to_trigger_steps log :
  calls_to ExportTrigger log = length (List.filter is_trigger (steps log)).
Proof.
  unfold calls_to, steps. induction log as [|e log IH]; [reflexivity|].
  destruct e as [r| | |]; simpl; try exact IH.
  destruct (req_endpoint r); simpl; rewrite ?IH; try reflexivity.
  all: rewrite bool_decide_eq_false_2 by discriminate; exact IH.
Qed.

Lemma calls_to_artifact_steps log :
  calls_to Artifact log = length (List.filter is_download (steps log)).
Proof.
  unfold calls_to, steps. induction log as [|e log IH]; [reflexivity|].
  destruct e as [r| | |]; simpl; try exact IH.
  destruct (req_endpoint r); simpl; rewrite ?IH; try reflexivity.
  all: rewrite bool_decide_eq_false_2 by discriminate; exact IH.
Qed.

Lemma split_last_slash_no_head p : fst (split_last_slash p) = [] -> slash ∉ p.
Proof.
  induction p as [|c p IH]; simpl; [intros _; apply not_elem_of_nil|].
  destruct (split_last_slash p) as [[|h head] tail]; simpl in *.
  - destruct (N.eqb_spec c slash) as [Hc|Hc]; simpl; [discriminate|].
    intros _ Hin. apply elem_of_cons in Hin as [Hin|Hin]; [exact (Hc (eq_sym Hin))|].
    exact (IH eq_refl Hin).
  - discriminate.
Qed.

Lemma rstrip_by_nonempty p s c : c ∈ s -> p c = false -> rstrip_by p s <> [].
Proof.
  induction s as [|a s IH]; [intros Hin; inversion Hin|].
  intros Hin Hc. simpl. destruct (rstrip_by p s) as [|x r] eqn:E; [|discriminate].
  apply elem_of_cons in Hin as [<-|Hin]; [rewrite Hc; discriminate|].
  destruct (IH Hin Hc eq_refl).
Qed.

Lemma posix_dirname_nonempty p : slash ∈ p -> posix_dirname p <> [].
Proof.
  intros Hin. unfold posix_dirname.
  destruct (fst (split_last_slash p)) as [|h head] eqn:E.
  { destruct (split_last_slash_no_head p E Hin). }
  destruct (forallb _ (h :: head)) eqn:F; [discriminate|].
  assert (Hex : exists c, c ∈ h :: head /\ (c =? slash)%N = false).
  { clear E. induction (h :: head) as [|a l IH]; [discriminate F|].
    simpl in F. apply andb_false_iff in F as [F|F].
    - exists a. split; [left|exact F].
    - destruct (IH F) as (c & Hc & Hs). exists c. split; [right; exact Hc|exact Hs]. }
  destruct Hex as (c & Hc & Hs).
  apply (rstrip_by_nonempty _ _ c Hc). unfold in_chars. simpl. rewrite Hs. reflexivity.
Qed.

Lemma is_prefix_cons_elem c s : is_prefix [c] s = true -> c ∈ s.
Proof.
  destruct s as [|b s]; simpl; [discriminate|].
  rewrite andb_true_r. intros E. apply N.eqb_eq in E. subst b. left.
Qed.

Lemma py_endswith_slash_elem s : py_endswith [slash] s = true -> slash ∈ s.
Proof.
  unfold py_endswith. change (rev [slash]) with [slash]. intros E.
  apply is_prefix_cons_elem in E. apply list_elem_of_In.
  apply List.in_rev. apply list_elem_of_In. exact E.
Qed.

(** ** The page pipeline *)

Section PageProps.
Context `{PyRuntime} `{Service}.
Variables domain email api_token : str.

Lemma silent_get_confluence_page_title_by_id page_id :
  silent (get_confluence_page_title_by_id domain email api_token page_id).
Proof. unfold get_confluence_page_title_by_id. silent_auto. Qed.

Lemma silent_get_confluence_page_content_by_id page_id :
  silent (get_confluence_page_content_by_id domain email api_token page_id).
Proof. unfold get_confluence_page_content_by_id. silent_auto. Qed.

Lemma silent_is_empty_confluence_page page_id :
  silent (is_empty_confluence_page domain email api_token page_id).
Proof.
  unfold is_empty_confluence_page.
  apply silent_bind; [apply silent_get_confluence_page_content_by_id|].
  intros c. silent_auto.
Qed.

Lemma silent_resolve_file_page_title page_id page_title :
  silent (resolve_file_page_title domain email api_token page_id page_title).
Proof.
  unfold resolve_file_page_title. apply silent_bind.
  - destruct (negb (truthy page_title));
      [apply silent_get_confluence_page_title_by_id | apply emits_ret].
  - intros t. silent_auto.
Qed.

Lemma emits_get_pdf_export_confluence_url page_id :
  emits (get_pdf_export_confluence_url domain email api_token page_id) [Trigger].
Proof.
  unfold get_pdf_export_confluence_url.
  apply (emits_bind _ _ [Trigger] []); [apply emits_requests_get|].
  intros resp. silent_auto.
Qed.

Lemma emits_requests_get_value_artifact url :
  emits (requests_get_value Artifact url) [Download].
Proof. destruct url; try apply rets_raise. apply emits_requests_get. Qed.

Lemma silent_fs_step move e :
  (forall r, e <> EvRequest r) -> (forall z, e <> EvSleep z) -> silent (fs_step move e).
Proof.
  intros Hr Hz st [] st'. unfold fs_step.
  destruct (move (st_world st)) as [w'|]; [|discriminate].
  intros [= <-]. exists [e]. split; [reflexivity|].
  destruct e; try reflexivity; [destruct (Hr r) | destruct (Hz seconds)]; reflexivity.
Qed.

Lemma emits_download_pdf_from_presigned_url url output_path :
  emits (download_pdf_from_presigned_url url output_path) [Download].
Proof.
  unfold download_pdf_from_presigned_url.
  apply (emits_bind _ _ [] [Download]).
  { destruct (posix_dirname output_path); [apply rets_raise|].
    apply silent_fs_step; discriminate. }
  intros _. apply (emits_bind _ _ [Download] []);
    [apply emits_requests_get_value_artifact|].
  intros resp. apply silent_bind; [|intros _; apply emits_ret].
  destruct (status_code resp =? 200); [|apply emits_ret].
  apply silent_fs_step; discriminate.
Qed.

Lemma emits_download_pdf_from_presigned_url_to_gcs_bucket url filename bucket :
  emits (download_pdf_from_presigned_url_to_gcs_bucket url filename bucket) [Download].
Proof.
  unfold download_pdf_from_presigned_url_to_gcs_bucket.
  apply (emits_bind _ _ [Download] []);
    [apply emits_requests_get_value_artifact|].
  intros resp. destruct (status_code resp =? 200); [apply rets_raise | apply emits_ret].
Qed.

Lemma emits_download_attempt page_id fpt output_path gcs wait :
  emits (download_attempt domain email api_token page_id fpt output_path gcs wait)
        (attempt_steps wait).
Proof.
  unfold download_attempt.
  apply (emits_bind _ _ [Trigger] [Wait wait; Download]);
    [apply emits_get_pdf_export_confluence_url|].
  intros url. apply (emits_bind _ _ [Wait wait] [Download]); [apply emits_time_sleep|].
  intros _. destruct gcs as [[|b bucket]|].
  - apply (emits_bind _ _ [Download] []);
      [apply emits_download_pdf_from_presigned_url | intros ?; apply emits_ret].
  - apply (emits_bind _ _ [Download] []);
      [apply emits_download_pdf_from_presigned_url_to_gcs_bucket | intros ?; apply emits_ret].
  - apply (emits_bind _ _ [Download] []);
      [apply emits_download_pdf_from_presigned_url | intros ?; apply emits_ret].
Qed.

Lemma bind_ret_eq {A B} (m : M A) (k : A -> M B) st a st1 :
  m st = (Ret a, st1) -> bind m k st = k a st1.
Proof. intros E. unfold bind. rewrite E. reflexivity. Qed.

Lemma bind_raise_eq {A B} (m : M A) (k : A -> M B) st e st1 :
  m st = (Raise e, st1) -> bind m k st = (Raise e, st1).
Proof. intros E. unfold bind. rewrite E. reflexivity. Qed.

Lemma time_sleep_eq z st :
  0 <= z <= max_sleep ->
  time_sleep z st = (Ret tt, {| st_world := st_world st; st_log := st_log st ++ [EvSleep z] |}).
Proof.
  intros Hz. unfold time_sleep.
  assert (E1 : (z <? - max_sleep) = false) by (apply Z.ltb_ge; unfold max_sleep; lia).
  assert (E2 : (max_sleep <? z) = false) by (apply Z.ltb_ge; lia).
  assert (E3 : (z <? 0) = false) by (apply Z.ltb_ge; lia).
  rewrite E1, E2, E3. reflexivity.
Qed.

Lemma time_sleep_ten st :
  time_sleep 10 st
  = (Ret tt, {| st_world := st_world st; st_log := st_log st ++ [EvSleep 10] |}).
Proof. reflexivity. Qed.

Lemma labels_distinct :
  DOWNLOAD_SUCCESFUL <> DOWNLOAD_FAILED /\ EMPTY_PAGE <> DOWNLOAD_FAILED
  /\ EMPTY_PAGE <> DOWNLOAD_SUCCESFUL.
Proof. repeat split; intros E; vm_compute in E; discriminate E. Qed.

Lemma retry_steps_snoc failed wait :
  retry_steps (S failed) wait =
  retry_steps failed wait ++ attempt_steps (wait + 10 * Z.of_nat failed) ++ [Wait 10].
Proof.
  revert wait. induction failed as [|n IH]; intros wait.
  - simpl. rewrite Z.add_0_r. reflexivity.
  - change (retry_steps (S (S n)) wait)
      with (attempt_steps wait ++ [Wait 10] ++ retry_steps (S n) (wait + 10)).
    rewrite IH. simpl.
    replace (wait + 10 + 10 * Z.of_nat n) with (wait + 10 * Z.of_nat (S n)) by lia.
    reflexivity.
Qed.

(** Every returning run of the retry loop is a row of failed round trips
    followed either by a successful one or by the end of the attempts. *)
Lemma retry_loop_run attempts page_id fpt output_path gcs wait :
  rets (retry_loop domain email api_token attempts page_id fpt output_path gcs wait)
       (fun label d =>
          (label = DOWNLOAD_SUCCESFUL /\
           exists failed, (failed < attempts)%nat /\
             steps d = retry_steps failed wait
                       ++ attempt_steps (wait + 10 * Z.of_nat failed))
          \/ (label = DOWNLOAD_FAILED /\ steps d = retry_steps attempts wait)).
Proof.
  revert output_path wait. induction attempts as [|n IH]; intros output_path wait.
  - apply rets_ret. right. split; reflexivity.
  - intros st label st' E. simpl in E. unfold bind at 1 in E.
    destruct (download_attempt _ _ _ _ _ _ _ _ st) as [[[code op]|e|] st1] eqn:Ea;
      try discriminate E.
    destruct (emits_download_attempt _ _ _ _ _ _ _ _ Ea) as (d1 & E1 & S1).
    destruct (code =? 200).
    + injection E as <- <-. exists d1. split; [exact E1|]. left. split; [reflexivity|].
      exists O. split; [lia|]. simpl. rewrite Z.add_0_r. exact S1.
    + unfold bind at 1 in E.
      destruct (time_sleep 10 st1) as [[[]|e|] st2] eqn:Es; try discriminate E.
      destruct (rets_time_sleep _ _ _ _ Es) as (d2 & E2 & ->).
      destruct (IH _ _ _ _ _ E) as (d3 & E3 & Hrun).
      exists (d1 ++ [EvSleep 10] ++ d3). split.
      { rewrite E3, E2, E1, <- !app_assoc. reflexivity. }
      rewrite !steps_app, S1.
      destruct Hrun as [(-> & k & Hk & S3)|(-> & S3)]; [left|right];
        (split; [reflexivity|]).
      * exists (S k). split; [lia|]. rewrite S3. simpl.
        replace (wait + 10 + 10 * Z.of_nat k) with (wait + 10 * Z.of_nat (S k)) by lia.
        reflexivity.
      * rewrite S3. reflexivity.
Qed.

(** What a returning page export has logged, whatever the service did. *)
Lemma export_pdf_confluence_page_by_id_run page_id page_title output_path gcs wait_time :
  rets (export_pdf_confluence_page_by_id domain email api_token
          page_id page_title output_path gcs wait_time)
       (fun label d => page_run (initial_wait wait_time) label (steps d)).
Proof.
  intros st label st' E. unfold export_pdf_confluence_page_by_id in E.
  unfold bind at 1 in E.
  destruct (resolve_file_page_title _ _ _ _ _ st) as [[fpt|e|] st1] eqn:Et;
    try discriminate E.
  destruct (silent_resolve_file_page_title _ _ _ _ _ Et) as (d1 & E1 & S1).
  unfold bind at 1 in E.
  destruct (is_empty_confluence_page _ _ _ _ st1) as [[empty|e|] st2] eqn:Ee;
    try discriminate E.
  destruct (silent_is_empty_confluence_page _ _ _ _ Ee) as (d2 & E2 & S2).
  destruct empty.
  - injection E as <- <-. exists (d1 ++ d2). split.
    + rewrite E2, E1, app_assoc. reflexivity.
    + rewrite steps_app, S1, S2. constructor.
  - destruct (retry_loop_run _ _ _ _ _ _ _ _ _ E) as (d3 & E3 & Hrun).
    exists (d1 ++ d2 ++ d3). split.
    + rewrite E3, E2, E1, <- !app_assoc. reflexivity.
    + rewrite !steps_app, S1, S2. simpl.
      destruct Hrun as [(-> & k & Hk & ->)|(-> & ->)]; constructor. exact Hk.
Qed.

End PageProps.

Section PageClaims.
Context `{PyRuntime} `{Service}.
Variables domain email api_token : str.

Lemma output_directory_has_slash (output_path : option str) :
  let o := match output_path with
           | Some (c :: p) => c :: p
           | _ => lit "confluence_downloads/"
           end in
  slash ∈ (if negb (py_endswith [slash] o) then o ++ [slash] else o).
Proof.
  intros o. destruct (py_endswith [slash] o) eqn:E; simpl.
  - apply py_endswith_slash_elem, E.
  - apply elem_of_app. right. left.
Qed.

Lemma download_pdf_from_presigned_url_answered u output_path st w1 resp w2 :
  slash ∈ output_path ->
  makedirs (st_world st) (posix_dirname output_path) = Some w1 ->
  http_get w1 (plain_request Artifact u) = (Some resp, w2) ->
  (status_code resp = 200 ->
   exists w3, write_file w2 (posix_dirname output_path ++ [slash]
                             ++ ensure_pdf_suffix (posix_basename output_path)) = Some w3) ->
  exists st', download_pdf_from_presigned_url (PStr u) output_path st
              = (Ret (status_code resp), st').
Proof.
  intros Hs Hmk Hget Hwr. unfold download_pdf_from_presigned_url.
  destruct (posix_dirname output_path) as [|c dir] eqn:D.
  { destruct (posix_dirname_nonempty _ Hs D). }
  unfold bind at 1. unfold fs_step at 1. rewrite Hmk.
  unfold bind at 1. unfold requests_get_value, requests_get. cbn [st_world st_log].
  rewrite Hget. unfold bind.
  destruct (Z.eqb_spec (status_code resp) 200) as [E|E].
  - destruct (Hwr E) as (w3 & Ew). unfold fs_step. cbn [st_world st_log]. rewrite Ew.
    eexists. reflexivity.
  - eexists. reflexivity.
Qed.

(** A round trip to the file system whose trigger resolves a URL, whose
    sleep is one [time.sleep] accepts, whose directory the file system
    grants and whose artifact fetch is answered returns the status of
    that answer, provided that the file can be written when it is 200. *)
Lemma download_attempt_answered page_id fpt output_path gcs wait st u st1 w2 resp w3 :
  get_pdf_export_confluence_url domain email api_token page_id st = (Ret (PStr u), st1) ->
  0 <= wait <= max_sleep ->
  gcs = None \/ gcs = Some [] ->
  makedirs (st_world st1) (written_directory output_path fpt) = Some w2 ->
  http_get w2 (plain_request Artifact u) = (Some resp, w3) ->
  (status_code resp = 200 ->
   exists w4, write_file w3 (written_path output_path fpt) = Some w4) ->
  exists op' st2,
    download_attempt domain email api_token page_id fpt output_path gcs wait st
    = (Ret (status_code resp, op'), st2).
Proof.
  intros Hurl Hw Hsink Hmk Hget Hwr. unfold download_attempt.
  rewrite (bind_ret_eq _ _ _ _ _ Hurl).
  rewrite (bind_ret_eq _ _ _ _ _ (time_sleep_eq wait st1 Hw)).
  set (st1' := {| st_world := st_world st1; st_log := st_log st1 ++ [EvSleep wait] |}).
  destruct (download_pdf_from_presigned_url_answered u
              (output_directory output_path ++ fpt) st1' w2 resp w3)
    as (st2 & E);
    [apply elem_of_app; left; apply output_directory_has_slash
    | exact Hmk | exact Hget | exact Hwr |].
  assert (Hfs : exists op' st2,
    (do status_code <- download_pdf_from_presigned_url (PStr u)
                         (output_directory output_path ++ fpt);
     ret (status_code, Some (output_directory output_path))) st1'
    = (Ret (status_code resp, op'), st2)).
  { rewrite (bind_ret_eq _ _ _ _ _ E). eexists. eexists. reflexivity. }
  destruct Hsink as [-> | ->]; exact Hfs.
Qed.

Lemma log_since_two (st0 st1 st2 : state) d1 d2 :
  st_log st1 = st_log st0 ++ d1 -> st_log st2 = st_log st1 ++ d2 ->
  log_since st0 st2 = d1 ++ d2.
Proof. intros E1 E2. apply log_since_app. rewrite E2, E1, app_assoc. reflexivity. Qed.

Lemma is_empty_content_literals content :
  content = [] \/ content = empty_paragraph -> is_empty_content content = true.
Proof. intros [->| ->]; reflexivity. Qed.

(** Behind C4: once the title step has returned (the title was given by
    the caller, or fetched), a page whose export-view content is the
    empty string or the empty-paragraph marker is classified EMPTY_PAGE,
    and between the call and the return the export trigger endpoint is
    not called (nor is there any wait or download). *)
Lemma empty_page_is_classified_without_export
    page_id page_title output_path gcs wait_time st0 fpt st1 content st2 :
  resolve_file_page_title domain email api_token page_id page_title st0 = (Ret fpt, st1) ->
  get_confluence_page_content_by_id domain email api_token page_id st1
    = (Ret (PStr content), st2) ->
  content = [] \/ content = empty_paragraph ->
  export_pdf_confluence_page_by_id domain email api_token
    page_id page_title output_path gcs wait_time st0 = (Ret EMPTY_PAGE, st2)
  /\ calls_to ExportTrigger (log_since st0 st2) = 0%nat
  /\ steps (log_since st0 st2) = [].
Proof.
  intros Ht Hc Hlit.
  destruct (silent_resolve_file_page_title _ _ _ _ _ _ _ _ Ht) as (d1 & E1 & S1).
  destruct (silent_get_confluence_page_content_by_id _ _ _ _ _ _ _ Hc) as (d2 & E2 & S2).
  assert (Hsteps : steps (log_since st0 st2) = []).
  { rewrite (log_since_two _ _ _ _ _ E1 E2), steps_app, S1, S2. reflexivity. }
  split; [|split; [|exact Hsteps]].
  - assert (He : is_empty_confluence_page domain email api_token page_id st1
                 = (Ret true, st2)).
    { unfold is_empty_confluence_page. rewrite (bind_ret_eq _ _ _ _ _ Hc).
      rewrite <- (is_empty_content_literals _ Hlit). reflexivity. }
    unfold export_pdf_confluence_page_by_id.
    rewrite (bind_ret_eq _ _ _ _ _ Ht), (bind_ret_eq _ _ _ _ _ He). reflexivity.
  - rewrite calls_to_trigger_steps, Hsteps. reflexivity.
Qed.

(** C3, as amended.  With the file system as the destination, a page
    that is not empty and whose first artifact fetch is answered with
    status 200 is exported with the label DOWNLOAD_SUCCESFUL (one S, as
    the code and its docstring spell it); the log shows exactly one
    trigger, the initial wait, one download, and no inter-retry sleep.
    The initial wait is one [time.sleep] accepts, and the file system
    grants the directory and the file. *)
Theorem first_download_200_is_DOWNLOAD_SUCCESFUL
    page_id page_title output_path gcs wait_time st0 fpt st1 st2 u st3 w4 resp w5 w6 :
  resolve_file_page_title domain email api_token page_id page_title st0 = (Ret fpt, st1) ->
  is_empty_confluence_page domain email api_token page_id st1 = (Ret false, st2) ->
  get_pdf_export_confluence_url domain email api_token page_id st2 = (Ret (PStr u), st3) ->
  0 <= initial_wait wait_time <= max_sleep ->
  gcs = None \/ gcs = Some [] ->
  makedirs (st_world st3) (written_directory output_path fpt) = Some w4 ->
  http_get w4 (plain_request Artifact u) = (Some resp, w5) ->
  status_code resp = 200 ->
  write_file w5 (written_path output_path fpt) = Some w6 ->
  exists st4,
    export_pdf_confluence_page_by_id domain email api_token
    page_id page_title output_path gcs wait_time st0
      = (Ret DOWNLOAD_SUCCESFUL, st4)
    /\ steps (log_since st0 st4) = [Trigger; Wait (initial_wait wait_time); Download]
    /\ calls_to ExportTrigger (log_since st0 st4) = 1%nat
    /\ calls_to Artifact (log_since st0 st4) = 1%nat.
Proof.
  intros Ht He Hurl Hw Hsink Hmk Hget H200 Hwr.
  destruct (download_attempt_answered page_id fpt output_path gcs
              (initial_wait wait_time) st2 u st3 w4 resp w5 Hurl Hw Hsink Hmk Hget
              (fun _ => ex_intro _ w6 Hwr))
    as (op' & st4 & Ea).
  exists st4.
  destruct (silent_resolve_file_page_title _ _ _ _ _ _ _ _ Ht) as (d1 & E1 & S1).
  destruct (silent_is_empty_confluence_page _ _ _ _ _ _ _ He) as (d2 & E2 & S2).
  destruct (emits_download_attempt _ _ _ _ _ _ _ _ _ _ _ Ea) as (d3 & E3 & S3).
  assert (Hsteps : steps (log_since st0 st4) = attempt_steps (initial_wait wait_time)).
  { rewrite (log_since_two st0 st2 st4 (d1 ++ d2) d3);
      [| rewrite E2, E1, app_assoc; reflexivity | exact E3].
    rewrite !steps_app, S1, S2, S3. reflexivity. }
  split; [|split; [exact Hsteps|split]].
  - unfold export_pdf_confluence_page_by_id.
    rewrite (bind_ret_eq _ _ _ _ _ Ht), (bind_ret_eq _ _ _ _ _ He).
    cbv iota. simpl retry_loop.
    rewrite (bind_ret_eq _ _ _ _ _ Ea). rewrite H200. reflexivity.
  - rewrite calls_to_trigger_steps, Hsteps. reflexivity.
  - rewrite calls_to_artifact_steps, Hsteps. reflexivity.
Qed.

(** C2. A page that is not empty and on which every download attempt
    returns a status other than 200 is exported with the label
    DOWNLOAD_FAILED after exactly three attempts; the wait before the
    download of attempt k is the initial wait plus 10*(k-1), a fixed sleep
    of 10 seconds follows each failed attempt, and the initial wait is the
    caller's value, or 15 when that is absent or zero.  The attempts are
    the three the run makes, each from the state the one before left
    after its fixed sleep. *)
Theorem all_downloads_fail_is_DOWNLOAD_FAILED
    page_id page_title output_path gcs wait_time st0 fpt st1 st2
    code1 op1 st3 code2 op2 st4 code3 op3 st5 :
  resolve_file_page_title domain email api_token page_id page_title st0 = (Ret fpt, st1) ->
  is_empty_confluence_page domain email api_token page_id st1 = (Ret false, st2) ->
  download_attempt domain email api_token page_id fpt output_path gcs
    (initial_wait wait_time) st2 = (Ret (code1, op1), st3) ->
  code1 <> 200 ->
  download_attempt domain email api_token page_id fpt op1 gcs
    (initial_wait wait_time + 10) (after_sleep 10 st3) = (Ret (code2, op2), st4) ->
  code2 <> 200 ->
  download_attempt domain email api_token page_id fpt op2 gcs
    (initial_wait wait_time + 10 + 10) (after_sleep 10 st4) = (Ret (code3, op3), st5) ->
  code3 <> 200 ->
  let w := initial_wait wait_time in
  (wait_time = None \/ wait_time = Some 0 -> w = 15)
  /\ (forall z, wait_time = Some z -> z <> 0 -> w = z)
  /\ export_pdf_confluence_page_by_id domain email api_token
       page_id page_title output_path gcs wait_time st0
     = (Ret DOWNLOAD_FAILED, after_sleep 10 st5)
  /\ steps (log_since st0 (after_sleep 10 st5)) =
       [Trigger; Wait w; Download; Wait 10;
        Trigger; Wait (w + 10); Download; Wait 10;
        Trigger; Wait (w + 10 + 10); Download; Wait 10]
  /\ calls_to ExportTrigger (log_since st0 (after_sleep 10 st5)) = 3%nat
  /\ calls_to Artifact (log_since st0 (after_sleep 10 st5)) = 3%nat.
Proof.
  intros Ht He Ea1 Hc1 Ea2 Hc2 Ea3 Hc3 w. split; [|split].
  - intros [->| ->]; reflexivity.
  - intros z -> Hz. unfold w, initial_wait.
    destruct (Z.eqb_spec z 0); [contradiction|reflexivity].
  - assert (Er : retry_loop domain email api_token 3 page_id fpt output_path gcs w st2
                 = (Ret DOWNLOAD_FAILED, after_sleep 10 st5)).
    { cbn [retry_loop]. rewrite (bind_ret_eq _ _ _ _ _ Ea1).
      destruct (Z.eqb_spec code1 200) as [?|_]; [contradiction|].
      rewrite (bind_ret_eq _ _ _ _ _ (time_sleep_ten st3)).
      fold (after_sleep 10 st3). rewrite (bind_ret_eq _ _ _ _ _ Ea2).
      destruct (Z.eqb_spec code2 200) as [?|_]; [contradiction|].
      rewrite (bind_ret_eq _ _ _ _ _ (time_sleep_ten st4)).
      fold (after_sleep 10 st4). rewrite (bind_ret_eq _ _ _ _ _ Ea3).
      destruct (Z.eqb_spec code3 200) as [?|_]; [contradiction|].
      rewrite (bind_ret_eq _ _ _ _ _ (time_sleep_ten st5)). reflexivity. }
    destruct (silent_resolve_file_page_title _ _ _ _ _ _ _ _ Ht) as (d1 & E1 & S1).
    destruct (silent_is_empty_confluence_page _ _ _ _ _ _ _ He) as (d2 & E2 & S2).
    destruct (retry_loop_run _ _ _ _ _ _ _ _ _ _ _ _ Er) as (d3 & E3 & Hrun).
    assert (S3 : steps d3 = retry_steps 3 w).
    { destruct Hrun as [(Hl & _)|(_ & S3)]; [|exact S3].
      destruct labels_distinct as (Hd & _). symmetry in Hl. contradiction. }
    assert (Hsteps : steps (log_since st0 (after_sleep 10 st5)) = retry_steps 3 w).
    { rewrite (log_since_two st0 st2 (after_sleep 10 st5) (d1 ++ d2) d3);
        [| rewrite E2, E1, app_assoc; reflexivity | exact E3].
      rewrite !steps_app, S1, S2, S3. reflexivity. }
    split; [|split; [exact Hsteps|split]].
    + unfold export_pdf_confluence_page_by_id.
      rewrite (bind_ret_eq _ _ _ _ _ Ht), (bind_ret_eq _ _ _ _ _ He). exact Er.
    + rewrite calls_to_trigger_steps, Hsteps. reflexivity.
    + rewrite calls_to_artifact_steps, Hsteps. reflexivity.
Qed.

Lemma py_in_error_request_failed resp : py_in (lit "error") (request_failed resp) = Ret true.
Proof. reflexivity. Qed.

(** Behind C1, for every service: a content endpoint that answers with a
    status other than 200 makes the content [None] ... *)
Lemma get_confluence_page_content_by_id_failed page_id st resp w' :
  http_get (st_world st) (content_request domain email api_token page_id)
    = (Some resp, w') ->
  status_code resp <> 200 ->
  exists st', get_confluence_page_content_by_id domain email api_token page_id st
              = (Ret PNone, st').
Proof.
  intros Hget Hs. unfold get_confluence_page_content_by_id.
  unfold bind at 1. unfold requests_get. rewrite Hget.
  unfold handle_json_errors. destruct (Z.eqb_spec (status_code resp) 200); [contradiction|].
  unfold bind, lift. rewrite py_in_error_request_failed. eexists. reflexivity.
Qed.

(** ... and a content that is not a string makes the export raise. *)
Lemma export_page_raises_without_content
    page_id page_title output_path gcs wait_time st0 fpt st1 content st2 :
  resolve_file_page_title domain email api_token page_id page_title st0 = (Ret fpt, st1) ->
  get_confluence_page_content_by_id domain email api_token page_id st1
    = (Ret content, st2) ->
  (forall s, content <> PStr s) ->
  export_pdf_confluence_page_by_id domain email api_token
    page_id page_title output_path gcs wait_time st0 = (Raise AttributeError, st2).
Proof.
  intros Ht Hc Hn. unfold export_pdf_confluence_page_by_id.
  rewrite (bind_ret_eq _ _ _ _ _ Ht).
  assert (He : is_empty_confluence_page domain email api_token page_id st1
               = (Raise AttributeError, st2)).
  { unfold is_empty_confluence_page. rewrite (bind_ret_eq _ _ _ _ _ Hc).
    destruct content; try reflexivity. destruct (Hn s eq_refl). }
  rewrite (bind_raise_eq _ _ _ _ _ He). reflexivity.
Qed.

(** *** The export job client *)

Lemma drop_prefix_Some p s r : drop_prefix p s = Some r -> s = p ++ r.
Proof.
  revert s. induction p as [|a p IH]; intros s; simpl.
  - intros [= ->]. reflexivity.
  - destruct s as [|b s]; [discriminate|].
    destruct (N.eqb_spec a b) as [->|]; [|discriminate].
    intros E. rewrite (IH _ E). reflexivity.
Qed.

Lemma span_app p s a b : span p s = (a, b) -> s = a ++ b.
Proof.
  revert a b. induction s as [|c s IH]; intros a b; simpl.
  - intros [= <- <-]. reflexivity.
  - destruct (p c).
    + destruct (span p s) as [a' b']. intros [= <- <-]. rewrite (IH _ _ eq_refl). reflexivity.
    + intros [= <- <-]. reflexivity.
Qed.

Lemma is_prefix_app p s : is_prefix p (p ++ s) = true.
Proof. induction p as [|a p IH]; simpl; [reflexivity|]. rewrite N.eqb_refl. exact IH. Qed.

Lemma py_substring_unfold needle hay :
  py_substring needle hay =
  is_prefix needle hay || match hay with [] => false | _ :: h => py_substring needle h end.
Proof. destruct hay; reflexivity. Qed.

Lemma py_substring_app needle a b : py_substring needle (a ++ needle ++ b) = true.
Proof.
  induction a as [|c a IH].
  - rewrite app_nil_l, py_substring_unfold, is_prefix_app. reflexivity.
  - simpl. rewrite IH. apply orb_true_r.
Qed.

Lemma py_substring_cons needle c s :
  py_substring needle s = true -> py_substring needle (c :: s) = true.
Proof. intros E. simpl. rewrite E. apply orb_true_r. Qed.

Lemma match_meta_here_attribute name s g :
  match_meta_here name s = Some g -> py_substring (name_attribute name) s = true.
Proof.
  unfold match_meta_here. intros E.
  destruct (drop_prefix (lit "<meta") s) as [s1|] eqn:E1; [|discriminate E].
  cbn [mbind option_bind] in E. destruct (span isspace s1) as [ws1 s2] eqn:E2.
  destruct (bool_decide (ws1 = [])); [discriminate E|].
  destruct (drop_prefix _ s2) as [s3|] eqn:E3; [|discriminate E].
  apply drop_prefix_Some in E1, E3. apply span_app in E2.
  rewrite E1, E2, E3. rewrite app_assoc. apply py_substring_app.
Qed.

(** A page without the attribute has no such token. *)
Lemma re_search_meta_absent name s :
  py_substring (name_attribute name) s = false -> re_search_meta name s = None.
Proof.
  induction s as [|c s IH]; intros E.
  - simpl. destruct (match_meta_here name []) eqn:M; [|reflexivity].
    apply match_meta_here_attribute in M. congruence.
  - simpl. destruct (match_meta_here name (c :: s)) eqn:M.
    + apply match_meta_here_attribute in M. congruence.
    + apply IH. destruct (py_substring (name_attribute name) s) eqn:F; [|reflexivity].
      rewrite (py_substring_cons _ c _ F) in E. discriminate E.
Qed.

Lemma extract_absent html :
  re_search_meta (lit "ajs-taskId") html = None
  \/ re_search_meta (lit "ajs-cloud-id") html = None ->
  extract_task_and_cloud_id_from_html html = PNone.
Proof.
  unfold extract_task_and_cloud_id_from_html. intros [-> | ->]; simpl.
  - reflexivity.
  - rewrite andb_false_r. reflexivity.
Qed.

Lemma extract_cases html :
  extract_task_and_cloud_id_from_html html = PNone
  \/ exists t c, extract_task_and_cloud_id_from_html html
                 = PDict [(lit "taskId", PStr t); (lit "cloudId", PStr c)].
Proof.
  unfold extract_task_and_cloud_id_from_html.
  destruct (re_search_meta (lit "ajs-taskId") html) as [t|];
    destruct (re_search_meta (lit "ajs-cloud-id") html) as [c|]; simpl; auto.
  - destruct t, c; simpl; eauto.
  - destruct t; auto.
Qed.

Lemma py_getitem_taskId a b :
  py_getitem (PDict [(lit "taskId", a); (lit "cloudId", b)]) (lit "taskId") = Ret a.
Proof. reflexivity. Qed.

Lemma py_getitem_cloudId a b :
  py_getitem (PDict [(lit "taskId", a); (lit "cloudId", b)]) (lit "cloudId") = Ret b.
Proof. reflexivity. Qed.

(** C8, as amended.  [get_pdf_export_confluence_url] returns a string
    (the body of the download-link answer), the no-result value [None], or
    an error record with the keys error and details, and nothing else.
    A trigger answer with status 200 that lacks the taskId or the cloudId
    token gives [None]; a trigger answer with another status gives the
    error record. *)
Theorem get_pdf_export_confluence_url_contract page_id st :
  (forall v st',
      get_pdf_export_confluence_url domain email api_token page_id st = (Ret v, st') ->
      (exists u, v = PStr u) \/ v = PNone
      \/ (exists message details, v = error_record message details))
  /\ (forall resp w1,
        http_get (st_world st) (trigger_request domain email api_token page_id)
          = (Some resp, w1) ->
        status_code resp = 200 ->
        re_search_meta (lit "ajs-taskId") (text resp) = None
        \/ re_search_meta (lit "ajs-cloud-id") (text resp) = None ->
        exists st', get_pdf_export_confluence_url domain email api_token page_id st
                    = (Ret PNone, st'))
  /\ (forall resp w1,
        http_get (st_world st) (trigger_request domain email api_token page_id)
          = (Some resp, w1) ->
        status_code resp <> 200 ->
        exists st', get_pdf_export_confluence_url domain email api_token page_id st
                    = (Ret (request_failed resp), st')).
Proof.
  split; [|split].
  - intros v st'. unfold get_pdf_export_confluence_url.
    unfold bind at 1. unfold requests_get at 1.
    destruct (http_get (st_world st) _) as [[resp|] w1]; [|discriminate].
    destruct (status_code resp =? 200); cbn [negb].
    + destruct (extract_cases (text resp)) as [-> | (t & c & ->)].
      * change (truthy PNone) with false. cbv iota. intros [= <- _]. auto.
      * change (truthy (PDict _)) with true. cbv iota.
        unfold bind at 1. unfold lift at 1. rewrite py_getitem_taskId.
        unfold bind at 1. unfold lift at 1. rewrite py_getitem_cloudId.
        unfold bind, requests_get. cbn [st_world st_log].
        destruct (http_get w1 _) as [[r2|] w2]; [|discriminate].
        intros [= <- _]. eauto.
    + intros [= <- _]. right. right. unfold request_failed. eauto.
  - intros resp w1 Hget H200 Habs.
    unfold get_pdf_export_confluence_url. unfold bind at 1. unfold requests_get at 1.
    rewrite Hget, H200. cbn [negb Z.eqb Pos.eqb].
    rewrite (extract_absent _ Habs). eexists. reflexivity.
  - intros resp w1 Hget Hs.
    unfold get_pdf_export_confluence_url. unfold bind at 1. unfold requests_get at 1.
    rewrite Hget.
    destruct (Z.eqb_spec (status_code resp) 200); [contradiction|].
    eexists. reflexivity.
Qed.

End PageClaims.

(** ** Runs of the page pipeline on the demo services *)

Lemma empty_page_is_classified_without_export_witness :
  exists st2,
    @export_pdf_confluence_page_by_id ascii_runtime healthy_wiki
       demo_domain demo_email demo_token child_a (PStr (lit "Child A")) None None None
       (@fresh healthy_wiki tt) = (Ret EMPTY_PAGE, st2)
    /\ calls_to ExportTrigger (@log_since healthy_wiki (@fresh healthy_wiki tt) st2) = 0%nat
    /\ steps (@log_since healthy_wiki (@fresh healthy_wiki tt) st2) = [].
Proof.
  eexists.
  eapply (@empty_page_is_classified_without_export ascii_runtime healthy_wiki
            demo_domain demo_email demo_token child_a (PStr (lit "Child A"))
            None None None (@fresh healthy_wiki tt));
    [vm_compute; reflexivity | vm_compute; reflexivity | right; reflexivity].
Defined.

(** C4, the defect.  The page childA has the empty paragraph as its
    content.  Exported without a title against a service whose metadata
    endpoint answers 404, it is not classified: the title fetch returns
    [None], [convert_title_to_filename] calls [strip] on it, and the
    export raises [AttributeError] before the content is looked at.  The
    export trigger is not called.  This is the defect of C1. *)
Theorem empty_page_without_title_raises_AttributeError :
  let st := @fresh meta_down_wiki tt in
  let run := @export_pdf_confluence_page_by_id ascii_runtime meta_down_wiki
               demo_domain demo_email demo_token child_a PNone None None None st in
  fst (@get_confluence_page_content_by_id ascii_runtime meta_down_wiki
         demo_domain demo_email demo_token child_a st) = Ret (PStr empty_paragraph)
  /\ fst (@get_confluence_page_title_by_id ascii_runtime meta_down_wiki
            demo_domain demo_email demo_token child_a st) = Ret PNone
  /\ fst run = Raise AttributeError
  /\ fst run <> Ret EMPTY_PAGE
  /\ calls_to ExportTrigger (@log_since meta_down_wiki st (snd run)) = 0%nat.
Proof.
  cbv zeta. repeat split; try (vm_compute; reflexivity). vm_compute. discriminate.
Qed.

(** The file system is part of the world: when it grants nothing, the
    export of a page that is not empty raises [OSError] after the
    trigger and the wait, and before the artifact is asked for. *)
Example read_only_file_system_raises_OSError :
  let run := @export_pdf_confluence_page_by_id ascii_runtime read_only_wiki
               demo_domain demo_email demo_token child_b (PStr (lit "Child B"))
               None None None (@fresh read_only_wiki tt) in
  fst run = Raise OSError
  /\ steps (@st_log read_only_wiki (snd run)) = [Trigger; Wait 15].
Proof. split; vm_compute; reflexivity. Qed.

(** With a wait longer than [time.sleep] accepts, the export of a page
    that is not empty raises [OverflowError] after the trigger. *)
Example overlong_wait_raises_OverflowError :
  let run := @export_pdf_confluence_page_by_id ascii_runtime healthy_wiki
               demo_domain demo_email demo_token child_b (PStr (lit "Child B"))
               None None (Some 10000000000) (@fresh healthy_wiki tt) in
  fst run = Raise OverflowError
  /\ steps (@st_log healthy_wiki (snd run)) = [Trigger].
Proof. split; vm_compute; reflexivity. Qed.

Lemma first_download_200_is_DOWNLOAD_SUCCESFUL_witness :
  exists st4,
    @export_pdf_confluence_page_by_id ascii_runtime healthy_wiki
       demo_domain demo_email demo_token child_b (PStr (lit "Child B")) None None None
       (@fresh healthy_wiki tt) = (Ret DOWNLOAD_SUCCESFUL, st4)
    /\ steps (@log_since healthy_wiki (@fresh healthy_wiki tt) st4)
       = [Trigger; Wait 15; Download]
    /\ calls_to ExportTrigger (@log_since healthy_wiki (@fresh healthy_wiki tt) st4) = 1%nat
    /\ calls_to Artifact (@log_since healthy_wiki (@fresh healthy_wiki tt) st4) = 1%nat.
Proof.
  eapply (@first_download_200_is_DOWNLOAD_SUCCESFUL ascii_runtime healthy_wiki
            demo_domain demo_email demo_token child_b (PStr (lit "Child B"))
            None None None (@fresh healthy_wiki tt));
    [vm_compute; reflexivity | vm_compute; reflexivity | vm_compute; reflexivity
    | vm_compute; split; discriminate | left; reflexivity | reflexivity
    | vm_compute; reflexivity | reflexivity | reflexivity].
Defined.

(** C3, counterexample to the claim as written: on a page that is not
    empty and whose first download is answered with 200, the label
    returned is not the one the specification spells. *)
Lemma spec_label_DOWNLOAD_SUCCESSFUL_is_not_returned :
  let run := @export_pdf_confluence_page_by_id ascii_runtime healthy_wiki
               demo_domain demo_email demo_token child_b (PStr (lit "Child B"))
               None None None (@fresh healthy_wiki tt) in
  steps (@st_log healthy_wiki (snd run)) = [Trigger; Wait 15; Download]
  /\ fst run = Ret DOWNLOAD_SUCCESFUL
  /\ fst run <> Ret DOWNLOAD_SUCCESSFUL_as_specified.
Proof.
  cbv zeta. split; [|split].
  - vm_compute. reflexivity.
  - vm_compute. reflexivity.
  - vm_compute. discriminate.
Qed.

(** The bucket sink cannot succeed: a 200 answer runs into the name
    [storage], which the module never imports. *)
Example bucket_sink_raises_NameError_on_200 :
  fst (@export_pdf_confluence_page_by_id ascii_runtime healthy_wiki
         demo_domain demo_email demo_token child_b (PStr (lit "Child B"))
         None (Some (lit "exports")) None (@fresh healthy_wiki tt))
  = Raise NameError.
Proof. vm_compute. reflexivity. Qed.

Lemma all_downloads_fail_is_DOWNLOAD_FAILED_witness :
  exists st3,
    @export_pdf_confluence_page_by_id ascii_runtime unrendered_wiki
       demo_domain demo_email demo_token child_b (PStr (lit "Child B"))
       None None (Some 5) (@fresh unrendered_wiki tt) = (Ret DOWNLOAD_FAILED, st3)
    /\ steps (@log_since unrendered_wiki (@fresh unrendered_wiki tt) st3) =
         [Trigger; Wait 5; Download; Wait 10;
          Trigger; Wait 15; Download; Wait 10;
          Trigger; Wait 25; Download; Wait 10]
    /\ calls_to ExportTrigger (@log_since unrendered_wiki (@fresh unrendered_wiki tt) st3)
       = 3%nat
    /\ calls_to Artifact (@log_since unrendered_wiki (@fresh unrendered_wiki tt) st3)
       = 3%nat.
Proof.
  eexists.
  refine (proj2 (proj2
    (@all_downloads_fail_is_DOWNLOAD_FAILED ascii_runtime unrendered_wiki
       demo_domain demo_email demo_token child_b (PStr (lit "Child B"))
       None None (Some 5) (@fresh unrendered_wiki tt)
       _ _ _ 404 _ _ 404 _ _ 404 _ _ _ _ _ _ _ _ _ _)));
    first [vm_compute; reflexivity | discriminate].
Defined.

(** C1, the defect.  When the content endpoint answers 404,
    [get_confluence_page_content_by_id] returns [None] and
    [is_empty_confluence_page] calls [strip] on it; when the caller gives
    no title and the metadata endpoint answers 404, the title is [None]
    and [convert_title_to_filename] calls [strip] on it.  Either way the
    export raises [AttributeError] instead of returning a label. *)
Theorem export_page_raises_AttributeError_on_failed_fetch :
  fst (@export_pdf_confluence_page_by_id ascii_runtime content_down_wiki
         demo_domain demo_email demo_token child_b (PStr (lit "Child B"))
         None None None (@fresh content_down_wiki tt))
  = Raise AttributeError
  /\ fst (@export_pdf_confluence_page_by_id ascii_runtime meta_down_wiki
            demo_domain demo_email demo_token child_b PNone
            None None None (@fresh meta_down_wiki tt))
     = Raise AttributeError.
Proof. split; vm_compute; reflexivity. Qed.

(** C8, counterexample to the claim as written: when the trigger answers
    500 the client returns a dictionary, which is neither a string nor
    [None]. *)
Lemma get_pdf_export_confluence_url_returns_a_dict :
  exists message details,
    fst (@get_pdf_export_confluence_url ascii_runtime trigger_down_wiki
           demo_domain demo_email demo_token child_b (@fresh trigger_down_wiki tt))
    = Ret (error_record message details)
    /\ (forall u, error_record message details <> PStr u)
    /\ error_record message details <> PNone.
Proof.
  exists (lit "Request failed with status 500"), (lit "oops").
  split; [vm_compute; reflexivity|]. split; [intros u|]; discriminate.
Qed.

Lemma get_pdf_export_confluence_url_contract_witness :
  exists st',
    @get_pdf_export_confluence_url ascii_runtime tokenless_wiki
      demo_domain demo_email demo_token child_b (@fresh tokenless_wiki tt)
    = (Ret PNone, st').
Proof.
  eapply (proj1 (proj2 (@get_pdf_export_confluence_url_contract ascii_runtime tokenless_wiki
                          demo_domain demo_email demo_token child_b
                          (@fresh tokenless_wiki tt))));
    [vm_compute; reflexivity | reflexivity | right; vm_compute; reflexivity].
Defined.

(** ** Link headers *)

Lemma py_split_no_sep sep s : sep ∉ s -> py_split sep s = [s].
Proof.
  induction s as [|c s IH]; intros Hs; [reflexivity|].
  simpl. destruct (N.eqb_spec c sep) as [->|_]; [destruct Hs; left|].
  rewrite IH; [reflexivity|]. intros Hin. apply Hs. right. exact Hin.
Qed.

Lemma py_split_app_sep sep a b :
  sep ∉ a -> py_split sep (a ++ sep :: b) = a :: py_split sep b.
Proof.
  induction a as [|c a IH]; intros Ha; simpl.
  - rewrite N.eqb_refl. reflexivity.
  - destruct (N.eqb_spec c sep) as [->|_]; [destruct Ha; left|].
    rewrite IH; [reflexivity|]. intros Hin. apply Ha. right. exact Hin.
Qed.

Lemma rstrip_by_snoc p s x : p x = true -> rstrip_by p (s ++ [x]) = rstrip_by p s.
Proof.
  intros Hx. induction s as [|c s IH]; simpl.
  - rewrite Hx. reflexivity.
  - rewrite IH. reflexivity.
Qed.

Lemma py_strip_chars_bracketed target :
  plain_target target ->
  py_strip_chars [langle; rangle] (lit "<" ++ target ++ lit ">") = target.
Proof.
  intros (_ & _ & (c & Hh & Hc) & (c' & Hl & Hc')).
  unfold py_strip_chars, strip_by.
  change (lit "<" ++ target ++ lit ">") with (langle :: target ++ [rangle]).
  destruct target as [|t target]; [discriminate Hh|]. injection Hh as ->.
  cbn [lstrip_by]. change (in_chars [langle; rangle] langle) with true. cbv iota.
  change ((c :: target) ++ [rangle]) with (c :: (target ++ [rangle])).
  cbn [lstrip_by]. rewrite Hc.
  change (c :: target ++ [rangle]) with ((c :: target) ++ [rangle]).
  rewrite rstrip_by_snoc by reflexivity.
  apply rstrip_by_fixed. intros x Hx. rewrite Hl in Hx. injection Hx as <-. exact Hc'.
Qed.

Lemma links_of_acc (rels : list (list N)) (acc : gmap (list N) (list N)) :
  links_of rels acc = res_map (fun m => m ∪ acc) (links_of rels ∅).
Proof.
  revert acc. induction rels as [|rel rest IH]; intros acc; simpl.
  - rewrite (left_id_L ∅ (∪)). reflexivity.
  - destruct (py_split semicolon rel) as [|target [|param parts]]; try reflexivity.
    rewrite (IH (<[_:=_]> acc)), (IH (<[_:=_]> ∅)).
    destruct (links_of rest ∅) as [m| |]; simpl; try reflexivity.
    f_equal. rewrite (insert_union_singleton_l acc), insert_empty.
    rewrite (assoc_L (∪)). reflexivity.
Qed.

Lemma link_entry_next_split target :
  plain_target target ->
  (comma ∉ link_entry target "next")
  /\ py_split semicolon (link_entry target "next")
     = [lit "<" ++ target ++ lit ">"; lit " rel=" ++ [dq] ++ lit "next" ++ [dq]].
Proof.
  intros (Hc & Hs & _ & _). unfold link_entry. split.
  - intros Hin. apply elem_of_app in Hin as [Hin|Hin];
      [vm_compute in Hin; apply list_elem_of_singleton in Hin; discriminate Hin|].
    apply elem_of_app in Hin as [Hin|Hin]; [contradiction|].
    vm_compute in Hin. repeat (apply elem_of_cons in Hin as [Hin|Hin]; [discriminate Hin|]).
    inversion Hin.
  - change (lit "<" ++ target ++ lit ">; rel=" ++ [dq] ++ lit "next" ++ [dq])
      with (langle :: target ++ rangle :: semicolon
                      :: (lit " rel=" ++ [dq] ++ lit "next" ++ [dq])).
    change (lit "<" ++ target ++ lit ">") with (langle :: target ++ [rangle]).
    replace (langle :: target ++ rangle :: semicolon
                      :: (lit " rel=" ++ [dq] ++ lit "next" ++ [dq]))
      with ((langle :: target ++ [rangle]) ++ semicolon
              :: (lit " rel=" ++ [dq] ++ lit "next" ++ [dq]))
      by (simpl; rewrite <- app_assoc; reflexivity).
    rewrite py_split_app_sep.
    + reflexivity.
    + intros Hin. apply elem_of_cons in Hin as [Hin|Hin]; [discriminate Hin|].
      apply elem_of_app in Hin as [Hin|Hin]; [contradiction|].
      apply list_elem_of_singleton in Hin. discriminate Hin.
Qed.

Section LinkHeader.
Variable domain : str.

(** A Link header whose first entry is [<target>; rel="next"], followed
    by entries of other relations, leads to [https://domain target]. *)
Lemma next_page_url_next_first target others m :
  plain_target target ->
  links_of (py_split comma others) ∅ = Ret m ->
  m !! rel_next = None ->
  next_page_url domain (Some (link_entry target "next" ++ comma :: others))
  = Ret (Some (lit "https://" ++ domain ++ target)).
Proof.
  intros Ht Hm Hn. destruct (link_entry_next_split target Ht) as (Hc & Hs).
  unfold next_page_url.
  destruct (link_entry target "next" ++ comma :: others) as [|c h] eqn:E.
  { destruct (link_entry target "next"); discriminate E. }
  rewrite <- E. rewrite py_split_app_sep by exact Hc.
  cbn [links_of]. rewrite Hs. rewrite links_of_acc, Hm. cbn [res_map res_bind].
  change (py_strip (lit " rel=" ++ [dq] ++ lit "next" ++ [dq])) with rel_next.
  rewrite (py_strip_chars_bracketed _ Ht).
  rewrite lookup_union_r by exact Hn. rewrite lookup_insert_eq.
  destruct Ht as (_ & _ & (t & Hh & _) & _).
  destruct target as [|t' target]; [discriminate Hh|]. reflexivity.
Qed.

(** The same for a header that is that one entry. *)
Lemma next_page_url_next_only target :
  plain_target target ->
  next_page_url domain (Some (link_entry target "next"))
  = Ret (Some (lit "https://" ++ domain ++ target)).
Proof.
  intros Ht. destruct (link_entry_next_split target Ht) as (Hc & Hs).
  unfold next_page_url.
  assert (E : link_entry target "next" = langle :: target ++ lit ">; rel=" ++ [dq]
                                                 ++ lit "next" ++ [dq])
    by reflexivity.
  rewrite E at 1. cbv iota. rewrite <- E. rewrite py_split_no_sep by exact Hc.
  cbn [links_of]. rewrite Hs. cbn [links_of res_bind].
  change (py_strip (lit " rel=" ++ [dq] ++ lit "next" ++ [dq])) with rel_next.
  rewrite (py_strip_chars_bracketed _ Ht). rewrite lookup_insert_eq.
  destruct Ht as (_ & _ & (t & Hh & _) & _).
  destruct target as [|t' target]; [discriminate Hh|]. reflexivity.
Qed.

(** No header, or an empty one: the listing ends. *)
Lemma next_page_url_no_header : next_page_url domain None = Ret None.
Proof. reflexivity. Qed.

End LinkHeader.

(** ** The flat listing *)

Section ListingProps.
Context `{PyRuntime} `{Service}.
Variables domain email api_token : str.

Lemma lit_cons_nonempty (a : ascii) (s : string) (t : str) : lit (String a s) ++ t <> [].
Proof. discriminate. Qed.

Lemma next_page_url_nonempty h u : next_page_url domain h = Ret (Some u) -> u <> [].
Proof.
  unfold next_page_url. destruct h as [[|c h]|]; try discriminate.
  destruct (links_of _ _) as [links| |]; cbn [res_bind]; try discriminate.
  destruct (links !! rel_next) as [[|d nu]|]; try discriminate.
  intros E. assert (E' : u = lit "https://" ++ domain ++ d :: nu) by congruence.
  rewrite E'. apply lit_cons_nonempty.
Qed.

Lemma space_pages_url_nonempty space_id : space_pages_url domain space_id <> [].
Proof. apply lit_cons_nonempty. Qed.

Lemma listing_page_data resp items :
  listing_page resp items ->
  exists data,
    handle_json_errors resp = PDict data
    /\ py_in (lit "error") (PDict data) = Ret false
    /\ py_in (lit "results") (PDict data) = Ret true
    /\ py_getitem (PDict data) (lit "results") = Ret (PList items).
Proof.
  intros (H200 & data & Hj & He & Hr). exists data.
  unfold handle_json_errors. rewrite H200, Hj. simpl. rewrite He, Hr. auto.
Qed.

Lemma listing_failure_data resp :
  listing_failure resp ->
  py_in (lit "error") (handle_json_errors resp) = Ret true
  \/ (py_in (lit "error") (handle_json_errors resp) = Ret false
      /\ py_in (lit "results") (handle_json_errors resp) = Ret false).
Proof.
  intros Hf. unfold handle_json_errors.
  destruct (Z.eqb_spec (status_code resp) 200) as [E|E]; [|left; reflexivity].
  destruct Hf as [Hs|[Hj|(data & Hj & Hd)]]; [contradiction| |]; rewrite Hj.
  - left. reflexivity.
  - simpl. destruct (dict_find (lit "error") data) eqn:De; [left; reflexivity|].
    right. destruct Hd as [Hd| ->]; [contradiction|]. auto.
Qed.

Lemma pages_loop_step fuel c u acc st resp w' :
  http_get (st_world st) (listing_request email api_token (c :: u)) = (Some resp, w') ->
  pages_loop domain email api_token (S fuel) (Some (c :: u)) acc st =
  (let data := handle_json_errors resp in
   do err <- lift (py_in (lit "error") data);
   if err then ret [] else
   do has_results <- lift (py_in (lit "results") data);
   if negb has_results then ret [] else
   do results <- lift (py_getitem data (lit "results"));
   do items <- lift (py_iter results);
   do url <- lift (next_page_url domain (link_header resp));
   pages_loop domain email api_token fuel url (acc ++ items))
    {| st_world := w';
       st_log := st_log st ++ [EvRequest (listing_request email api_token (c :: u))] |}.
Proof.
  intros Hget. simpl pages_loop. unfold bind at 1. unfold requests_get. rewrite Hget.
  reflexivity.
Qed.

(** Following a chain: the accumulator grows by each page's results, one
    request is made per page, and the loop ends at the last page. *)
Lemma pages_loop_follows_chain w url pages w' :
  cursor_chain domain email api_token w url pages w' ->
  forall fuel acc st,
    url <> [] -> st_world st = w -> (length pages <= fuel)%nat ->
    exists st' d,
      pages_loop domain email api_token fuel (Some url) acc st
        = (Ret (acc ++ concat pages), st')
      /\ st_world st' = w'
      /\ st_log st' = st_log st ++ d
      /\ calls_to SpacePages d = length pages
      /\ length d = length pages.
Proof.
  induction 1 as [w url resp items w' Hget Hpage Hnext
                 |w url resp items w' next_url rest w'' Hget Hpage Hnext Hrest IH];
    intros fuel acc st Hurl Hw Hfuel.
  - destruct url as [|c u]; [contradiction|].
    destruct fuel as [|fuel]; [simpl in Hfuel; lia|].
    rewrite <- Hw in Hget. rewrite (pages_loop_step _ _ _ _ _ _ _ Hget).
    destruct (listing_page_data _ _ Hpage) as (data & -> & He & Hr & Hg).
    cbv zeta. unfold bind, lift. rewrite He, Hr, Hg, Hnext. cbn [negb py_iter].
    eexists. exists [EvRequest (listing_request email api_token (c :: u))].
    split; [destruct fuel; unfold ret; simpl; rewrite app_nil_r; reflexivity|].
    repeat split.
  - destruct url as [|c u]; [contradiction|].
    destruct fuel as [|fuel]; [simpl in Hfuel; lia|].
    rewrite <- Hw in Hget. rewrite (pages_loop_step _ _ _ _ _ _ _ Hget).
    destruct (listing_page_data _ _ Hpage) as (data & -> & He & Hr & Hg).
    cbv zeta. unfold bind, lift. rewrite He, Hr, Hg, Hnext. cbn [negb py_iter].
    assert (Hfuel' : (length rest <= fuel)%nat) by (simpl in Hfuel; lia).
    destruct (IH fuel (acc ++ items)
                 {| st_world := w';
                    st_log := st_log st
                              ++ [EvRequest (listing_request email api_token (c :: u))] |}
                 (next_page_url_nonempty _ _ Hnext) eq_refl Hfuel')
      as (st' & d & E & Hw' & Hlog & Hcalls & Hlen).
    exists st', (EvRequest (listing_request email api_token (c :: u)) :: d).
    split; [rewrite E; simpl concat; rewrite app_assoc; reflexivity|].
    split; [exact Hw'|]. split; [rewrite Hlog; simpl; rewrite <- app_assoc; reflexivity|].
    split; [|simpl; rewrite Hlen; reflexivity].
    change (EvRequest ?r :: d) with ([EvRequest r] ++ d). rewrite calls_to_app, Hcalls.
    reflexivity.
Qed.

(** Behind C6: when the listing requests are answered by a finite chain
    of cursor pages each of which the client's own reading of the Link
    header leads to the next (see [next_page_url_next_first] and
    [next_page_url_next_only] for the headers it reads so), the
    enumerator returns (given fuel for that many requests) the
    concatenation of the pages' results in response order, after exactly
    one request per page: it stops at the page in whose header it finds
    no rel=next entry. *)
Lemma get_confluence_pages_by_space_id_follows_chain fuel space_id st pages w' :
  cursor_chain domain email api_token (st_world st)
               (space_pages_url domain space_id) pages w' ->
  (length pages <= fuel)%nat ->
  exists st',
    get_confluence_pages_by_space_id domain email api_token fuel space_id st
      = (Ret (concat pages), st')
    /\ st_world st' = w'
    /\ calls_to SpacePages (log_since st st') = length pages
    /\ length (log_since st st') = length pages.
Proof.
  intros Hchain Hfuel.
  destruct (pages_loop_follows_chain _ _ _ _ Hchain fuel [] st
              (space_pages_url_nonempty _) eq_refl Hfuel)
    as (st' & d & E & Hw & Hlog & Hcalls & Hlen).
  exists st'. unfold get_confluence_pages_by_space_id.
  rewrite (log_since_app _ _ _ Hlog). auto.
Qed.

(** A chain that breaks: whatever was accumulated is dropped and the
    listing is empty. *)
Lemma pages_loop_broken_chain w url n w' :
  broken_chain domain email api_token w url n w' ->
  forall fuel acc st,
    url <> [] -> st_world st = w -> (n <= fuel)%nat ->
    exists st',
      pages_loop domain email api_token fuel (Some url) acc st = (Ret [], st')
      /\ st_world st' = w'.
Proof.
  induction 1 as [w url resp w' Hget Hfail
                 |w url resp items w' next_url n w'' Hget Hpage Hnext Hrest IH];
    intros fuel acc st Hurl Hw Hfuel.
  - destruct url as [|c u]; [contradiction|].
    destruct fuel as [|fuel]; [lia|].
    rewrite <- Hw in Hget. rewrite (pages_loop_step _ _ _ _ _ _ _ Hget).
    cbv zeta. unfold bind, lift.
    destruct (listing_failure_data _ Hfail) as [-> | [-> ->]];
      eexists; split; reflexivity.
  - destruct url as [|c u]; [contradiction|].
    destruct fuel as [|fuel]; [lia|].
    rewrite <- Hw in Hget. rewrite (pages_loop_step _ _ _ _ _ _ _ Hget).
    destruct (listing_page_data _ _ Hpage) as (data & -> & He & Hr & Hg).
    cbv zeta. unfold bind, lift. rewrite He, Hr, Hg, Hnext. cbn [negb py_iter].
    apply IH; [exact (next_page_url_nonempty _ _ Hnext) | reflexivity | lia].
Qed.

Lemma get_confluence_pages_by_space_id_broken fuel space_id st n w' :
  broken_chain domain email api_token (st_world st)
               (space_pages_url domain space_id) n w' ->
  (n <= fuel)%nat ->
  exists st',
    get_confluence_pages_by_space_id domain email api_token fuel space_id st
      = (Ret [], st').
Proof.
  intros Hb Hfuel.
  destruct (pages_loop_broken_chain _ _ _ _ Hb fuel [] st
              (space_pages_url_nonempty _) eq_refl Hfuel) as (st' & E & _).
  exists st'. exact E.
Qed.

Lemma silent_pages_loop fuel url acc :
  silent (pages_loop domain email api_token fuel url acc).
Proof.
  revert url acc. induction fuel as [|fuel IH]; intros url acc.
  - destruct url as [[|c u]|]; simpl; silent_auto.
  - destruct url as [[|c u]|]; simpl; try apply emits_ret.
    silent_auto. apply IH.
Qed.

Lemma silent_get_confluence_pages_by_space_id fuel space_id :
  silent (get_confluence_pages_by_space_id domain email api_token fuel space_id).
Proof. apply silent_pages_loop. Qed.

Lemma silent_get_confluence_space_id_by_key space_key :
  silent (get_confluence_space_id_by_key domain email api_token space_key).
Proof. unfold get_confluence_space_id_by_key. silent_auto. Qed.

Lemma silent_get_confluence_homepage_id_by_space_id space_id :
  silent (get_confluence_homepage_id_by_space_id domain email api_token space_id).
Proof. unfold get_confluence_homepage_id_by_space_id. silent_auto. Qed.

Lemma silent_enumerate_space fuel space_key :
  silent (enumerate_space domain email api_token fuel space_key).
Proof.
  unfold enumerate_space.
  apply silent_bind; [apply silent_get_confluence_space_id_by_key|]. intros space_id.
  destruct (negb (truthy space_id)); [apply emits_ret|].
  apply silent_bind; [apply silent_get_confluence_homepage_id_by_space_id|]. intros h.
  destruct (negb (truthy h)); [apply emits_ret|].
  apply silent_bind; [apply silent_get_confluence_pages_by_space_id|]. intros pages.
  silent_auto.
Qed.

End ListingProps.

Lemma paged_wiki_chain :
  @cursor_chain paged_wiki demo_domain demo_email demo_token tt
    (@space_pages_url ascii_runtime demo_domain (PStr (lit "123")))
    [[page_entry "p1" "p1"; page_entry "p2" "p2"];
     [page_entry "p3" "p3"; page_entry "p4" "p4"];
     [page_entry "p5" "p5"; page_entry "p6" "p6"]] tt.
Proof.
  assert (Hpage : forall resp items,
             status_code resp = 200 ->
             json_body resp = Some (PDict [(lit "results", PList items)]) ->
             listing_page resp items).
  { intros resp items H200 Hj. split; [exact H200|]. eexists. split; [exact Hj|].
    split; reflexivity. }
  eapply chain_next;
    [vm_compute; reflexivity | apply Hpage; reflexivity | vm_compute; reflexivity |].
  eapply chain_next;
    [vm_compute; reflexivity | apply Hpage; reflexivity | vm_compute; reflexivity |].
  eapply chain_last;
    [vm_compute; reflexivity | apply Hpage; reflexivity | vm_compute; reflexivity].
Qed.

Lemma get_confluence_pages_by_space_id_follows_chain_witness :
  exists st',
    @get_confluence_pages_by_space_id ascii_runtime paged_wiki
      demo_domain demo_email demo_token 3 (PStr (lit "123")) (@fresh paged_wiki tt)
    = (Ret six_entries, st')
    /\ @st_world paged_wiki st' = tt
    /\ calls_to SpacePages (@log_since paged_wiki (@fresh paged_wiki tt) st') = 3%nat
    /\ length (@log_since paged_wiki (@fresh paged_wiki tt) st') = 3%nat.
Proof.
  exact (@get_confluence_pages_by_space_id_follows_chain ascii_runtime paged_wiki
           demo_domain demo_email demo_token 3 (PStr (lit "123")) (@fresh paged_wiki tt)
           _ tt paged_wiki_chain (le_n 3)).
Defined.

(** C6, the defect.  A listing of two cursor pages whose first answer
    names the next page in the second entry of its Link header, after a
    comma and a space: the second page is there, under the URL the entry
    gives, but the client splits the header at commas and strips the
    angle brackets from a target that still begins with the space, so it
    asks for the domain followed by a space and the bracket.  The
    listing raises and the four entries are not returned. *)
Theorem next_link_in_second_place_is_not_followed :
  let base := lit "https://wiki.example/wiki/api/v2/spaces/123/pages" in
  let run := @get_confluence_pages_by_space_id ascii_runtime base_first_wiki
               demo_domain demo_email demo_token 5 (PStr (lit "123"))
               (@fresh base_first_wiki tt) in
  (exists first,
     @http_get base_first_wiki tt (listing_request demo_email demo_token base)
       = (Some first, tt)
     /\ listing_page first [page_entry "p1" "p1"; page_entry "p2" "p2"]
     /\ link_header first
        = Some (link_entry (lit "https://wiki.example/wiki") "base" ++ lit ", "
                ++ link_entry (lit "/wiki/api/v2/spaces/123/pages?cursor=c2") "next"))
  /\ (exists second,
        @http_get base_first_wiki tt
          (listing_request demo_email demo_token (base ++ lit "?cursor=c2"))
          = (Some second, tt)
        /\ listing_page second [page_entry "p3" "p3"; page_entry "p4" "p4"]
        /\ link_header second = None)
  /\ fst run = Raise RequestException
  /\ @st_log base_first_wiki (snd run)
     = [EvRequest (listing_request demo_email demo_token base);
        EvRequest (listing_request demo_email demo_token
                     (lit "https://wiki.example </wiki/api/v2/spaces/123/pages?cursor=c2"))]
  /\ fst run <> Ret [page_entry "p1" "p1"; page_entry "p2" "p2";
                     page_entry "p3" "p3"; page_entry "p4" "p4"].
Proof.
  cbv zeta. split; [|split; [|split; [|split]]].
  - eexists. split; [vm_compute; reflexivity|]. split; [|reflexivity].
    split; [reflexivity|]. eexists. split; [reflexivity|]. split; reflexivity.
  - eexists. split; [vm_compute; reflexivity|]. split; [|reflexivity].
    split; [reflexivity|]. eexists. split; [reflexivity|]. split; reflexivity.
  - vm_compute. reflexivity.
  - vm_compute. reflexivity.
  - vm_compute. discriminate.
Qed.

Example next_page_url_first_entry :
  next_page_url demo_domain (next_and_base "c2")
  = Ret (Some (lit "https://wiki.example/wiki/api/v2/spaces/123/pages?cursor=c2")).
Proof. vm_compute. reflexivity. Qed.

Example next_page_url_no_next :
  next_page_url demo_domain (Some (link_entry (lit "https://wiki.example/wiki") "base"))
  = Ret None.
Proof. vm_compute. reflexivity. Qed.

(** ** The result map *)

Lemma add_value_to_dict_bucket m label id label' :
  bucket (add_value_to_dict m label id) label' =
  if decide (label = label') then bucket m label' ++ [id] else bucket m label'.
Proof.
  unfold bucket, add_value_to_dict.
  destruct (m !! label) as [l|] eqn:E; rewrite lookup_insert;
    destruct (decide (label = label')) as [<-|]; try reflexivity;
    rewrite E; reflexivity.
Qed.

Lemma bucket_record_outcomes m outcomes label :
  bucket (record_outcomes m outcomes) label =
  bucket m label ++ (filter (fun p => snd p = label) outcomes).*1.
Proof.
  revert m. induction outcomes as [|[id l] outcomes IH]; intros m.
  - simpl. rewrite app_nil_r. reflexivity.
  - unfold record_outcomes in *. simpl foldl. rewrite IH, add_value_to_dict_bucket.
    rewrite filter_cons. simpl. destruct (decide (l = label)) as [->|].
    + simpl. rewrite <- app_assoc. reflexivity.
    + reflexivity.
Qed.

Lemma bucket_lookup (m : gmap (list N) (list pyval)) label l :
  m !! label = Some l -> bucket m label = l.
Proof. unfold bucket. intros ->. reflexivity. Qed.

Lemma bucket_nonempty_lookup (m : gmap (list N) (list pyval)) label id :
  id ∈ bucket m label -> exists l, m !! label = Some l /\ id ∈ l.
Proof.
  unfold bucket. destruct (m !! label) as [l|]; simpl; [eauto|].
  intros Hin. inversion Hin.
Qed.

Lemma bucket_empty label : bucket ∅ label = [].
Proof. unfold bucket. rewrite lookup_empty. reflexivity. Qed.

Lemma zip_NoDup_functional {A B} (l : list A) (k : list B) x a b :
  NoDup l -> (x, a) ∈ zip l k -> (x, b) ∈ zip l k -> a = b.
Proof.
  revert k. induction l as [|y l IH]; intros k Hnd Ha Hb; [inversion Ha|].
  destruct k as [|c k]; [inversion Ha|]. simpl in Ha, Hb.
  apply NoDup_cons in Hnd as [Hy Hnd].
  apply elem_of_cons in Ha as [Ha|Ha]; apply elem_of_cons in Hb as [Hb|Hb].
  - congruence.
  - injection Ha as -> ->. apply elem_of_zip_l in Hb. contradiction.
  - injection Hb as -> ->. apply elem_of_zip_l in Ha. contradiction.
  - exact (IH k Hnd Ha Hb).
Qed.

Lemma elem_of_zip_of_lookup {A B} (l : list A) (k : list B) x :
  length l = length k -> x ∈ l -> exists y, (x, y) ∈ zip l k.
Proof.
  revert k. induction l as [|a l IH]; intros k Hlen Hx; [inversion Hx|].
  destruct k as [|b k]; [discriminate Hlen|]. simpl.
  apply elem_of_cons in Hx as [->|Hx].
  - exists b. left.
  - injection Hlen as Hlen. destruct (IH k Hlen Hx) as (y & Hy). exists y. right. exact Hy.
Qed.

(** What a result map built from one outcome per page looks like. *)
Lemma record_outcomes_buckets (ids : list pyval) (labels : list (list N)) :
  NoDup ids -> length ids = length labels ->
  let m := record_outcomes ∅ (zip ids labels) in
  (forall id, id ∈ ids ->
     exists label l, m !! label = Some l /\ id ∈ l
       /\ forall label' l', m !! label' = Some l' -> id ∈ l' -> label' = label)
  /\ (forall label l, m !! label = Some l -> NoDup l /\ sublist l ids).
Proof.
  intros Hnd Hlen m.
  assert (Hb : forall label, bucket m label
                 = (filter (fun p => snd p = label) (zip ids labels)).*1).
  { intros label. unfold m. rewrite bucket_record_outcomes, bucket_empty. reflexivity. }
  assert (Hin : forall id label l, m !! label = Some l -> id ∈ l ->
                  (id, label) ∈ zip ids labels).
  { intros id label l Hl Hid. rewrite <- (bucket_lookup _ _ _ Hl), Hb in Hid.
    apply list_elem_of_fmap in Hid as ([id' label''] & -> & Hp).
    apply list_elem_of_filter in Hp as [Hp1 Hp2]. simpl in Hp1. subst label''. exact Hp2. }
  split.
  - intros id Hid. destruct (elem_of_zip_of_lookup ids labels id Hlen Hid) as (label & Hz).
    assert (Hbk : id ∈ bucket m label).
    { rewrite Hb. apply list_elem_of_fmap. exists (id, label). split; [reflexivity|].
      apply list_elem_of_filter. split; [reflexivity|exact Hz]. }
    destruct (bucket_nonempty_lookup _ _ _ Hbk) as (l & Hl & Hidl).
    exists label, l. split; [exact Hl|]. split; [exact Hidl|].
    intros label' l' Hl' Hid'.
    exact (zip_NoDup_functional _ _ _ _ _ Hnd (Hin _ _ _ Hl' Hid') Hz).
  - intros label l Hl. rewrite <- (bucket_lookup _ _ _ Hl), Hb.
    assert (Hs : sublist (filter (fun p => snd p = label) (zip ids labels)).*1 ids).
    { rewrite <- (fst_zip ids labels) at 2 by lia.
      apply fmap_sublist, sublist_filter. }
    split; [exact (sublist_NoDup _ _ Hnd Hs) | exact Hs].
Qed.

Lemma key_eqb_refl k : hashable k = true -> key_eqb k k = true.
Proof.
  destruct k; simpl; try discriminate; intros _.
  - reflexivity.
  - destruct b; reflexivity.
  - apply Z.eqb_refl.
  - unfold str_eqb. apply bool_decide_eq_true_2. reflexivity.
Qed.

Lemma distinct_keys_NoDup ks : distinct_keys ks -> NoDup ks.
Proof.
  induction 1 as [|k ks Hh Hk _ IH]; constructor; [|exact IH].
  intros Hin. rewrite Forall_forall in Hk. specialize (Hk k Hin).
  rewrite (key_eqb_refl k Hh) in Hk. discriminate Hk.
Qed.

Lemma dict_set_keys d k v x :
  x ∈ (dict_set d k v).*1 -> x ∈ d.*1 \/ x = k.
Proof.
  induction d as [|[k' v'] d IH]; simpl.
  - intros Hx. apply list_elem_of_singleton in Hx. auto.
  - destruct (key_eqb k' k); simpl; [auto|].
    intros Hx. apply elem_of_cons in Hx as [->|Hx]; [left; left|].
    destruct (IH Hx) as [?|?]; [left; right; assumption|auto].
Qed.

Lemma dict_set_distinct d k v :
  distinct_keys d.*1 -> hashable k = true -> distinct_keys (dict_set d k v).*1.
Proof.
  induction d as [|[k' v'] d IH]; simpl; intros Hd Hk.
  - constructor; [exact Hk|constructor|constructor].
  - inversion Hd as [|? ? Hh Hf Hd']; subst.
    destruct (key_eqb k' k) eqn:E; simpl; [exact Hd|].
    constructor; [exact Hh| |exact (IH Hd' Hk)].
    apply Forall_forall. intros x Hx.
    destruct (dict_set_keys _ _ _ _ Hx) as [Hx'| ->]; [|exact E].
    rewrite Forall_forall in Hf. exact (Hf x Hx').
Qed.

Lemma build_pages_ids_dict_distinct all_pages d d' :
  build_pages_ids_dict all_pages d = Ret d' ->
  distinct_keys d.*1 -> distinct_keys d'.*1.
Proof.
  revert d. induction all_pages as [|page rest IH]; intros d; simpl.
  - intros [= <-]. auto.
  - destruct (py_getitem page (lit "title")) as [title| |]; try discriminate.
    cbn [res_bind].
    destruct (py_getitem page (lit "id")) as [id| |]; try discriminate.
    cbn [res_bind].
    destruct (hashable id) eqn:Hh; [|discriminate].
    intros E Hd. exact (IH _ E (dict_set_distinct _ _ _ Hd Hh)).
Qed.

(** ** The space-level job *)

Section JobProps.
Context `{PyRuntime} `{Service}.
Variables domain email api_token : str.

(** A returning page loop has recorded one label per page, in order, and
    logged one page run per page, each counted from the same wait. *)
Lemma export_pages_outcomes items m0 output_path gcs wait_time :
  rets (export_pages domain email api_token items m0 output_path gcs wait_time)
       (fun m d =>
          exists labels runs,
            length labels = length items
            /\ m = record_outcomes m0 (zip items.*1 labels)
            /\ steps d = concat runs
            /\ Forall2 (page_run (initial_wait wait_time)) labels runs).
Proof.
  revert m0. induction items as [|[page_id page_title] rest IH]; intros m0.
  - apply rets_ret. exists [], []. repeat split. constructor.
  - intros st m st' E. simpl in E. unfold bind at 1 in E.
    destruct (export_pdf_confluence_page_by_id _ _ _ _ _ _ _ _ st)
      as [[label|e|] st1] eqn:Ep; try discriminate E.
    destruct (export_pdf_confluence_page_by_id_run _ _ _ _ _ _ _ _ _ _ _ Ep)
      as (d1 & E1 & Hrun).
    destruct (IH _ _ _ _ E) as (d2 & E2 & labels & runs & Hlen & -> & S2 & Hruns).
    exists (d1 ++ d2). split; [rewrite E2, E1, app_assoc; reflexivity|].
    exists (label :: labels), (steps d1 :: runs).
    split; [simpl; rewrite Hlen; reflexivity|].
    split; [reflexivity|].
    split; [rewrite steps_app, S2; reflexivity|].
    constructor; assumption.
Qed.

(** The job returns a map exactly when the enumeration returned a
    dictionary and the page loop returned. *)
Lemma job_returns_map fuel space_key output_path gcs wait_time st m st' :
  export_pdf_confluence_space_by_key domain email api_token
    fuel space_key output_path gcs wait_time st = (Ret (Some m), st') ->
  exists pages st1,
    enumerate_space domain email api_token fuel space_key st = (Ret (Some pages), st1)
    /\ export_pages domain email api_token pages ∅ output_path gcs wait_time st1
       = (Ret m, st').
Proof.
  unfold export_pdf_confluence_space_by_key, bind at 1.
  destruct (enumerate_space _ _ _ _ _ st) as [[[pages|]|e|] st1]; try discriminate.
  unfold bind.
  destruct (export_pages _ _ _ _ _ _ _ _ st1) as [[m'|e|] st2] eqn:Ee; try discriminate.
  intros [= <- <-]. eauto.
Qed.

Lemma enumerate_distinct fuel space_key st pages st1 :
  enumerate_space domain email api_token fuel space_key st = (Ret (Some pages), st1) -> NoDup pages.*1.
Proof.
  unfold enumerate_space, bind at 1.
  destruct (get_confluence_space_id_by_key _ _ _ _ st) as [[space_id|e|] sta];
    try discriminate.
  destruct (negb (truthy space_id)); [discriminate|]. unfold bind at 1.
  destruct (get_confluence_homepage_id_by_space_id _ _ _ _ sta) as [[h|e|] stb];
    try discriminate.
  destruct (negb (truthy h)); [discriminate|]. unfold bind at 1.
  destruct (get_confluence_pages_by_space_id _ _ _ _ _ stb) as [[all_pages|e|] stc];
    try discriminate.
  unfold bind, lift.
  destruct (build_pages_ids_dict all_pages []) as [d| |] eqn:Eb; try discriminate.
  intros [= <- _]. apply distinct_keys_NoDup.
  apply (build_pages_ids_dict_distinct _ _ _ Eb). constructor.
Qed.

(** C9. In a job that completed with a result map, the enumerated page
    ids are pairwise distinct, each of them is filed under exactly one
    outcome label, and the list under each label holds no id twice and
    is a subsequence of the ids in processing order. *)
Theorem every_page_id_in_exactly_one_bucket
    fuel space_key output_path gcs wait_time st m st' :
  export_pdf_confluence_space_by_key domain email api_token
    fuel space_key output_path gcs wait_time st = (Ret (Some m), st') ->
  exists pages st1,
    enumerate_space domain email api_token fuel space_key st = (Ret (Some pages), st1)
    /\ NoDup pages.*1
    /\ (forall id, id ∈ pages.*1 ->
          exists label l, m !! label = Some l /\ id ∈ l
            /\ forall label' l', m !! label' = Some l' -> id ∈ l' -> label' = label)
    /\ (forall label l, m !! label = Some l -> NoDup l /\ sublist l pages.*1).
Proof.
  intros Hjob. destruct (job_returns_map _ _ _ _ _ _ _ _ Hjob) as (pages & st1 & He & Hp).
  exists pages, st1. split; [exact He|].
  assert (Hnd : NoDup pages.*1) by exact (enumerate_distinct _ _ _ _ _ He).
  split; [exact Hnd|].
  destruct (export_pages_outcomes _ _ _ _ _ _ _ _ Hp)
    as (d & _ & labels & runs & Hlen & -> & _ & _).
  apply record_outcomes_buckets; [exact Hnd|].
  rewrite length_fmap. symmetry. exact Hlen.
Qed.

(** C10. In a job that completed, the log of the page loop splits into
    one run per enumerated page, and every run is a page run counted from
    the job's own initial wait: it is empty (an empty page) or begins
    with a trigger followed by exactly that wait, whatever the pages
    before it went through. *)
Theorem backoff_restarts_for_every_page
    fuel space_key output_path gcs wait_time st m st' :
  export_pdf_confluence_space_by_key domain email api_token
    fuel space_key output_path gcs wait_time st = (Ret (Some m), st') ->
  exists pages st1 labels runs,
    enumerate_space domain email api_token fuel space_key st = (Ret (Some pages), st1)
    /\ steps (log_since st st') = concat runs
    /\ length runs = length pages
    /\ Forall2 (page_run (initial_wait wait_time)) labels runs
    /\ Forall (fun run =>
                 run = [] \/
                 exists rest, run = Trigger :: Wait (initial_wait wait_time) :: rest) runs.
Proof.
  intros Hjob. destruct (job_returns_map _ _ _ _ _ _ _ _ Hjob) as (pages & st1 & He & Hp).
  destruct (silent_enumerate_space _ _ _ _ _ _ _ _ He) as (d1 & E1 & S1).
  destruct (export_pages_outcomes _ _ _ _ _ _ _ _ Hp)
    as (d2 & E2 & labels & runs & Hlen & _ & S2 & Hruns).
  exists pages, st1, labels, runs. split; [exact He|].
  split; [rewrite (log_since_two _ _ _ _ _ E1 E2), steps_app, S1, S2; reflexivity|].
  split; [rewrite <- (Forall2_length _ _ _ Hruns); exact Hlen|].
  split; [exact Hruns|].
  clear -Hruns. induction Hruns as [|label run labels runs Hrun _ IH]; constructor; [|exact IH].
  destruct Hrun as [|failed Hf|]; [left; reflexivity| |right; eexists; reflexivity].
  right. destruct failed as [|failed]; simpl.
  - rewrite Z.add_0_r. eexists. reflexivity.
  - eexists. reflexivity.
Qed.

(** What does hold of the job's bare [return]: it happens exactly when
    the space id or the homepage id is not resolved (the resolver returns
    [None] or another false value); and when both are resolved but the
    listing breaks, at its first cursor page or at a later one, on a
    status other than 200, a body that is not JSON or a body without
    results, the page set is empty and the job completes with an empty
    result map. *)
Lemma job_returns_None_iff_an_identifier_is_unresolved
    fuel space_key output_path gcs wait_time st :
  (fst (export_pdf_confluence_space_by_key domain email api_token
    fuel space_key output_path gcs wait_time st) = Ret None <->
     (exists v st1,
         get_confluence_space_id_by_key domain email api_token space_key st = (Ret v, st1)
         /\ truthy v = false)
     \/ (exists v st1 h st2,
           get_confluence_space_id_by_key domain email api_token space_key st
             = (Ret v, st1)
           /\ truthy v = true
           /\ get_confluence_homepage_id_by_space_id domain email api_token v st1
              = (Ret h, st2)
           /\ truthy h = false))
  /\ (forall space_id st1 homepage_id st2 n w3,
        get_confluence_space_id_by_key domain email api_token space_key st
          = (Ret space_id, st1) ->
        truthy space_id = true ->
        get_confluence_homepage_id_by_space_id domain email api_token space_id st1
          = (Ret homepage_id, st2) ->
        truthy homepage_id = true ->
        broken_chain domain email api_token (st_world st2)
                     (space_pages_url domain space_id) n w3 ->
        (n <= fuel)%nat ->
        exists st3,
          enumerate_space domain email api_token fuel space_key st = (Ret (Some []), st3)
          /\ export_pdf_confluence_space_by_key domain email api_token
    fuel space_key output_path gcs wait_time st = (Ret (Some ∅), st3)).
Proof.
  split; [split|].
  - unfold export_pdf_confluence_space_by_key, bind at 1, enumerate_space, bind at 1.
    destruct (get_confluence_space_id_by_key _ _ _ _ st) as [[v|e|] st1] eqn:Ev;
      try discriminate.
    destruct (truthy v) eqn:Tv; cbn [negb]; [|intros _; left; eauto].
    unfold bind at 1.
    destruct (get_confluence_homepage_id_by_space_id _ _ _ _ st1) as [[h|e|] st2] eqn:Eh;
      try discriminate.
    destruct (truthy h) eqn:Th; cbn [negb];
      [|intros _; right; exists v, st1, h, st2; auto].
    unfold bind at 1.
    destruct (get_confluence_pages_by_space_id _ _ _ _ _ st2) as [[pages|e|] st3];
      try discriminate.
    unfold bind at 1, lift.
    destruct (build_pages_ids_dict pages []) as [d|e|]; try discriminate.
    unfold bind, ret.
    destruct (export_pages _ _ _ _ _ _ _ _ st3) as [[m|e|] st4]; discriminate.
  - unfold export_pdf_confluence_space_by_key, enumerate_space.
    intros [(v & st1 & Ev & Tv)|(v & st1 & h & st2 & Ev & Tv & Eh & Th)].
    + unfold bind at 1, bind at 1. rewrite Ev, Tv. reflexivity.
    + unfold bind at 1, bind at 1. rewrite Ev, Tv. cbn [negb].
      unfold bind at 1. rewrite Eh, Th. reflexivity.
  - intros space_id st1 homepage_id st2 n w3 Es Ts Eh Th Hb Hfuel.
    destruct (get_confluence_pages_by_space_id_broken _ _ _ _ _ _ _ _ Hb Hfuel)
      as (st3 & Ep).
    exists st3.
    assert (Ee : enumerate_space domain email api_token fuel space_key st = (Ret (Some []), st3)).
    { unfold enumerate_space. rewrite (bind_ret_eq _ _ _ _ _ Es), Ts. cbn [negb].
      rewrite (bind_ret_eq _ _ _ _ _ Eh), Th. cbn [negb].
      rewrite (bind_ret_eq _ _ _ _ _ Ep). reflexivity. }
    split; [exact Ee|].
    unfold export_pdf_confluence_space_by_key. rewrite (bind_ret_eq _ _ _ _ _ Ee).
    reflexivity.
Qed.

Lemma failed_response_has_error resp :
  status_code resp <> 200 \/ json_body resp = None ->
  py_in (lit "error") (handle_json_errors resp) = Ret true.
Proof.
  intros Hf. unfold handle_json_errors.
  destruct (Z.eqb_spec (status_code resp) 200) as [E|E]; [|reflexivity].
  destruct Hf as [Hf| ->]; [contradiction|reflexivity].
Qed.

(** Behind C7: a space lookup, or a homepage listing, answered with a
    status other than 200 or with a body that is not JSON resolves
    nothing. *)
Lemma get_confluence_space_id_by_key_unresolved space_key st resp w' :
  http_get (st_world st) (space_request domain email api_token space_key)
    = (Some resp, w') ->
  status_code resp <> 200 \/ json_body resp = None ->
  exists st1,
    get_confluence_space_id_by_key domain email api_token space_key st = (Ret PNone, st1).
Proof.
  intros Hget Hf. unfold get_confluence_space_id_by_key.
  unfold bind at 1. unfold requests_get. rewrite Hget.
  unfold bind, lift. rewrite (failed_response_has_error _ Hf). eexists. reflexivity.
Qed.

Lemma get_confluence_homepage_id_by_space_id_unresolved space_id st resp w' :
  http_get (st_world st) (homepage_request domain email api_token space_id)
    = (Some resp, w') ->
  status_code resp <> 200 \/ json_body resp = None ->
  exists st1,
    get_confluence_homepage_id_by_space_id domain email api_token space_id st
    = (Ret PNone, st1).
Proof.
  intros Hget Hf. unfold get_confluence_homepage_id_by_space_id.
  unfold bind at 1. unfold requests_get. rewrite Hget.
  unfold bind, lift. rewrite (failed_response_has_error _ Hf). eexists. reflexivity.
Qed.

End JobProps.

(** ** Runs of the job on the demo services *)

(** The end-to-end scenario of the specification, with the label as the
    code spells it. *)
Example end_to_end_scenario :
  fst (@export_pdf_confluence_space_by_key ascii_runtime healthy_wiki
         demo_domain demo_email demo_token 5 (lit "OR") None None None
         (@fresh healthy_wiki tt))
  = Ret (Some scenario_result).
Proof. vm_compute. reflexivity. Qed.

Lemma every_page_id_in_exactly_one_bucket_witness :
  exists pages st1,
    @enumerate_space ascii_runtime healthy_wiki demo_domain demo_email demo_token
      5 (lit "OR") (@fresh healthy_wiki tt) = (Ret (Some pages), st1)
    /\ NoDup pages.*1
    /\ (forall id, id ∈ pages.*1 ->
          exists label l, scenario_result !! label = Some l /\ id ∈ l
            /\ forall label' l',
                 scenario_result !! label' = Some l' -> id ∈ l' -> label' = label)
    /\ (forall label l,
          scenario_result !! label = Some l -> NoDup l /\ sublist l pages.*1).
Proof.
  eapply (@every_page_id_in_exactly_one_bucket ascii_runtime healthy_wiki
            demo_domain demo_email demo_token 5 (lit "OR") None None None
            (@fresh healthy_wiki tt) scenario_result).
  vm_compute. reflexivity.
Defined.

Lemma backoff_restarts_for_every_page_witness :
  let st' := snd (@export_pdf_confluence_space_by_key ascii_runtime unrendered_wiki
                    demo_domain demo_email demo_token 5 (lit "OR") None None (Some 5)
                    (@fresh unrendered_wiki tt)) in
  exists pages st1 labels runs,
    @enumerate_space ascii_runtime unrendered_wiki demo_domain demo_email demo_token
      5 (lit "OR") (@fresh unrendered_wiki tt) = (Ret (Some pages), st1)
    /\ steps (@log_since unrendered_wiki (@fresh unrendered_wiki tt) st') = concat runs
    /\ length runs = length pages
    /\ Forall2 (page_run (initial_wait (Some 5))) labels runs
    /\ Forall (fun run =>
                 run = [] \/
                 exists rest, run = Trigger :: Wait (initial_wait (Some 5)) :: rest) runs.
Proof.
  apply (@backoff_restarts_for_every_page ascii_runtime unrendered_wiki
           demo_domain demo_email demo_token 5 (lit "OR") None None (Some 5)
           (@fresh unrendered_wiki tt) unrendered_result).
  vm_compute. reflexivity.
Defined.

(** The same run, read off the log: the only page that reaches the retry
    loop waits 5, 15 and 25 seconds. *)
Example unrendered_job_steps :
  steps (@st_log unrendered_wiki
           (snd (@export_pdf_confluence_space_by_key ascii_runtime unrendered_wiki
                   demo_domain demo_email demo_token 5 (lit "OR") None None (Some 5)
                   (@fresh unrendered_wiki tt))))
  = [Trigger; Wait 5; Download; Wait 10;
     Trigger; Wait 15; Download; Wait 10;
     Trigger; Wait 25; Download; Wait 10].
Proof. vm_compute. reflexivity. Qed.

Example listing_down_job_returns_empty_map :
  exists st3,
    @enumerate_space ascii_runtime listing_down_wiki demo_domain demo_email demo_token
      5 (lit "OR") (@fresh listing_down_wiki tt) = (Ret (Some []), st3)
    /\ @export_pdf_confluence_space_by_key ascii_runtime listing_down_wiki
         demo_domain demo_email demo_token 5 (lit "OR") None None None
         (@fresh listing_down_wiki tt) = (Ret (Some ∅), st3).
Proof.
  eapply (proj2 (@job_returns_None_iff_an_identifier_is_unresolved
                   ascii_runtime listing_down_wiki demo_domain demo_email demo_token
                   5 (lit "OR") None None None (@fresh listing_down_wiki tt))
            (PStr (lit "123")) _ (PStr (lit "456")) _ 1%nat tt);
    [vm_compute; reflexivity | reflexivity | vm_compute; reflexivity | reflexivity
    | | lia].
  eapply broken_here; [vm_compute; reflexivity|].
  left. vm_compute. discriminate.
Qed.

(** Two pages in a row that exhaust their attempts: the second starts
    again from the job's wait of 5 seconds, not from 35. *)
Example second_page_starts_from_the_initial_wait :
  steps (@st_log unrendered_wiki
           (snd (@export_pages ascii_runtime unrendered_wiki
                   demo_domain demo_email demo_token
                   [(child_b, PStr (lit "Child B")); (PStr (lit "childC"), PStr (lit "Child C"))]
                   ∅ None None (Some 5) (@fresh unrendered_wiki tt))))
  = [Trigger; Wait 5; Download; Wait 10;
     Trigger; Wait 15; Download; Wait 10;
     Trigger; Wait 25; Download; Wait 10;
     Trigger; Wait 5; Download; Wait 10;
     Trigger; Wait 15; Download; Wait 10;
     Trigger; Wait 25; Download; Wait 10].
Proof. vm_compute. reflexivity. Qed.

(** C7, the defect.  On a space whose id and homepage id both resolve
    and whose listing returns its two pages, a failed content fetch for
    one page (the defect of C1) raises through the page loop: the job
    ends with no result map although neither identifier failed to
    resolve. *)
Theorem job_aborts_on_a_page_failure_with_both_identifiers_resolved :
  (exists st1 st2,
      @get_confluence_space_id_by_key content_down_wiki
        demo_domain demo_email demo_token (lit "OR") (@fresh content_down_wiki tt)
      = (Ret (PStr (lit "123")), st1)
      /\ @get_confluence_homepage_id_by_space_id ascii_runtime content_down_wiki
           demo_domain demo_email demo_token (PStr (lit "123")) st1
         = (Ret (PStr (lit "456")), st2))
  /\ (exists st3,
        @enumerate_space ascii_runtime content_down_wiki
          demo_domain demo_email demo_token 5 (lit "OR") (@fresh content_down_wiki tt)
        = (Ret (Some [(child_a, PStr (lit "Child A")); (child_b, PStr (lit "Child B"))]),
           st3))
  /\ fst (@export_pdf_confluence_space_by_key ascii_runtime content_down_wiki
            demo_domain demo_email demo_token 5 (lit "OR") None None None
            (@fresh content_down_wiki tt))
     = Raise AttributeError.
Proof.
  split; [|split].
  - eexists. eexists. split; vm_compute; reflexivity.
  - eexists. vm_compute. reflexivity.
  - vm_compute. reflexivity.
Qed.

(** * Further properties of app.py *)

(** ** The two download sinks *)

Section Sinks.
Context `{PyRuntime} `{Service}.
Variables domain email api_token : str.

Lemma gcs_download_status url filename bucket st code st' :
  download_pdf_from_presigned_url_to_gcs_bucket url filename bucket st = (Ret code, st') ->
  (code =? 200) = false.
Proof.
  unfold download_pdf_from_presigned_url_to_gcs_bucket, bind.
  destruct (requests_get_value Artifact url st) as [[resp|e|] st1]; try discriminate.
  destruct (status_code resp =? 200) eqn:E; [discriminate|].
  intros [= <- _]. exact E.
Qed.

Lemma bucket_retry_loop_fails attempts page_id fpt output_path b bucket wait st label st' :
  retry_loop domain email api_token attempts page_id fpt output_path
             (Some (b :: bucket)) wait st = (Ret label, st') ->
  label = DOWNLOAD_FAILED.
Proof.
  revert output_path wait st. induction attempts as [|n IH]; intros output_path wait st.
  - intros [= <- _]. reflexivity.
  - simpl retry_loop. unfold bind at 1.
    destruct (download_attempt _ _ _ _ _ _ _ _ st) as [[[code op]|e|] st1] eqn:Ea;
      try discriminate.
    assert (Hc : (code =? 200) = false).
    { unfold download_attempt, bind at 1 in Ea.
      destruct (get_pdf_export_confluence_url _ _ _ _ st) as [[url|e|] sta];
        try discriminate Ea.
      unfold bind at 1 in Ea.
      destruct (time_sleep wait sta) as [[[]|e|] stb]; try discriminate Ea.
      unfold bind at 1 in Ea.
      destruct (download_pdf_from_presigned_url_to_gcs_bucket _ _ _ stb)
        as [[c|e|] stc] eqn:Ed; try discriminate Ea.
      injection Ea as <- _ _. exact (gcs_download_status _ _ _ _ _ _ Ed). }
    rewrite Hc. unfold bind at 1.
    destruct (time_sleep 10 st1) as [[[]|e|] st2]; try discriminate.
    apply IH.
Qed.

(** X1. With a bucket name given, a page export never returns
    DOWNLOAD_SUCCESFUL: the bucket download returns no status 200 (its
    success branch raises [NameError] at the unimported [storage]), so a
    returning export has found the page empty or used up its attempts. *)
Theorem bucket_export_never_succeeds
    page_id page_title output_path b bucket wait_time st :
  match export_pdf_confluence_page_by_id domain email api_token page_id page_title
          output_path (Some (b :: bucket)) wait_time st with
  | (Ret label, _) => label = EMPTY_PAGE \/ label = DOWNLOAD_FAILED
  | (Raise _, _) | (OutOfFuel, _) => True
  end.
Proof.
  unfold export_pdf_confluence_page_by_id, bind at 1.
  destruct (resolve_file_page_title _ _ _ _ _ st) as [[fpt|e|] st1]; try exact I.
  unfold bind at 1.
  destruct (is_empty_confluence_page _ _ _ _ st1) as [[[|]|e|] st2]; try exact I.
  - left. reflexivity.
  - destruct (retry_loop _ _ _ _ _ _ _ _ _ st2) as [[label|e|] st3] eqn:Er; try exact I.
    right. exact (bucket_retry_loop_fails _ _ _ _ _ _ _ _ _ _ Er).
Qed.

(** X2. A file-system download that returns a status has ensured the
    directory, made exactly one request, to the presigned URL (which was
    a string), and returns the status of its answer; it has written the
    file, under a name with the .pdf suffix ensured, exactly when that
    status is 200.  The file system granted each of these steps. *)
Theorem download_pdf_from_presigned_url_effects url output_path st code st' :
  download_pdf_from_presigned_url url output_path st = (Ret code, st') ->
  exists u w1 resp w2,
    url = PStr u
    /\ makedirs (st_world st) (posix_dirname output_path) = Some w1
    /\ http_get w1 (plain_request Artifact u) = (Some resp, w2)
    /\ code = status_code resp
    /\ (if code =? 200
        then write_file w2 (posix_dirname output_path ++ [slash]
                            ++ ensure_pdf_suffix (posix_basename output_path))
             = Some (st_world st')
        else st_world st' = w2)
    /\ st_log st' =
       st_log st
       ++ [EvMakedirs (posix_dirname output_path); EvRequest (plain_request Artifact u)]
       ++ (if code =? 200
           then [EvWriteFile (posix_dirname output_path ++ [slash]
                              ++ ensure_pdf_suffix (posix_basename output_path))]
           else []).
Proof.
  unfold download_pdf_from_presigned_url.
  destruct (posix_dirname output_path) as [|c dir] eqn:D; [discriminate|].
  destruct url as [| | |u| |];
    try (unfold bind, fs_step;
         destruct (makedirs (st_world st) (c :: dir)); discriminate).
  unfold bind at 1. unfold fs_step at 1.
  destruct (makedirs (st_world st) (c :: dir)) as [w1|] eqn:Em; [|discriminate].
  unfold bind at 1. unfold requests_get_value, requests_get. cbn [st_world st_log].
  destruct (http_get w1 (plain_request Artifact u)) as [[resp|] w2] eqn:Eg;
    [|discriminate].
  unfold bind. destruct (status_code resp =? 200) eqn:E.
  - unfold fs_step. cbn [st_world st_log].
    destruct (write_file w2 _) as [w3|] eqn:Ew; [|discriminate].
    intros [= <- <-]. exists u, w1, resp, w2. cbn [st_world st_log].
    rewrite E, <- !app_assoc. auto 10.
  - intros [= <- <-]. exists u, w1, resp, w2. cbn [st_world st_log].
    rewrite E, <- !app_assoc. auto 10.
Qed.

End Sinks.

Lemma download_pdf_from_presigned_url_effects_witness :
  exists u w1 resp w2,
    PStr (lit "https://signed.example/doc.pdf") = PStr u
    /\ @makedirs healthy_wiki tt (posix_dirname (lit "out/report")) = Some w1
    /\ @http_get healthy_wiki w1 (plain_request Artifact u) = (Some resp, w2)
    /\ 200 = status_code resp
    /\ (if 200 =? 200
        then @write_file healthy_wiki w2
               (posix_dirname (lit "out/report") ++ [slash]
                ++ @ensure_pdf_suffix ascii_runtime (posix_basename (lit "out/report")))
             = Some tt
        else tt = w2)
    /\ [EvMakedirs (lit "out"); EvRequest (plain_request Artifact
                                            (lit "https://signed.example/doc.pdf"));
        EvWriteFile (lit "out/report.pdf")]
       = [] ++ [EvMakedirs (posix_dirname (lit "out/report"));
                EvRequest (plain_request Artifact u)]
         ++ (if 200 =? 200
             then [EvWriteFile (posix_dirname (lit "out/report") ++ [slash]
                                ++ @ensure_pdf_suffix ascii_runtime
                                     (posix_basename (lit "out/report")))]
             else []).
Proof.
  apply (@download_pdf_from_presigned_url_effects ascii_runtime healthy_wiki
           (PStr (lit "https://signed.example/doc.pdf")) (lit "out/report")
           (@fresh healthy_wiki tt) 200
           (@Build_state healthy_wiki tt
              [EvMakedirs (lit "out");
               EvRequest (plain_request Artifact (lit "https://signed.example/doc.pdf"));
               EvWriteFile (lit "out/report.pdf")])).
  vm_compute. reflexivity.
Defined.

(** ** Attempts and sleeps of one page export *)

Section Budget.
Context `{PyRuntime} `{Service}.
Variables domain email api_token : str.

Lemma total_wait_app s1 s2 : total_wait (s1 ++ s2) = total_wait s1 + total_wait s2.
Proof.
  induction s1 as [|[| z |] s1 IH]; simpl; rewrite ?IH; lia.
Qed.

Lemma retry_steps_counts failed wait :
  length (List.filter is_trigger (retry_steps failed wait)) = failed
  /\ length (List.filter is_download (retry_steps failed wait)) = failed
  /\ total_wait (retry_steps failed wait)
     = Z.of_nat failed * wait + 10 * Z.of_nat failed
       + 5 * Z.of_nat failed * (Z.of_nat failed - 1).
Proof.
  revert wait. induction failed as [|n IH]; intros wait; [repeat split|].
  destruct (IH (wait + 10)) as (Ht & Hd & Hw).
  cbn [retry_steps attempt_steps app List.filter is_trigger is_download length total_wait].
  rewrite Ht, Hd, Hw. repeat split. lia.
Qed.

(** X3. A page export that returns has called the export trigger as often
    as it fetched the artifact, at most three times.  An empty page costs
    no call and no sleep; three failed attempts cost 3*w + 60 seconds of
    sleep, where w is the initial wait; a success after k failed attempts
    costs (k+1)*w + 10*k + 5*k*(k+1) seconds, that is w, 2*w + 20 or
    3*w + 50. *)
Theorem page_export_calls_and_sleep
    page_id page_title output_path gcs wait_time st label st' :
  export_pdf_confluence_page_by_id domain email api_token page_id page_title
    output_path gcs wait_time st = (Ret label, st') ->
  let d := log_since st st' in
  let w := initial_wait wait_time in
  calls_to ExportTrigger d = calls_to Artifact d
  /\ (calls_to ExportTrigger d <= 3)%nat
  /\ (label = EMPTY_PAGE -> steps d = [])
  /\ (label = DOWNLOAD_FAILED ->
        calls_to ExportTrigger d = 3%nat /\ total_wait (steps d) = 3 * w + 60)
  /\ (label = DOWNLOAD_SUCCESFUL ->
        exists k, (k < 3)%nat /\ calls_to ExportTrigger d = S k
          /\ total_wait (steps d)
             = (Z.of_nat k + 1) * w + 10 * Z.of_nat k
               + 5 * Z.of_nat k * (Z.of_nat k + 1)).
Proof.
  intros E d w.
  destruct (export_pdf_confluence_page_by_id_run _ _ _ _ _ _ _ _ _ _ _ E)
    as (d' & Hlog & Hrun).
  unfold d. rewrite (log_since_app _ _ _ Hlog).
  rewrite calls_to_trigger_steps, calls_to_artifact_steps.
  destruct labels_distinct as (Hsf & Hef & Hes).
  fold w in Hrun. destruct Hrun as [|k Hk|].
  - split; [reflexivity|]. split; [simpl; lia|]. split; [reflexivity|].
    split; intros Hl; congruence.
  - destruct (retry_steps_counts k w) as (Ht & Hd & Hw).
    rewrite !List.filter_app, !length_app, Ht, Hd, total_wait_app, Hw.
    cbn [attempt_steps List.filter is_trigger is_download length total_wait].
    split; [reflexivity|]. split; [lia|].
    split; [intros Hl; congruence|]. split; [intros Hl; congruence|].
    intros _. exists k. split; [exact Hk|]. split; lia.
  - destruct (retry_steps_counts 3 w) as (Ht & Hd & Hw).
    rewrite Ht, Hd, Hw. split; [reflexivity|]. split; [lia|].
    split; [intros Hl; congruence|]. split; [|intros Hl; congruence].
    intros _. split; [reflexivity|lia].
Qed.

End Budget.

Lemma page_export_calls_and_sleep_witness :
  let st := @fresh unrendered_wiki tt in
  let st' := snd (@export_pdf_confluence_page_by_id ascii_runtime unrendered_wiki
                    demo_domain demo_email demo_token child_b (PStr (lit "Child B"))
                    None None (Some 5) st) in
  let d := @log_since unrendered_wiki st st' in
  let w := initial_wait (Some 5) in
  calls_to ExportTrigger d = calls_to Artifact d
  /\ (calls_to ExportTrigger d <= 3)%nat
  /\ (DOWNLOAD_FAILED = EMPTY_PAGE -> steps d = [])
  /\ (DOWNLOAD_FAILED = DOWNLOAD_FAILED ->
        calls_to ExportTrigger d = 3%nat /\ total_wait (steps d) = 3 * w + 60)
  /\ (DOWNLOAD_FAILED = DOWNLOAD_SUCCESFUL ->
        exists k, (k < 3)%nat /\ calls_to ExportTrigger d = S k
          /\ total_wait (steps d)
             = (Z.of_nat k + 1) * w + 10 * Z.of_nat k
               + 5 * Z.of_nat k * (Z.of_nat k + 1)).
Proof.
  apply (@page_export_calls_and_sleep ascii_runtime unrendered_wiki
           demo_domain demo_email demo_token child_b (PStr (lit "Child B"))
           None None (Some 5) (@fresh unrendered_wiki tt) DOWNLOAD_FAILED).
  vm_compute. reflexivity.
Defined.

(** ** More on the flat listing *)

Section ListingEdges.
Context `{PyRuntime} `{Service}.
Variables domain email api_token : str.

Lemma pages_loop_broken_chain_log w url n w' :
  broken_chain domain email api_token w url n w' ->
  forall fuel acc st,
    url <> [] -> st_world st = w -> (n <= fuel)%nat ->
    exists st' d,
      pages_loop domain email api_token fuel (Some url) acc st = (Ret [], st')
      /\ st_world st' = w'
      /\ st_log st' = st_log st ++ d
      /\ calls_to SpacePages d = n
      /\ length d = n.
Proof.
  induction 1 as [w url resp w' Hget Hfail
                 |w url resp items w' next_url n w'' Hget Hpage Hnext Hrest IH];
    intros fuel acc st Hurl Hw Hfuel.
  - destruct url as [|c u]; [contradiction|].
    destruct fuel as [|fuel]; [lia|].
    rewrite <- Hw in Hget. rewrite (pages_loop_step _ _ _ _ _ _ _ _ _ _ Hget).
    cbv zeta. unfold bind, lift.
    exists {| st_world := w';
              st_log := st_log st
                        ++ [EvRequest (listing_request email api_token (c :: u))] |}.
    exists [EvRequest (listing_request email api_token (c :: u))].
    destruct (listing_failure_data _ Hfail) as [-> | [-> ->]]; repeat split.
  - destruct url as [|c u]; [contradiction|].
    destruct fuel as [|fuel]; [lia|].
    rewrite <- Hw in Hget. rewrite (pages_loop_step _ _ _ _ _ _ _ _ _ _ Hget).
    destruct (listing_page_data _ _ Hpage) as (data & -> & He & Hr & Hg).
    cbv zeta. unfold bind, lift. rewrite He, Hr, Hg, Hnext. cbn [negb py_iter].
    assert (Hfuel' : (n <= fuel)%nat) by lia.
    destruct (IH fuel (acc ++ items)
                 {| st_world := w';
                    st_log := st_log st
                              ++ [EvRequest (listing_request email api_token (c :: u))] |}
                 (next_page_url_nonempty _ _ _ Hnext) eq_refl Hfuel')
      as (st' & d & E & Hw' & Hlog & Hcalls & Hlen).
    exists st', (EvRequest (listing_request email api_token (c :: u)) :: d).
    split; [exact E|]. split; [exact Hw'|].
    split; [rewrite Hlog; simpl; rewrite <- app_assoc; reflexivity|].
    split; [|simpl; rewrite Hlen; reflexivity].
    change (EvRequest ?r :: d) with ([EvRequest r] ++ d). rewrite calls_to_app, Hcalls.
    reflexivity.
Qed.

(** X4. When the n-th cursor page of the listing fails (a status other
    than 200, a body that is not JSON, an error key or no results), the
    enumerator returns the empty list after exactly n requests: the
    results of the n-1 pages read before are discarded, not returned as
    a partial listing. *)
Theorem get_confluence_pages_by_space_id_discards_on_failure
    fuel space_id st n w' :
  broken_chain domain email api_token (st_world st)
               (space_pages_url domain space_id) n w' ->
  (n <= fuel)%nat ->
  exists st',
    get_confluence_pages_by_space_id domain email api_token fuel space_id st
      = (Ret [], st')
    /\ st_world st' = w'
    /\ calls_to SpacePages (log_since st st') = n
    /\ length (log_since st st') = n.
Proof.
  intros Hb Hfuel.
  destruct (pages_loop_broken_chain_log _ _ _ _ Hb fuel [] st
              (space_pages_url_nonempty _ _) eq_refl Hfuel)
    as (st' & d & E & Hw & Hlog & Hcalls & Hlen).
  exists st'. unfold get_confluence_pages_by_space_id.
  rewrite (log_since_app _ _ _ Hlog). auto.
Qed.

Lemma links_of_IndexError (rels : list str) (acc : gmap str str) (piece : str) :
  piece ∈ rels -> semicolon ∉ piece -> links_of rels acc = Raise IndexError.
Proof.
  revert acc. induction rels as [|rel rest IH]; intros acc Hin Hs; [inversion Hin|].
  simpl. apply elem_of_cons in Hin as [<-|Hin].
  - rewrite (py_split_no_sep _ _ Hs). reflexivity.
  - destruct (py_split semicolon rel) as [|target [|param parts]]; try reflexivity.
    apply IH; assumption.
Qed.

(** X5. A Link header with an entry that holds no semicolon (a target
    with a comma in it is enough) makes the enumerator raise
    [IndexError], on an otherwise well-formed cursor page: the results
    read so far are lost with it. *)
Theorem get_confluence_pages_by_space_id_raises_on_bad_link
    fuel space_id st resp w' items c h piece :
  http_get (st_world st)
    (listing_request email api_token (space_pages_url domain space_id))
    = (Some resp, w') ->
  listing_page resp items ->
  link_header resp = Some (c :: h) ->
  piece ∈ py_split comma (c :: h) ->
  semicolon ∉ piece ->
  exists st',
    get_confluence_pages_by_space_id domain email api_token (S fuel) space_id st
    = (Raise IndexError, st').
Proof.
  intros Hget Hpage Hlink Hin Hs. unfold get_confluence_pages_by_space_id.
  destruct (space_pages_url domain space_id) as [|a u] eqn:Eu;
    [destruct (space_pages_url_nonempty _ _ Eu)|].
  rewrite (pages_loop_step _ _ _ _ _ _ _ _ _ _ Hget).
  destruct (listing_page_data _ _ Hpage) as (data & -> & He & Hr & Hg).
  cbv zeta. unfold bind, lift. rewrite He, Hr, Hg. cbn [negb py_iter].
  rewrite Hlink. unfold next_page_url.
  rewrite (links_of_IndexError _ _ _ Hin Hs). eexists. reflexivity.
Qed.

End ListingEdges.

Lemma get_confluence_pages_by_space_id_discards_on_failure_witness :
  exists st',
    @get_confluence_pages_by_space_id ascii_runtime half_paged_wiki
      demo_domain demo_email demo_token 5 (PStr (lit "123")) (@fresh half_paged_wiki tt)
      = (Ret [], st')
    /\ st_world st' = tt
    /\ calls_to SpacePages (log_since (@fresh half_paged_wiki tt) st') = 2%nat
    /\ length (log_since (@fresh half_paged_wiki tt) st') = 2%nat.
Proof.
  apply (@get_confluence_pages_by_space_id_discards_on_failure
           ascii_runtime half_paged_wiki demo_domain demo_email demo_token
           5 (PStr (lit "123")) (@fresh half_paged_wiki tt) 2 tt); [|lia].
  eapply broken_later.
  - vm_compute. reflexivity.
  - split; [reflexivity|]. eexists. split; [reflexivity|]. split; reflexivity.
  - vm_compute. reflexivity.
  - eapply broken_here; [vm_compute; reflexivity|].
    left. vm_compute. discriminate.
Defined.

Lemma get_confluence_pages_by_space_id_raises_on_bad_link_witness :
  exists st',
    @get_confluence_pages_by_space_id ascii_runtime bad_link_wiki
      demo_domain demo_email demo_token 1 (PStr (lit "123")) (@fresh bad_link_wiki tt)
    = (Raise IndexError, st').
Proof.
  eapply (@get_confluence_pages_by_space_id_raises_on_bad_link
            ascii_runtime bad_link_wiki demo_domain demo_email demo_token
            0 (PStr (lit "123")) (@fresh bad_link_wiki tt) _ tt
            [page_entry "p1" "p1"; page_entry "p2" "p2"] _ _
            (lit "</wiki/api/v2/spaces/123/pages?ids=1")).
  - vm_compute. reflexivity.
  - split; [reflexivity|]. eexists. split; [reflexivity|]. split; reflexivity.
  - vm_compute. reflexivity.
  - apply elem_of_cons. left. vm_compute. reflexivity.
  - intros Hin. vm_compute in Hin.
    repeat (apply elem_of_cons in Hin as [Hin|Hin]; [discriminate Hin|]).
    inversion Hin.
Defined.

Section LinkEdges.
Variable domain : str.

(** X6. The Link header is split at commas only, so an entry that
    follows its comma after a space (the usual way to write several
    entries) keeps that space, and with it the opening angle bracket:
    a next entry in second place leads to the URL made of https://, the
    domain, a space, the bracket and the target. *)
Theorem next_page_url_keeps_space_and_bracket first m target :
  comma ∉ first ->
  links_of [first] ∅ = Ret m ->
  plain_target target ->
  next_page_url domain (Some (first ++ lit ", " ++ link_entry target "next"))
  = Ret (Some (lit "https://" ++ domain ++ lit " <" ++ target)).
Proof.
  intros Hf Hm Ht. destruct (link_entry_next_split target Ht) as (Hc & _).
  pose proof Ht as (_ & Hs & (t & Hh & _) & (c' & Hl & Hc')).
  change (first ++ lit ", " ++ link_entry target "next")
    with (first ++ comma :: space :: link_entry target "next").
  unfold next_page_url.
  destruct (first ++ comma :: space :: link_entry target "next") as [|c h] eqn:E.
  { destruct first; discriminate E. }
  rewrite <- E. rewrite py_split_app_sep by exact Hf.
  rewrite py_split_no_sep.
  2:{ intros Hin. apply elem_of_cons in Hin as [Hin|Hin]; [discriminate Hin|].
      contradiction. }
  cbn [links_of] in Hm |- *.
  destruct (py_split semicolon first) as [|t1 [|p1 ps]]; try discriminate Hm.
  replace (space :: link_entry target "next")
    with ((space :: langle :: target ++ [rangle]) ++ semicolon
            :: (lit " rel=" ++ [dq] ++ lit "next" ++ [dq])).
  2:{ unfold link_entry.
      change (lit "<" ++ target ++ lit ">; rel=" ++ [dq] ++ lit "next" ++ [dq])
        with (langle :: target ++ rangle :: semicolon
                :: (lit " rel=" ++ [dq] ++ lit "next" ++ [dq])).
      simpl. rewrite <- app_assoc. reflexivity. }
  rewrite py_split_app_sep.
  2:{ intros Hin. apply elem_of_cons in Hin as [Hin|Hin]; [discriminate Hin|].
      apply elem_of_cons in Hin as [Hin|Hin]; [discriminate Hin|].
      apply elem_of_app in Hin as [Hin|Hin]; [contradiction|].
      apply list_elem_of_singleton in Hin. discriminate Hin. }
  change (py_split semicolon (lit " rel=" ++ [dq] ++ lit "next" ++ [dq]))
    with [lit " rel=" ++ [dq] ++ lit "next" ++ [dq]].
  cbn [res_bind].
  change (py_strip (lit " rel=" ++ [dq] ++ lit "next" ++ [dq])) with rel_next.
  rewrite lookup_insert_eq.
  assert (Hstrip : py_strip_chars [langle; rangle] (space :: langle :: target ++ [rangle])
                   = space :: langle :: target).
  { unfold py_strip_chars, strip_by. cbn [lstrip_by].
    change (in_chars [langle; rangle] space) with false. cbv iota.
    change (space :: langle :: target ++ [rangle])
      with ((space :: langle :: target) ++ [rangle]).
    rewrite rstrip_by_snoc by reflexivity.
    apply rstrip_by_fixed. intros x Hx.
    destruct target as [|t' target]; [discriminate Hh|].
    change (last (space :: langle :: t' :: target)) with (last (t' :: target)) in Hx.
    rewrite Hl in Hx. injection Hx as <-. exact Hc'. }
  rewrite Hstrip. reflexivity.
Qed.

End LinkEdges.

Lemma next_page_url_keeps_space_and_bracket_witness :
  next_page_url demo_domain
    (Some (link_entry (lit "/wiki/api/v2/spaces/123/pages") "base" ++ lit ", "
           ++ link_entry (lit "/wiki/api/v2/spaces/123/pages?cursor=c2") "next"))
  = Ret (Some (lit "https://" ++ demo_domain ++ lit " <"
               ++ lit "/wiki/api/v2/spaces/123/pages?cursor=c2")).
Proof.
  eapply (next_page_url_keeps_space_and_bracket demo_domain
            (link_entry (lit "/wiki/api/v2/spaces/123/pages") "base") _
            (lit "/wiki/api/v2/spaces/123/pages?cursor=c2")).
  - intros Hin. vm_compute in Hin.
    repeat (apply elem_of_cons in Hin as [Hin|Hin]; [discriminate Hin|]).
    inversion Hin.
  - vm_compute. reflexivity.
  - split; [|split; [|split]].
    + intros Hin. vm_compute in Hin.
      repeat (apply elem_of_cons in Hin as [Hin|Hin]; [discriminate Hin|]).
      inversion Hin.
    + intros Hin. vm_compute in Hin.
      repeat (apply elem_of_cons in Hin as [Hin|Hin]; [discriminate Hin|]).
      inversion Hin.
    + eexists. split; reflexivity.
    + eexists. split; reflexivity.
Defined.

(** ** File names *)

Section FileNames.
Context `{PyRuntime}.

Lemma lstrip_by_Forall (P : codepoint -> Prop) p s :
  Forall P s -> Forall P (lstrip_by p s).
Proof.
  induction 1 as [|c s Hc Hs IH]; simpl; [constructor|].
  destruct (p c); [exact IH|constructor; assumption].
Qed.

Lemma rstrip_by_all p s : Forall (fun c => p c = true) s -> rstrip_by p s = [].
Proof.
  induction 1 as [|c s Hc _ IH]; simpl; [reflexivity|]. rewrite IH, Hc. reflexivity.
Qed.

Lemma first_separator (sep : codepoint) (a b x y : str) :
  sep ∉ a -> sep ∉ b -> a ++ sep :: x = b ++ sep :: y -> a = b /\ x = y.
Proof.
  revert b. induction a as [|c a IH]; intros [|d b] Ha Hb E; simpl in E.
  - injection E as ->. split; reflexivity.
  - injection E as <- _. destruct Hb. left.
  - injection E as -> _. destruct Ha. left.
  - injection E as -> E.
    destruct (IH b) as [-> ->]; [| |exact E|split; reflexivity].
    + intros Hin. apply Ha. right. exact Hin.
    + intros Hin. apply Hb. right. exact Hin.
Qed.

(** X7. Two pages get the same file title exactly when their sanitised
    titles agree and their ids are formatted alike.  This is a statement
    about file titles, not about the files written: the download adds
    the .pdf suffix only to a name that lacks it, so two different file
    titles may still name one file (see [pdf_suffix_merges_file_titles]).
    The one fact about Unicode used is that the equals sign is not
    alphanumeric. *)
Theorem file_page_title_of_collision title1 page_id1 title2 page_id2 :
  isalnum 61%N = false ->
  file_page_title_of title1 page_id1 = file_page_title_of title2 page_id2
  <-> convert_title_to_filename title1 default_max_length
      = convert_title_to_filename title2 default_max_length
      /\ py_format page_id1 = py_format page_id2.
Proof.
  intros Heq. unfold file_page_title_of. split; [|intros [-> ->]; reflexivity].
  assert (Hsep : forall t, 61%N ∉ convert_title_to_filename t default_max_length
                                 ++ lit "_confluencePageId").
  { intros t Hin. apply elem_of_app in Hin as [Hin|Hin].
    - pose proof (convert_title_to_filename_word t default_max_length) as Hw.
      rewrite Forall_forall in Hw. specialize (Hw _ Hin).
      unfold is_word in Hw. rewrite Heq in Hw. discriminate Hw.
    - vm_compute in Hin.
      repeat (apply elem_of_cons in Hin as [Hin|Hin]; [discriminate Hin|]).
      inversion Hin. }
  assert (Hshape : forall t v,
             convert_title_to_filename t default_max_length
               ++ lit "_confluencePageId=" ++ py_format v
             = (convert_title_to_filename t default_max_length
                  ++ lit "_confluencePageId") ++ 61%N :: py_format v).
  { intros t v. rewrite <- app_assoc. reflexivity. }
  rewrite !Hshape. intros E. apply first_separator in E as [E ->]; [|apply Hsep..].
  apply app_inv_tail in E. split; [exact E|reflexivity].
Qed.

(** X8. A title without any alphanumeric character (punctuation, spaces,
    underscores) is sanitised to the empty string, for every maximum
    length: such a page is filed under the bare id suffix. *)
Theorem file_page_title_of_unnamed title page_id max_length :
  Forall (fun c => isalnum c = false) title ->
  convert_title_to_filename title max_length = []
  /\ file_page_title_of title page_id = lit "_confluencePageId=" ++ py_format page_id.
Proof.
  intros Ht.
  assert (E : forall n, convert_title_to_filename title n = []).
  { intros n. unfold convert_title_to_filename, py_rstrip_chars.
    apply rstrip_by_all.
    assert (Hu : Forall (fun c => in_chars [underscore] c = true)
                   (re_sub_nonword (py_replace space underscore (py_strip title)))).
    { unfold re_sub_nonword. apply Forall_forall. intros c Hc.
      apply list_elem_of_filter in Hc as [Hw Hc]. unfold py_replace in Hc.
      apply list_elem_of_fmap in Hc as (c0 & -> & Hc0).
      destruct (N.eqb_spec c0 space) as [_|_]; [reflexivity|].
      assert (Hn : isalnum c0 = false).
      { unfold py_strip, strip_by in Hc0.
        pose proof (rstrip_by_Forall _ isspace _ (lstrip_by_Forall _ isspace _ Ht)) as Hs.
        rewrite Forall_forall in Hs. exact (Hs _ Hc0). }
      unfold is_word in Hw. rewrite Hn in Hw. simpl in Hw.
      unfold in_chars. simpl. rewrite Hw. reflexivity. }
    unfold py_slice_to. destruct (n <? 0); apply Forall_take, Hu. }
  split; [apply E|]. unfold file_page_title_of. rewrite E. reflexivity.
Qed.

Hypothesis alnum_not_space : forall c, isalnum c = true -> isspace c = false.

(** X9. The titles the sanitiser leaves unchanged are exactly the clean
    names: word characters only, no underscore at the end, no longer
    than the maximum length. *)
Theorem convert_title_to_filename_fixed_points title max_length :
  0 <= max_length ->
  convert_title_to_filename title max_length = title
  <-> Forall (fun c => is_word c = true) title
      /\ last title <> Some underscore
      /\ (length title <= Z.to_nat max_length)%nat.
Proof.
  intros Hm. split.
  - intros <-. split; [apply convert_title_to_filename_word|].
    split; [apply convert_title_to_filename_last|].
    apply convert_title_to_filename_length, Hm.
  - intros (Hw & Hl & Hn). unfold convert_title_to_filename, py_strip, py_rstrip_chars.
    rewrite strip_by_fixed.
    2:{ eapply Forall_impl; [exact Hw|]. intros c Hc.
        exact (word_not_space alnum_not_space c Hc). }
    rewrite py_replace_fixed.
    2:{ eapply Forall_impl; [exact Hw|]. intros c Hc.
        exact (word_not_the_space alnum_not_space c Hc). }
    rewrite re_sub_nonword_fixed by exact Hw.
    rewrite py_slice_to_fixed by assumption.
    apply rstrip_by_fixed. intros c Hc. unfold in_chars. simpl.
    destruct (N.eqb_spec c underscore) as [->|_]; [contradiction|reflexivity].
Qed.

End FileNames.

Lemma file_page_title_of_collision_witness :
  @file_page_title_of ascii_runtime (lit "  Q3 plan: draft ") (PInt 42)
  = @file_page_title_of ascii_runtime (lit "Q3_plan_draft__") (PStr (lit "42"))
  <-> @convert_title_to_filename ascii_runtime (lit "  Q3 plan: draft ") default_max_length
      = @convert_title_to_filename ascii_runtime (lit "Q3_plan_draft__") default_max_length
      /\ @py_format ascii_runtime (PInt 42) = @py_format ascii_runtime (PStr (lit "42")).
Proof.
  apply (@file_page_title_of_collision ascii_runtime). reflexivity.
Defined.

(** File titles that differ, from the ids a and a.pdf, and the one path
    their downloads write to. *)
Example pdf_suffix_merges_file_titles :
  @file_page_title_of ascii_runtime (lit "Notes") (PStr (lit "a"))
  <> @file_page_title_of ascii_runtime (lit "Notes") (PStr (lit "a.pdf"))
  /\ @written_path ascii_runtime None
       (@file_page_title_of ascii_runtime (lit "Notes") (PStr (lit "a")))
     = @written_path ascii_runtime None
         (@file_page_title_of ascii_runtime (lit "Notes") (PStr (lit "a.pdf"))).
Proof. split; [vm_compute; discriminate|vm_compute; reflexivity]. Qed.

Lemma file_page_title_of_unnamed_witness :
  @convert_title_to_filename ascii_runtime (lit " (?!) -- __ ") 100 = []
  /\ @file_page_title_of ascii_runtime (lit " (?!) -- __ ") (PStr (lit "456"))
     = lit "_confluencePageId=" ++ @py_format ascii_runtime (PStr (lit "456")).
Proof.
  apply (@file_page_title_of_unnamed ascii_runtime). vm_compute.
  repeat constructor.
Defined.

Lemma convert_title_to_filename_fixed_points_witness :
  @convert_title_to_filename ascii_runtime (lit "Q3_plan_draft") 13 = lit "Q3_plan_draft"
  <-> Forall (fun c => @is_word ascii_runtime c = true) (lit "Q3_plan_draft")
      /\ last (lit "Q3_plan_draft") <> Some underscore
      /\ (length (lit "Q3_plan_draft") <= Z.to_nat 13)%nat.
Proof.
  apply (@convert_title_to_filename_fixed_points ascii_runtime ascii_alnum_not_space).
  lia.
Defined.

(** ** The identifiers of an export task *)

Lemma span_Forall p s a b : span p s = (a, b) -> Forall (fun c => p c = true) a.
Proof.
  revert a b. induction s as [|c s IH]; intros a b; simpl.
  - intros [= <- <-]. constructor.
  - destruct (p c) eqn:Hc.
    + destruct (span p s) as [a' b']. intros [= <- <-].
      constructor; [exact Hc|]. exact (IH _ _ eq_refl).
    + intros [= <- <-]. constructor.
Qed.

Lemma span_stop p (a b : str) :
  Forall (fun c => p c = true) a ->
  (forall c, head b = Some c -> p c = false) ->
  span p (a ++ b) = (a, b).
Proof.
  intros Ha Hb. induction Ha as [|c a Hc _ IH]; simpl.
  - destruct b as [|c b]; [reflexivity|]. simpl. rewrite (Hb c eq_refl). reflexivity.
  - rewrite Hc, IH. reflexivity.
Qed.

Lemma drop_prefix_app p r : drop_prefix p (p ++ r) = Some r.
Proof. induction p as [|a p IH]; simpl; [reflexivity|]. rewrite N.eqb_refl. exact IH. Qed.

Lemma match_meta_here_sound name s g :
  match_meta_here name s = Some g ->
  exists ws1 ws2 post,
    s = lit "<meta" ++ ws1 ++ name_attribute name ++ ws2
        ++ (lit "content=" ++ [dq]) ++ g ++ dq :: post
    /\ ws1 <> [] /\ Forall (fun c => isspace c = true) ws1
    /\ ws2 <> [] /\ Forall (fun c => isspace c = true) ws2
    /\ g <> [] /\ dq ∉ g.
Proof.
  unfold match_meta_here. intros E.
  destruct (drop_prefix (lit "<meta") s) as [s1|] eqn:E1; [|discriminate E].
  cbn [mbind option_bind] in E. destruct (span isspace s1) as [ws1 s2] eqn:E2.
  destruct (bool_decide_reflect (ws1 = [])) as [|Hw1]; [discriminate E|].
  destruct (drop_prefix _ s2) as [s3|] eqn:E3; [|discriminate E].
  cbn [mbind option_bind] in E. destruct (span isspace s3) as [ws2 s4] eqn:E4.
  destruct (bool_decide_reflect (ws2 = [])) as [|Hw2]; [discriminate E|].
  destruct (drop_prefix _ s4) as [s5|] eqn:E5; [|discriminate E].
  cbn [mbind option_bind] in E.
  destruct (span _ s5) as [group1 s6] eqn:E6.
  destruct (bool_decide_reflect (group1 = [])) as [|Hg]; [discriminate E|].
  destruct s6 as [|c post]; [discriminate E|].
  destruct (N.eqb_spec c dq) as [->|]; [|discriminate E]. injection E as ->.
  exists ws1, ws2, post.
  pose proof (span_Forall _ _ _ _ E2) as F2.
  pose proof (span_Forall _ _ _ _ E4) as F4.
  pose proof (span_Forall _ _ _ _ E6) as F6.
  apply drop_prefix_Some in E1, E3, E5. apply span_app in E2, E4, E6.
  subst s s1 s2 s3 s4 s5.
  split; [reflexivity|]. repeat (split; [assumption|]).
  intros Hin. rewrite Forall_forall in F6. specialize (F6 _ Hin).
  rewrite N.eqb_refl in F6. discriminate F6.
Qed.

Lemma match_meta_here_complete name (ws1 ws2 g post : str) :
  ws1 <> [] -> Forall (fun c => isspace c = true) ws1 ->
  ws2 <> [] -> Forall (fun c => isspace c = true) ws2 ->
  g <> [] -> dq ∉ g ->
  match_meta_here name
    (lit "<meta" ++ ws1 ++ name_attribute name ++ ws2
     ++ (lit "content=" ++ [dq]) ++ g ++ dq :: post) = Some g.
Proof.
  intros Hw1 F1 Hw2 F2 Hg Hq. unfold match_meta_here.
  rewrite drop_prefix_app. cbn [mbind option_bind].
  rewrite (span_stop isspace ws1) by (exact F1 || (intros c [= <-]; reflexivity)).
  rewrite bool_decide_eq_false_2 by exact Hw1.
  rewrite drop_prefix_app. cbn [mbind option_bind].
  rewrite (span_stop isspace ws2) by (exact F2 || (intros c [= <-]; reflexivity)).
  rewrite bool_decide_eq_false_2 by exact Hw2.
  rewrite drop_prefix_app. cbn [mbind option_bind].
  rewrite (span_stop _ g).
  - rewrite bool_decide_eq_false_2 by exact Hg. rewrite N.eqb_refl. reflexivity.
  - apply Forall_forall. intros c Hc. destruct (N.eqb_spec c dq) as [->|]; [|reflexivity].
    contradiction.
  - intros c [= <-]. reflexivity.
Qed.

Lemma re_search_meta_sound name s g :
  re_search_meta name s = Some g -> meta_occurrence name g s.
Proof.
  induction s as [|c s IH]; cbn [re_search_meta].
  - destruct (match_meta_here name []) as [g'|] eqn:M; [|discriminate].
    intros [= ->]. destruct (match_meta_here_sound _ _ _ M) as (ws1 & ws2 & post & Hs & R).
    exists [], ws1, ws2, post. split; [exact Hs|exact R].
  - destruct (match_meta_here name (c :: s)) as [g'|] eqn:M.
    + intros [= ->].
      destruct (match_meta_here_sound _ _ _ M) as (ws1 & ws2 & post & Hs & R).
      exists [], ws1, ws2, post. split; [exact Hs|exact R].
    + intros E. destruct (IH E) as (pre & ws1 & ws2 & post & -> & R).
      exists (c :: pre), ws1, ws2, post. split; [reflexivity|exact R].
Qed.

Lemma re_search_meta_found name g s :
  meta_occurrence name g s -> exists g', re_search_meta name s = Some g'.
Proof.
  intros (pre & ws1 & ws2 & post & -> & Hw1 & F1 & Hw2 & F2 & Hg & Hq).
  induction pre as [|c pre IH].
  - rewrite app_nil_l.
    pose proof (match_meta_here_complete name ws1 ws2 g post Hw1 F1 Hw2 F2 Hg Hq) as M.
    exists g. destruct (lit "<meta" ++ _) eqn:E; cbn [re_search_meta]; rewrite M;
      reflexivity.
  - destruct IH as (g' & IH). cbn [app re_search_meta].
    destruct (match_meta_here name _) as [g''|]; eauto.
Qed.

(** X10. The parser of the export page returns either None or a dict of
    two non-empty strings under taskId and cloudId.  What it returns
    stands in the page: each string is the quoted content of a meta
    element written as the text <meta, whitespace, the name attribute
    (ajs-taskId, ajs-cloud-id), whitespace and the content attribute.
    And it returns a dict whenever the page holds such an element for
    both names, in either order. *)
Theorem extract_task_and_cloud_id_from_html_sound_and_complete html :
  (extract_task_and_cloud_id_from_html html = PNone
   \/ exists t c,
        extract_task_and_cloud_id_from_html html
        = PDict [(lit "taskId", PStr t); (lit "cloudId", PStr c)]
        /\ t <> [] /\ c <> []
        /\ meta_occurrence (lit "ajs-taskId") t html
        /\ meta_occurrence (lit "ajs-cloud-id") c html)
  /\ (forall t c,
        meta_occurrence (lit "ajs-taskId") t html ->
        meta_occurrence (lit "ajs-cloud-id") c html ->
        extract_task_and_cloud_id_from_html html <> PNone).
Proof.
  unfold extract_task_and_cloud_id_from_html. split.
  - destruct (re_search_meta (lit "ajs-taskId") html) as [t|] eqn:Et; [|left; reflexivity].
    destruct (re_search_meta (lit "ajs-cloud-id") html) as [c|] eqn:Ec;
      [|left; destruct t; reflexivity].
    apply re_search_meta_sound in Et, Ec.
    destruct t as [|t0 t]; [left; reflexivity|].
    destruct c as [|c0 c]; [left; reflexivity|].
    right. exists (t0 :: t), (c0 :: c). repeat split; try assumption; discriminate.
  - intros t c Ht Hc.
    destruct (re_search_meta_found _ _ _ Ht) as (t' & Et).
    destruct (re_search_meta_found _ _ _ Hc) as (c' & Ec).
    rewrite Et, Ec. apply re_search_meta_sound in Et, Ec.
    destruct Et as (_ & _ & _ & _ & _ & _ & _ & _ & _ & Ht' & _).
    destruct Ec as (_ & _ & _ & _ & _ & _ & _ & _ & _ & Hc' & _).
    destruct t' as [|? ?]; [contradiction|]. destruct c' as [|? ?]; [contradiction|].
    discriminate.
Qed.

(** ** The two resolvers *)

Section Resolvers.
Context `{PyRuntime} `{Service}.
Variables domain email api_token : str.

Lemma requests_get_answered (r : request) st resp w' :
  http_get (st_world st) r = (Some resp, w') ->
  requests_get r st
  = (Ret resp, {| st_world := w'; st_log := st_log st ++ [EvRequest r] |}).
Proof. intros Hget. unfold requests_get. rewrite Hget. reflexivity. Qed.


Lemma first_parentless_skips before page after :
  Forall (fun entry => exists d p, entry = PDict d
            /\ dict_find (lit "parentType") d = Some p /\ p <> PNone) before ->
  first_parentless (before ++ page :: after) = first_parentless (page :: after).
Proof.
  induction 1 as [|entry before (d & p & -> & Hp & Hn) _ IH]; [reflexivity|].
  cbn [app first_parentless py_getitem]. rewrite Hp. cbn [res_bind].
  destruct p; try contradiction; exact IH.
Qed.

Lemma first_parentless_none pages :
  Forall (fun entry => exists d p, entry = PDict d
            /\ dict_find (lit "parentType") d = Some p /\ p <> PNone) pages ->
  first_parentless pages = Ret PNone.
Proof.
  induction 1 as [|entry before (d & p & -> & Hp & Hn) _ IH]; [reflexivity|].
  cbn [first_parentless py_getitem]. rewrite Hp. cbn [res_bind].
  destruct p; try contradiction; exact IH.
Qed.

(** X12. The homepage is the first entry of the first listing page whose
    parentType is null: the entries before it all have a parent, the
    entries after it are not looked at, and no further page of the
    listing is requested.  When every entry has a parent the result is
    None. *)
Theorem get_confluence_homepage_id_by_space_id_first_parentless
    space_id st resp w' items :
  http_get (st_world st) (homepage_request domain email api_token space_id)
    = (Some resp, w') ->
  listing_page resp items ->
  let run := get_confluence_homepage_id_by_space_id domain email api_token space_id st in
  log_since st (snd run) = [EvRequest (homepage_request domain email api_token space_id)]
  /\ (forall before d after v,
        items = before ++ PDict d :: after ->
        Forall (fun entry => exists d p, entry = PDict d
                  /\ dict_find (lit "parentType") d = Some p /\ p <> PNone) before ->
        dict_find (lit "parentType") d = Some PNone ->
        dict_find (lit "id") d = Some v ->
        fst run = Ret v)
  /\ (Forall (fun entry => exists d p, entry = PDict d
                /\ dict_find (lit "parentType") d = Some p /\ p <> PNone) items ->
      fst run = Ret PNone).
Proof.
  intros Hget Hpage run. subst run. unfold get_confluence_homepage_id_by_space_id.
  rewrite (bind_ret_eq _ _ _ _ _ (requests_get_answered _ _ _ _ Hget)).
  destruct Hpage as (H200 & data & Hj & He & Hr).
  unfold handle_json_errors. rewrite H200, Hj. change (200 =? 200) with true. cbv iota.
  unfold bind, lift. cbn [py_in py_get]. rewrite He, Hr. cbn [negb py_iter is_none].
  split; [|split].
  - destruct (first_parentless items); apply log_since_app; reflexivity.
  - intros before d after v -> Hb Hp Hv. rewrite (first_parentless_skips _ _ _ Hb).
    cbn [first_parentless py_getitem]. rewrite Hp. cbn [res_bind is_none]. rewrite Hv.
    reflexivity.
  - intros Hall. rewrite (first_parentless_none _ Hall). reflexivity.
Qed.

End Resolvers.


Lemma get_confluence_homepage_id_by_space_id_first_parentless_witness :
  fst (@get_confluence_homepage_id_by_space_id ascii_runtime nested_wiki
         demo_domain demo_email demo_token (PStr (lit "123")) (@fresh nested_wiki tt))
  = Ret (PStr (lit "456")).
Proof.
  destruct (@get_confluence_homepage_id_by_space_id_first_parentless
              ascii_runtime nested_wiki demo_domain demo_email demo_token
              (PStr (lit "123")) (@fresh nested_wiki tt)
              (json_response nested_listing None) tt
              [PDict [(lit "id", PStr (lit "789")); (lit "parentType", PStr (lit "page"))];
               PDict [(lit "id", PStr (lit "456")); (lit "parentType", PNone)];
               PStr (lit "stray")] eq_refl)
    as (_ & Hfirst & _).
  - split; [reflexivity|]. eexists. split; [reflexivity|]. split; reflexivity.
  - apply (Hfirst
             [PDict [(lit "id", PStr (lit "789")); (lit "parentType", PStr (lit "page"))]]
             [(lit "id", PStr (lit "456")); (lit "parentType", PNone)]
             [PStr (lit "stray")]); try reflexivity.
    constructor; [|constructor]. eexists _, _. split; [reflexivity|].
    split; [reflexivity|discriminate].
Defined.

(** ** Page content *)

Section Content.
Context `{PyRuntime} `{Service}.
Variables domain email api_token : str.

Lemma export_view_value_not_KeyError data : export_view_value data <> Raise KeyError.
Proof.
  unfold export_view_value.
  destruct (res_bind _ _) as [v|[]|]; discriminate.
Qed.





End Content.


(** ** The emptiness test *)

Lemma lstrip_by_app_all p (l s : str) :
  Forall (fun c => p c = true) l -> lstrip_by p (l ++ s) = lstrip_by p s.
Proof. induction 1 as [|c l Hc _ IH]; simpl; [reflexivity|]. rewrite Hc. exact IH. Qed.

Lemma rstrip_by_app_all p (s r : str) :
  Forall (fun c => p c = true) r -> rstrip_by p (s ++ r) = rstrip_by p s.
Proof.
  revert s. induction r as [|c r IH] using rev_ind; intros s Hr.
  - rewrite app_nil_r. reflexivity.
  - apply Forall_app in Hr as [Hr Hc]. inversion Hc as [|? ? Hc' _]; subst.
    rewrite app_assoc, rstrip_by_snoc by exact Hc'. apply IH, Hr.
Qed.

Lemma lstrip_by_split p s :
  exists l, s = l ++ lstrip_by p s /\ Forall (fun c => p c = true) l.
Proof.
  induction s as [|c s (l & E & Hl)]; simpl.
  - exists []. split; [reflexivity|constructor].
  - destruct (p c) eqn:Hc.
    + exists (c :: l). split; [simpl; rewrite <- E; reflexivity|constructor; assumption].
    + exists []. split; [reflexivity|constructor].
Qed.

Lemma rstrip_by_split p s :
  exists r, s = rstrip_by p s ++ r /\ Forall (fun c => p c = true) r.
Proof.
  induction s as [|c s (r & E & Hr)]; simpl.
  - exists []. split; [reflexivity|constructor].
  - destruct (rstrip_by p s) as [|x t] eqn:Et.
    + destruct (p c) eqn:Hc.
      * exists (c :: r). split; [simpl in E; rewrite <- E; reflexivity|].
        constructor; assumption.
      * exists r. split; [simpl in *; rewrite <- E; reflexivity|exact Hr].
    + exists r. split; [simpl in *; rewrite <- E; reflexivity|exact Hr].
Qed.

(** X14. A page counts as empty exactly when its content is whitespace,
    or the empty paragraph with whitespace around it.  The earlier
    version of the test (app_old.py) accepts the empty string and the
    bare empty paragraph only, so every page empty for it is empty for
    the present one, but not the other way round. *)
Theorem is_empty_content_whitespace_around content :
  (is_empty_content content = true <->
   exists l r, Forall (fun c => isspace c = true) l
               /\ Forall (fun c => isspace c = true) r
               /\ (content = l ++ r \/ content = l ++ empty_paragraph ++ r))
  /\ (AppOld.is_empty_content content = true <->
      content = [] \/ content = empty_paragraph)
  /\ (AppOld.is_empty_content content = true -> is_empty_content content = true)
  /\ (is_empty_content [space] = true /\ AppOld.is_empty_content [space] = false).
Proof.
  assert (Hnew : is_empty_content content = true <->
            exists l r, Forall (fun c => isspace c = true) l
               /\ Forall (fun c => isspace c = true) r
               /\ (content = l ++ r \/ content = l ++ empty_paragraph ++ r)).
  { unfold is_empty_content, py_strip, strip_by, str_eqb. split.
    - intros E. destruct (lstrip_by_split isspace content) as (l & El & Hl).
      destruct (rstrip_by_split isspace (lstrip_by isspace content)) as (r & Er & Hr).
      exists l, r. split; [exact Hl|]. split; [exact Hr|].
      apply orb_true_iff in E as [E|E]; apply bool_decide_eq_true_1 in E;
        rewrite E in Er; rewrite Er in El; [right|left]; exact El.
    - intros (l & r & Hl & Hr & [-> | ->]).
      + rewrite lstrip_by_app_all by exact Hl.
        rewrite <- (app_nil_r r), lstrip_by_app_all by exact Hr.
        apply orb_true_iff. right. reflexivity.
      + rewrite lstrip_by_app_all by exact Hl.
        change (lstrip_by isspace (empty_paragraph ++ r)) with (empty_paragraph ++ r).
        rewrite rstrip_by_app_all by exact Hr. reflexivity. }
  assert (Hold : AppOld.is_empty_content content = true <->
                 content = [] \/ content = empty_paragraph).
  { unfold AppOld.is_empty_content, str_eqb. rewrite orb_true_iff.
    rewrite !bool_decide_eq_true. tauto. }
  split; [exact Hnew|]. split; [exact Hold|]. split; [|split; reflexivity].
  intros E. apply Hold in E. apply is_empty_content_literals. exact E.
Qed.

(** ** The single-request listing *)

Section SingleListingProps.
Context `{PyRuntime} `{Service}.
Variables domain email api_token : str.

(** X15. The single-request listing sends exactly one request, whatever
    the Link header of the answer, and returns the results of a
    well-formed answer and the empty list for a failed one.  The limit
    it sends is never negative, and it is at most 250 exactly when the
    given limit is at least -250: a limit below -250 is sent as its
    absolute value, above the documented maximum. *)
Theorem get_confluence_pages_by_space_id_limit_one_request
    space_id limit st resp w' :
  http_get (st_world st) (limit_request domain email api_token space_id limit)
    = (Some resp, w') ->
  let run := get_confluence_pages_by_space_id_limit domain email api_token
               space_id limit st in
  log_since st (snd run)
    = [EvRequest (limit_request domain email api_token space_id limit)]
  /\ req_params (limit_request domain email api_token space_id limit)
     = [(lit "limit", py_format_int (clamp_limit limit))]
  /\ 0 <= clamp_limit limit
  /\ (clamp_limit limit <= 250 <-> -250 <= limit)
  /\ (forall items, listing_page resp items -> fst run = Ret (PList items))
  /\ (listing_failure resp -> fst run = Ret (PList [])).
Proof.
  intros Hget run. subst run. unfold get_confluence_pages_by_space_id_limit.
  rewrite (bind_ret_eq _ _ _ _ _ (requests_get_answered _ _ _ _ Hget)).
  unfold bind, lift. split; [|split; [reflexivity|split; [|split; [|split]]]].
  - destruct (py_in (lit "error") _) as [[|]| |];
      try destruct (py_in (lit "results") _) as [[|]| |];
      try destruct (py_getitem _ _); apply log_since_app; reflexivity.
  - unfold clamp_limit. destruct (Z.leb_spec limit 250); lia.
  - unfold clamp_limit. destruct (Z.leb_spec limit 250); lia.
  - intros items Hpage.
    destruct (listing_page_data _ _ Hpage) as (data & -> & He & Hr & Hg).
    rewrite He, Hr, Hg. reflexivity.
  - intros Hfail. destruct (listing_failure_data _ Hfail) as [-> | [-> ->]]; reflexivity.
Qed.

End SingleListingProps.

Lemma get_confluence_pages_by_space_id_limit_one_request_witness :
  fst (@get_confluence_pages_by_space_id_limit ascii_runtime paged_wiki
         demo_domain demo_email demo_token (PStr (lit "123")) (-300)
         (@fresh paged_wiki tt))
  = Ret (PList [page_entry "p1" "p1"; page_entry "p2" "p2"])
  /\ clamp_limit (-300) = 300.
Proof.
  destruct (@get_confluence_pages_by_space_id_limit_one_request ascii_runtime paged_wiki
              demo_domain demo_email demo_token (PStr (lit "123")) (-300)
              (@fresh paged_wiki tt) _ _ eq_refl)
    as (_ & _ & _ & _ & Hok & _).
  split; [|reflexivity]. apply Hok.
  split; [reflexivity|]. eexists. split; [reflexivity|]. split; reflexivity.
Defined.

(** ** The wait time *)

Section Waits.
Context `{PyRuntime} `{Service}.
Variables domain email api_token : str.

Lemma time_sleep_negative z st :
  z < 0 ->
  time_sleep z st
  = (Raise (if z <? - max_sleep then OverflowError else ValueError), st).
Proof.
  intros Hz. unfold time_sleep.
  assert (E2 : (max_sleep <? z) = false) by (apply Z.ltb_ge; unfold max_sleep; lia).
  assert (E3 : (z <? 0) = true) by (apply Z.ltb_lt; lia).
  rewrite E2, E3, orb_false_r. destruct (z <? - max_sleep); reflexivity.
Qed.

Lemma download_attempt_negative page_id fpt output_path gcs wait st :
  wait < 0 ->
  match get_pdf_export_confluence_url domain email api_token page_id st with
  | (Ret _, st1) =>
      download_attempt domain email api_token page_id fpt output_path gcs wait st
      = (Raise (if wait <? - max_sleep then OverflowError else ValueError), st1)
  | (Raise e, st1) =>
      download_attempt domain email api_token page_id fpt output_path gcs wait st
      = (Raise e, st1)
  | (OutOfFuel, st1) =>
      download_attempt domain email api_token page_id fpt output_path gcs wait st
      = (OutOfFuel, st1)
  end.
Proof.
  intros Hw.
  destruct (get_pdf_export_confluence_url _ _ _ _ st) as [[url|e|] st1] eqn:E;
    unfold download_attempt.
  - rewrite (bind_ret_eq _ _ _ _ _ E). unfold bind at 1.
    rewrite (time_sleep_negative _ _ Hw). reflexivity.
  - rewrite (bind_raise_eq _ _ _ _ _ E). reflexivity.
  - unfold bind at 1. rewrite E. reflexivity.
Qed.

(** X16. With a negative wait time no download is ever attempted: an
    attempt whose trigger step returned raises [ValueError] at the sleep
    that follows ([OverflowError] when the length is below what
    [time.sleep] can represent), so a page export returns only for an
    empty page. *)
Theorem negative_wait_time_raises_ValueError
    page_id page_title output_path gcs wait_time st :
  wait_time < 0 ->
  (forall label st',
     export_pdf_confluence_page_by_id domain email api_token page_id page_title
       output_path gcs (Some wait_time) st = (Ret label, st') ->
     label = EMPTY_PAGE)
  /\ (forall fpt url st1,
        get_pdf_export_confluence_url domain email api_token page_id st = (Ret url, st1) ->
        download_attempt domain email api_token page_id fpt output_path gcs wait_time st
        = (Raise (if wait_time <? - max_sleep then OverflowError else ValueError), st1)).
Proof.
  intros Hw. split.
  - intros label st'. unfold export_pdf_confluence_page_by_id, bind at 1.
    destruct (resolve_file_page_title _ _ _ _ _ st) as [[fpt|e|] st1]; try discriminate.
    unfold bind at 1.
    destruct (is_empty_confluence_page _ _ _ _ st1) as [[[|]|e|] st2]; try discriminate.
    { intros [= <- _]. reflexivity. }
    assert (Ew : initial_wait (Some wait_time) = wait_time).
    { unfold initial_wait. destruct (Z.eqb_spec wait_time 0); [lia|reflexivity]. }
    rewrite Ew. cbn [retry_loop]. unfold bind at 1.
    pose proof (download_attempt_negative page_id fpt output_path gcs wait_time st2 Hw) as Ha.
    destruct (get_pdf_export_confluence_url _ _ _ _ st2) as [[url|e|] st3];
      rewrite Ha; discriminate.
  - intros fpt url st1 Eu.
    pose proof (download_attempt_negative page_id fpt output_path gcs wait_time st Hw) as Ha.
    rewrite Eu in Ha. exact Ha.
Qed.

Lemma export_pages_wait items m output_path gcs w1 w2 st :
  initial_wait w1 = initial_wait w2 ->
  export_pages domain email api_token items m output_path gcs w1 st
  = export_pages domain email api_token items m output_path gcs w2 st.
Proof.
  intros Hw. revert m st. induction items as [|[page_id page_title] rest IH]; intros m st.
  - reflexivity.
  - cbn [export_pages].
    assert (Ep : export_pdf_confluence_page_by_id domain email api_token page_id page_title
                   output_path gcs w1 st
                 = export_pdf_confluence_page_by_id domain email api_token page_id
                     page_title output_path gcs w2 st).
    { unfold export_pdf_confluence_page_by_id. rewrite Hw. reflexivity. }
    unfold bind. rewrite Ep.
    destruct (export_pdf_confluence_page_by_id _ _ _ _ _ _ _ w2 st) as [[label|e|] st1];
      try reflexivity.
    apply IH.
Qed.

(** X17. A page export and a space job depend on the wait time through
    the initial wait only, and no wait time, 0 and 15 all give the
    initial wait 15: a wait time of 0 does not switch the wait off. *)
Theorem wait_time_defaults_to_15 w1 w2 :
  initial_wait w1 = initial_wait w2 ->
  (forall page_id page_title output_path gcs st,
     export_pdf_confluence_page_by_id domain email api_token page_id page_title
       output_path gcs w1 st
     = export_pdf_confluence_page_by_id domain email api_token page_id page_title
         output_path gcs w2 st)
  /\ (forall fuel space_key output_path gcs st,
        export_pdf_confluence_space_by_key domain email api_token fuel space_key
          output_path gcs w1 st
        = export_pdf_confluence_space_by_key domain email api_token fuel space_key
            output_path gcs w2 st)
  /\ initial_wait None = 15 /\ initial_wait (Some 0) = 15 /\ initial_wait (Some 15) = 15.
Proof.
  intros Hw. split; [|split; [|repeat split]].
  - intros. unfold export_pdf_confluence_page_by_id. rewrite Hw. reflexivity.
  - intros. unfold export_pdf_confluence_space_by_key, bind.
    destruct (enumerate_space _ _ _ _ _ st) as [[[pages|]|e|] st1]; try reflexivity.
    rewrite (export_pages_wait _ _ _ _ _ _ _ Hw). reflexivity.
Qed.

End Waits.

Lemma negative_wait_time_raises_ValueError_witness :
  (forall label st',
     @export_pdf_confluence_page_by_id ascii_runtime healthy_wiki
       demo_domain demo_email demo_token child_b (PStr (lit "Child B"))
       None None (Some (-5)) (@fresh healthy_wiki tt) = (Ret label, st') ->
     label = EMPTY_PAGE)
  /\ (forall fpt url st1,
        @get_pdf_export_confluence_url ascii_runtime healthy_wiki
          demo_domain demo_email demo_token child_b (@fresh healthy_wiki tt)
        = (Ret url, st1) ->
        @download_attempt ascii_runtime healthy_wiki demo_domain demo_email demo_token
          child_b fpt None None (-5) (@fresh healthy_wiki tt)
        = (Raise ValueError, st1)).
Proof.
  apply (@negative_wait_time_raises_ValueError ascii_runtime healthy_wiki
           demo_domain demo_email demo_token child_b (PStr (lit "Child B"))
           None None (-5) (@fresh healthy_wiki tt)).
  lia.
Defined.

Lemma wait_time_defaults_to_15_witness :
  @export_pdf_confluence_space_by_key ascii_runtime healthy_wiki
    demo_domain demo_email demo_token 3 (lit "OR") None None None (@fresh healthy_wiki tt)
  = @export_pdf_confluence_space_by_key ascii_runtime healthy_wiki
      demo_domain demo_email demo_token 3 (lit "OR") None None (Some 0)
      (@fresh healthy_wiki tt).
Proof.
  destruct (@wait_time_defaults_to_15 ascii_runtime healthy_wiki
              demo_domain demo_email demo_token None (Some 0) eq_refl) as (_ & Hjob & _).
  apply Hjob.
Defined.

(** ** The download to the file system *)

Section Paths.
Context `{PyRuntime} `{Service}.



End Paths.

(** ** The request handlers *)

Section HandlerProps.
Context `{PyRuntime} `{Service}.

(** X19. The page handler converts the wait time before it checks the
    required parameters: a job description without a wait time raises
    [TypeError], with no request made, whether or not the required
    parameters are there.  With a wait time, a missing or empty required
    parameter gives the missing-parameters answer, again without a
    request, and a complete description gives the label of the page
    export run with these parameters.  The space handler needs no wait
    time: it answers missing parameters or runs the job. *)
Theorem export_pdf_page_converts_wait_time_first data fuel st :
  (jd_wait_time data = None -> export_pdf_page data st = (Raise TypeError, st))
  /\ (forall wait_time, jd_wait_time data = Some wait_time ->
        match provided (jd_domain data), provided (jd_email data),
              provided (jd_api_token data), provided (jd_page_id data) with
        | Some domain, Some email, Some api_token, Some page_id =>
            export_pdf_page data st
            = (let (r, st') :=
                 export_pdf_confluence_page_by_id domain email api_token (PStr page_id)
                   (optional_value (jd_page_title data)) (jd_output_path data)
                   (jd_gcs_bucket_name data) (Some wait_time) st in
               (res_map PageResults r, st'))
        | _, _, _, _ => export_pdf_page data st = (Ret MissingParameters, st)
        end)
  /\ match provided (jd_domain data), provided (jd_email data),
           provided (jd_api_token data), provided (jd_space_key data) with
     | Some domain, Some email, Some api_token, Some space_key =>
         export_pdf_space fuel data st
         = (let (r, st') :=
              export_pdf_confluence_space_by_key domain email api_token fuel space_key
                (jd_output_path data) (jd_gcs_bucket_name data) (jd_wait_time data) st in
            (res_map SpaceResults r, st'))
     | _, _, _, _ => export_pdf_space fuel data st = (Ret MissingParameters, st)
     end.
Proof.
  split; [|split].
  - intros E. unfold export_pdf_page, bind, lift. rewrite E. reflexivity.
  - intros wait_time E. unfold export_pdf_page, bind at 1, lift. rewrite E.
    destruct (provided (jd_domain data)); [|reflexivity].
    destruct (provided (jd_email data)); [|reflexivity].
    destruct (provided (jd_api_token data)); [|reflexivity].
    destruct (provided (jd_page_id data)); [|reflexivity].
    unfold bind. destruct (export_pdf_confluence_page_by_id _ _ _ _ _ _ _ _ st) as [[?|?|] ?];
      reflexivity.
  - unfold export_pdf_space.
    destruct (provided (jd_domain data)); [|reflexivity].
    destruct (provided (jd_email data)); [|reflexivity].
    destruct (provided (jd_api_token data)); [|reflexivity].
    destruct (provided (jd_space_key data)); [|reflexivity].
    unfold bind.
    destruct (export_pdf_confluence_space_by_key _ _ _ _ _ _ _ _ st) as [[?|?|] ?];
      reflexivity.
Qed.

End HandlerProps.

(** ** The result map *)

Section ResultMap.
Context `{PyRuntime} `{Service}.
Variables domain email api_token : str.

Lemma page_run_label wait label run :
  page_run wait label run ->
  label = EMPTY_PAGE \/ label = DOWNLOAD_SUCCESFUL \/ label = DOWNLOAD_FAILED.
Proof. destruct 1; auto. Qed.

Lemma record_outcomes_lookup (P : str -> Prop) m0 (outcomes : list (pyval * str)) :
  (forall label l, m0 !! label = Some l -> l <> [] /\ P label) ->
  Forall (fun p => P (snd p)) outcomes ->
  forall label l, record_outcomes m0 outcomes !! label = Some l -> l <> [] /\ P label.
Proof.
  revert m0. induction outcomes as [|[id lab] outcomes IH]; intros m0 Hm Ho; [exact Hm|].
  inversion Ho as [|? ? Hlab Ho']; subst. unfold record_outcomes. cbn [foldl].
  apply (IH (add_value_to_dict m0 lab id)); [|exact Ho'].
  intros label l. unfold add_value_to_dict. cbn [fst snd].
  destruct (m0 !! lab) as [l0|] eqn:E0.
  - destruct (decide (lab = label)) as [<-|Hne].
    + rewrite lookup_insert_eq. intros [= <-]. split; [|exact Hlab].
      destruct l0; discriminate.
    + rewrite lookup_insert_ne by exact Hne. apply Hm.
  - destruct (decide (lab = label)) as [<-|Hne].
    + rewrite lookup_insert_eq. intros [= <-]. split; [discriminate|exact Hlab].
    + rewrite lookup_insert_ne by exact Hne. apply Hm.
Qed.

Lemma three_buckets_count (outcomes : list (pyval * str)) :
  Forall (fun p => snd p = EMPTY_PAGE \/ snd p = DOWNLOAD_SUCCESFUL
                   \/ snd p = DOWNLOAD_FAILED) outcomes ->
  (length (filter (fun p => snd p = EMPTY_PAGE) outcomes)
   + length (filter (fun p => snd p = DOWNLOAD_SUCCESFUL) outcomes)
   + length (filter (fun p => snd p = DOWNLOAD_FAILED) outcomes)
   = length outcomes)%nat.
Proof.
  destruct labels_distinct as (Hsf & Hef & Hes).
  induction 1 as [|[id lab] outcomes Hlab _ IH]; [reflexivity|].
  rewrite !filter_cons. cbn [snd] in *.
  destruct Hlab as [-> | [-> | ->]];
    repeat case_decide; try congruence; cbn [length]; lia.
Qed.

(** X20. The result map of a completed job has no other keys than the
    three outcome labels, it has no empty list, and its lists together
    hold as many ids as pages were enumerated. *)
Theorem result_map_has_three_labels
    fuel space_key output_path gcs wait_time st m st' :
  export_pdf_confluence_space_by_key domain email api_token
    fuel space_key output_path gcs wait_time st = (Ret (Some m), st') ->
  exists pages st1,
    enumerate_space domain email api_token fuel space_key st = (Ret (Some pages), st1)
    /\ (forall label l, m !! label = Some l ->
          l <> [] /\ (label = EMPTY_PAGE \/ label = DOWNLOAD_SUCCESFUL
                      \/ label = DOWNLOAD_FAILED))
    /\ (length (bucket m EMPTY_PAGE) + length (bucket m DOWNLOAD_SUCCESFUL)
        + length (bucket m DOWNLOAD_FAILED) = length pages)%nat.
Proof.
  intros Hjob. destruct (job_returns_map _ _ _ _ _ _ _ _ _ _ _ Hjob)
    as (pages & st1 & He & Hp).
  exists pages, st1. split; [exact He|].
  destruct (export_pages_outcomes _ _ _ _ _ _ _ _ _ _ _ Hp)
    as (d & _ & labels & runs & Hlen & -> & _ & Hruns).
  assert (Hlabels : Forall (fun p : pyval * str =>
                      snd p = EMPTY_PAGE \/ snd p = DOWNLOAD_SUCCESFUL
                      \/ snd p = DOWNLOAD_FAILED) (zip pages.*1 labels)).
  { apply Forall_forall. intros [id lab] Hin. cbn [snd].
    apply elem_of_zip_r in Hin.
    apply (Forall2_Forall_l _ (fun lab => lab = EMPTY_PAGE \/ lab = DOWNLOAD_SUCCESFUL
                                          \/ lab = DOWNLOAD_FAILED)) in Hruns.
    - rewrite Forall_forall in Hruns. exact (Hruns _ Hin).
    - apply Forall_forall. intros run _ lab' Hr. exact (page_run_label _ _ _ Hr). }
  split.
  - apply (record_outcomes_lookup
             (fun label => label = EMPTY_PAGE \/ label = DOWNLOAD_SUCCESFUL
                           \/ label = DOWNLOAD_FAILED) ∅ _); [|exact Hlabels].
    intros label l Hl. rewrite lookup_empty in Hl. discriminate Hl.
  - rewrite !bucket_record_outcomes, !bucket_empty, !app_nil_l, !length_fmap.
    rewrite (three_buckets_count _ Hlabels), length_zip, length_fmap. lia.
Qed.

End ResultMap.

Lemma result_map_has_three_labels_witness :
  exists pages st1,
    @enumerate_space ascii_runtime unrendered_wiki demo_domain demo_email demo_token
      5 (lit "OR") (@fresh unrendered_wiki tt) = (Ret (Some pages), st1)
    /\ (forall label l, unrendered_result !! label = Some l ->
          l <> [] /\ (label = EMPTY_PAGE \/ label = DOWNLOAD_SUCCESFUL
                      \/ label = DOWNLOAD_FAILED))
    /\ (length (bucket unrendered_result EMPTY_PAGE)
        + length (bucket unrendered_result DOWNLOAD_SUCCESFUL)
        + length (bucket unrendered_result DOWNLOAD_FAILED) = length pages)%nat.
Proof.
  eapply (@result_map_has_three_labels ascii_runtime unrendered_wiki
            demo_domain demo_email demo_token 5 (lit "OR") None None None
            (@fresh unrendered_wiki tt) unrendered_result).
  vm_compute. reflexivity.
Defined.

(** ** The id-to-title dictionary *)

Lemma key_eqb_sym a b : key_eqb a b = key_eqb b a.
Proof.
  destruct a as [|x|x|x| |], b as [|y|y|y| |]; cbn [key_eqb]; try reflexivity.
  - destruct x, y; reflexivity.
  - apply Z.eqb_sym.
  - unfold str_eqb. apply bool_decide_ext. split; congruence.
Qed.

Lemma key_eqb_trans a b c :
  key_eqb a b = true -> key_eqb b c = true -> key_eqb a c = true.
Proof.
  destruct a as [|x|x|x| |], b as [|y|y|y| |], c as [|z|z|z| |]; cbn [key_eqb];
    try discriminate; try reflexivity;
    try (destruct x); try (destruct y); try (destruct z);
    cbn [Bool.eqb]; try discriminate; try reflexivity;
    unfold str_eqb; rewrite ?Z.eqb_eq, ?bool_decide_eq_true; try lia; try congruence.
Qed.

Lemma key_eqb_cong a b c : key_eqb a b = true -> key_eqb a c = key_eqb b c.
Proof.
  intros Hab. destruct (key_eqb b c) eqn:Hbc.
  - exact (key_eqb_trans _ _ _ Hab Hbc).
  - destruct (key_eqb a c) eqn:Hac; [|reflexivity].
    rewrite key_eqb_sym in Hab. rewrite <- Hbc. symmetry.
    exact (key_eqb_trans _ _ _ Hab Hac).
Qed.

Lemma dict_get_dict_set d k v k' :
  dict_get (dict_set d k v) k' = if key_eqb k k' then Some v else dict_get d k'.
Proof.
  induction d as [|[k0 v0] d IH]; cbn [dict_set dict_get]; [reflexivity|].
  destruct (key_eqb k0 k) eqn:E0; cbn [dict_get].
  - rewrite (key_eqb_cong _ _ k' E0). destruct (key_eqb k k'); reflexivity.
  - rewrite IH. destruct (key_eqb k0 k') eqn:E1; [|reflexivity].
    destruct (key_eqb k k') eqn:E2; [|reflexivity].
    rewrite key_eqb_sym in E2. rewrite (key_eqb_trans _ _ _ E1 E2) in E0. discriminate E0.
Qed.

Lemma dict_get_app d1 d2 k :
  dict_get (d1 ++ d2) k = match dict_get d1 k with
                          | Some v => Some v
                          | None => dict_get d2 k
                          end.
Proof.
  induction d1 as [|[k0 v0] d1 IH]; cbn [app dict_get]; [reflexivity|].
  destruct (key_eqb k0 k); [reflexivity|exact IH].
Qed.

Lemma dict_set_length d k v : (length (dict_set d k v) <= S (length d))%nat.
Proof.
  induction d as [|[k0 v0] d IH]; cbn [dict_set length]; [lia|].
  destruct (key_eqb k0 k); cbn [length]; lia.
Qed.

Lemma build_pages_ids_dict_entries pages entries d0 :
  Forall2 is_entry pages entries ->
  Forall (fun e => hashable (fst e) = true) entries ->
  exists d, build_pages_ids_dict pages d0 = Ret d
    /\ (forall k, dict_get d k = match last_title entries k with
                                 | Some v => Some v
                                 | None => dict_get d0 k
                                 end)
    /\ (length d <= length d0 + length entries)%nat.
Proof.
  intros Hp. revert d0.
  induction Hp as [|page [id title] pages entries (fields & -> & Hid & Htitle) _ IH];
    intros d0 Hh.
  - exists d0. split; [reflexivity|]. split; [reflexivity|simpl; lia].
  - inversion Hh as [|? ? Hh1 Hh']; subst. cbn [fst snd] in *.
    cbn [build_pages_ids_dict py_getitem]. rewrite Htitle, Hid. cbn [res_bind].
    rewrite Hh1. destruct (IH (dict_set d0 id title) Hh') as (d & Eb & Hget & Hlen).
    exists d. split; [exact Eb|]. split.
    + intros k. rewrite Hget. unfold last_title. cbn [rev]. rewrite dict_get_app.
      destruct (dict_get (rev entries) k); [reflexivity|].
      rewrite dict_get_dict_set. cbn [dict_get]. destruct (key_eqb id k); reflexivity.
    + pose proof (dict_set_length d0 id title). cbn [length]. lia.
Qed.

(** X21. From a listing whose entries carry an id and a title, with ids
    that can be dictionary keys, the job builds a dictionary without two
    equal keys in which every id has the title of its last entry: a
    page listed twice is exported once, under the later title. *)
Theorem build_pages_ids_dict_last_title_wins pages entries :
  Forall2 is_entry pages entries ->
  Forall (fun e => hashable (fst e) = true) entries ->
  exists d,
    build_pages_ids_dict pages [] = Ret d
    /\ NoDup d.*1
    /\ (forall k, dict_get d k = last_title entries k)
    /\ (length d <= length entries)%nat.
Proof.
  intros Hp Hh.
  destruct (build_pages_ids_dict_entries pages entries [] Hp Hh) as (d & Eb & Hget & Hlen).
  exists d. split; [exact Eb|]. split; [|split; [|exact Hlen]].
  - apply distinct_keys_NoDup.
    apply (build_pages_ids_dict_distinct _ _ _ Eb). constructor.
  - intros k. rewrite Hget. destruct (last_title entries k); reflexivity.
Qed.

Lemma build_pages_ids_dict_last_title_wins_witness :
  exists d,
    build_pages_ids_dict
      [page_entry "p1" "Draft"; page_entry "p2" "Notes"; page_entry "p1" "Final"] []
    = Ret d
    /\ NoDup d.*1
    /\ (forall k, dict_get d k
                  = last_title [(PStr (lit "p1"), PStr (lit "Draft"));
                                (PStr (lit "p2"), PStr (lit "Notes"));
                                (PStr (lit "p1"), PStr (lit "Final"))] k)
    /\ (length d <= 3)%nat.
Proof.
  apply (build_pages_ids_dict_last_title_wins
           [page_entry "p1" "Draft"; page_entry "p2" "Notes"; page_entry "p1" "Final"]
           [(PStr (lit "p1"), PStr (lit "Draft"));
            (PStr (lit "p2"), PStr (lit "Notes"));
            (PStr (lit "p1"), PStr (lit "Final"))]).
  - repeat constructor; eexists; (split; [reflexivity|split; reflexivity]).
  - repeat constructor.
Defined.

(** ** The recursive children listing *)

Lemma distinct_keys_hashable ks : distinct_keys ks -> Forall (fun k => hashable k = true) ks.
Proof. induction 1; constructor; assumption. Qed.

Lemma dict_set_prefix d k v : d.*1 `prefix_of` (dict_set d k v).*1.
Proof.
  induction d as [|[k0 v0] d IH]; cbn [dict_set fmap list_fmap].
  - apply prefix_nil.
  - destruct (key_eqb k0 k); cbn [fmap list_fmap fst]; [reflexivity|].
    apply prefix_cons, IH.
Qed.

Lemma dict_update_keys d other :
  distinct_keys d.*1 -> Forall (fun k => hashable k = true) other.*1 ->
  distinct_keys (dict_update d other).*1 /\ d.*1 `prefix_of` (dict_update d other).*1.
Proof.
  revert d. induction other as [|[k v] other IH]; intros d Hd Ho.
  - split; [exact Hd|reflexivity].
  - inversion Ho as [|? ? Hk Ho']; subst. unfold dict_update. cbn [foldl fst snd].
    destruct (IH (dict_set d k v) (dict_set_distinct _ _ _ Hd Hk) Ho') as (Hd' & Hp).
    split; [exact Hd'|]. etransitivity; [apply dict_set_prefix|exact Hp].
Qed.

Section ChildrenProps.
Context `{PyRuntime} `{Service}.
Variables domain email api_token : str.

Lemma children_loop_distinct fuel url d st listed st' :
  children_loop domain email api_token fuel url d st = (Ret (Some listed), st') ->
  distinct_keys d.*1 -> distinct_keys listed.*1.
Proof.
  revert url d st. induction fuel as [|fuel IH]; intros url d st.
  - destruct url as [[|c u]|]; cbn [children_loop]; try discriminate;
      intros [= <- _] Hd; exact Hd.
  - destruct url as [[|c u]|]; cbn [children_loop];
      try (intros [= <- _] Hd; exact Hd).
    unfold bind at 1.
    destruct (requests_get _ st) as [[resp|e|] st1]; try discriminate.
    unfold bind at 1, lift at 1.
    destruct (py_in (lit "error") _) as [[|]| |]; try discriminate.
    unfold bind at 1, lift at 1.
    destruct (py_in (lit "results") _) as [[|]| |]; try discriminate. cbn [negb].
    unfold bind at 1, lift at 1.
    destruct (py_getitem _ _) as [results| |]; try discriminate.
    unfold bind at 1, lift at 1.
    destruct (py_iter results) as [children| |]; try discriminate.
    unfold bind at 1, lift at 1.
    destruct (build_pages_ids_dict children d) as [d1| |] eqn:Eb; try discriminate.
    unfold bind at 1, lift at 1.
    destruct (next_page_url domain (link_header resp)) as [next| |]; try discriminate.
    intros E Hd. apply (IH _ _ _ E). exact (build_pages_ids_dict_distinct _ _ _ Eb Hd).
Qed.

Lemma merge_descendants_keys (descend : pyval -> M (list (pyval * pyval))) :
  (forall id st d st', descend id st = (Ret d, st') -> distinct_keys d.*1) ->
  forall child_ids d st d' st',
    merge_descendants descend child_ids d st = (Ret d', st') ->
    distinct_keys d.*1 ->
    distinct_keys d'.*1 /\ d.*1 `prefix_of` d'.*1.
Proof.
  intros Hdesc child_ids. induction child_ids as [|child rest IH]; intros d st d' st'.
  - intros [= <- _] Hd. split; [exact Hd|reflexivity].
  - cbn [merge_descendants]. unfold bind at 1.
    destruct (descend child st) as [[sub|e|] st1] eqn:Es; try discriminate.
    intros E Hd.
    destruct (dict_update_keys d sub Hd
                (distinct_keys_hashable _ (Hdesc _ _ _ _ Es))) as (Hd1 & Hp1).
    destruct (IH _ _ _ _ E Hd1) as (Hd' & Hp').
    split; [exact Hd'|]. etransitivity; eassumption.
Qed.

Lemma children_recursive_distinct fuel page_id st d st' :
  get_confluence_children_by_parent_page_id_recursive domain email api_token
    fuel page_id st = (Ret d, st') ->
  distinct_keys d.*1.
Proof.
  revert page_id st d st'. induction fuel as [|fuel IH]; intros page_id st d st';
    [discriminate|].
  cbn [get_confluence_children_by_parent_page_id_recursive]. unfold bind at 1.
  destruct (children_loop _ _ _ _ _ _ st) as [[[listed|]|e|] st1] eqn:El;
    try discriminate.
  - intros E.
    apply (merge_descendants_keys _ IH _ _ _ _ _ E).
    apply (children_loop_distinct _ _ _ _ _ _ El). constructor.
  - intros [= <- _]. constructor.
Qed.

(** X22. The dictionary the recursive children listing returns has no
    two equal keys.  It starts with the page's own children, in listing
    order, and the descendants follow; when the page's own listing
    fails, the result is empty and no descendant is asked for. *)
Theorem children_recursive_keys fuel page_id st d st' :
  get_confluence_children_by_parent_page_id_recursive domain email api_token
    (S fuel) page_id st = (Ret d, st') ->
  NoDup d.*1
  /\ match children_loop domain email api_token fuel
             (Some (children_url domain page_id)) [] st with
     | (Ret (Some listed), _) => listed.*1 `prefix_of` d.*1
     | (Ret None, st1) => d = [] /\ st' = st1
     | _ => False
     end.
Proof.
  intros E. split.
  { apply distinct_keys_NoDup. exact (children_recursive_distinct _ _ _ _ _ E). }
  cbn [get_confluence_children_by_parent_page_id_recursive] in E. unfold bind at 1 in E.
  destruct (children_loop _ _ _ _ _ _ st) as [[[listed|]|e|] st1] eqn:El;
    try discriminate E.
  - apply (merge_descendants_keys _ (children_recursive_distinct fuel) _ _ _ _ _ E).
    apply (children_loop_distinct _ _ _ _ _ _ El). constructor.
  - injection E as <- <-. split; reflexivity.
Qed.

End ChildrenProps.

Lemma children_recursive_keys_witness :
  let d := [(PStr (lit "a"), PStr (lit "A")); (PStr (lit "b"), PStr (lit "B"));
            (PStr (lit "c"), PStr (lit "C"))] in
  NoDup d.*1
  /\ match @children_loop tree_wiki demo_domain demo_email demo_token 3
             (Some (@children_url ascii_runtime demo_domain (PStr (lit "root")))) []
             (@fresh tree_wiki tt) with
     | (Ret (Some listed), _) => listed.*1 `prefix_of` d.*1
     | (Ret None, st1) =>
         d = []
         /\ snd (@get_confluence_children_by_parent_page_id_recursive ascii_runtime
                   tree_wiki demo_domain demo_email demo_token 4 (PStr (lit "root"))
                   (@fresh tree_wiki tt)) = st1
     | _ => False
     end.
Proof.
  apply (@children_recursive_keys ascii_runtime tree_wiki demo_domain demo_email demo_token
           3 (PStr (lit "root")) (@fresh tree_wiki tt)).
  vm_compute. reflexivity.
Defined.

(** ** The download link *)

Section DownloadLinkProps.
Context `{PyRuntime} `{Service}.
Variables domain email api_token : str.

(** X23. When the export page carries both identifiers, the client asks
    for the download link of that task and cloud, two requests in all,
    and returns the body of the answer as the link, whatever the status
    of that answer: a failed download-link request is not told apart
    from a link. *)
Theorem get_pdf_export_confluence_url_link
    page_id st resp w1 task cloud resp2 w2 :
  http_get (st_world st) (trigger_request domain email api_token page_id)
    = (Some resp, w1) ->
  status_code resp = 200 ->
  re_search_meta (lit "ajs-taskId") (text resp) = Some task ->
  re_search_meta (lit "ajs-cloud-id") (text resp) = Some cloud ->
  let link_request :=
    api_request email api_token DownloadLink
      (lit "https://" ++ domain ++ lit "/wiki/services/api/v1/download/pdf?taskId="
       ++ task ++ lit "&cloudId=" ++ cloud) [] in
  http_get w1 link_request = (Some resp2, w2) ->
  get_pdf_export_confluence_url domain email api_token page_id st
  = (Ret (PStr (text resp2)),
     {| st_world := w2;
        st_log := st_log st
                  ++ [EvRequest (trigger_request domain email api_token page_id);
                      EvRequest link_request] |}).
Proof.
  intros Hget H200 Ht Hc link_request Hlink. unfold get_pdf_export_confluence_url.
  rewrite (bind_ret_eq _ _ _ _ _ (requests_get_answered _ _ _ _ Hget)).
  rewrite H200. change (negb (200 =? 200)) with false. cbv iota.
  pose proof (re_search_meta_sound _ _ _ Ht) as (_ & _ & _ & _ & _ & _ & _ & _ & _ & Ht' & _).
  pose proof (re_search_meta_sound _ _ _ Hc) as (_ & _ & _ & _ & _ & _ & _ & _ & _ & Hc' & _).
  unfold extract_task_and_cloud_id_from_html. rewrite Ht, Hc.
  destruct task as [|t0 task]; [contradiction|]. destruct cloud as [|c0 cloud]; [contradiction|].
  change (truthy (PStr (t0 :: task)) && truthy (PStr (c0 :: cloud))) with true. cbv iota.
  change (truthy (PDict _)) with true. cbv iota.
  unfold bind at 1. unfold lift at 1. rewrite py_getitem_taskId.
  unfold bind at 1. unfold lift at 1. rewrite py_getitem_cloudId.
  cbn [py_format].
  unfold bind, requests_get. cbn [st_world st_log]. fold link_request. rewrite Hlink.
  unfold ret. rewrite <- app_assoc. reflexivity.
Qed.

End DownloadLinkProps.

Lemma get_pdf_export_confluence_url_link_witness :
  @get_pdf_export_confluence_url ascii_runtime healthy_wiki
    demo_domain demo_email demo_token child_b (@fresh healthy_wiki tt)
  = (Ret (PStr (lit "https://signed.example/doc.pdf")),
     @Build_state healthy_wiki tt
       [EvRequest (@trigger_request ascii_runtime demo_domain demo_email demo_token child_b);
        EvRequest (api_request demo_email demo_token DownloadLink
                     (lit "https://" ++ demo_domain
                      ++ lit "/wiki/services/api/v1/download/pdf?taskId="
                      ++ lit "7001" ++ lit "&cloudId=" ++ lit "c0ffee") [])]).
Proof.
  apply (@get_pdf_export_confluence_url_link ascii_runtime healthy_wiki
           demo_domain demo_email demo_token child_b (@fresh healthy_wiki tt)
           trigger_ok tt (lit "7001") (lit "c0ffee")
           (text_response 200 (lit "https://signed.example/doc.pdf")) tt);
    vm_compute; reflexivity.
Defined.

(** ** The page title *)

Section Titles.
Context `{PyRuntime} `{Service}.
Variables domain email api_token : str.


End Titles.

